(** * Crypto-Realtime-QuestDB: ingestion and aggregation pipeline

    A shallow embedding of the streaming pipeline of the repository
    (websocket_client.py, database.py, main.py, config.py, models.py and the
    monolithic crypto_ingestion.py) and the properties of it that the
    specification states.

    Conventions of the embedding.
    - A Python [float] (and a QuestDB DOUBLE) is an exact rational [Q]:
      rounding, infinities and NaN are not modelled.
    - A QuestDB TIMESTAMP is a number of microseconds since the epoch, [Z].
    - A Python [dict] is an association list in insertion order, a JSON value
      is a [pyval].
    - Code that raises, or that awaits something that never completes, runs
      in the monad [M]: a world passed explicitly and one of three results,
      [Ret], [Raise] or [Hang].
    - What other tasks do while a coroutine awaits is part of the input: the
      stop signal of the feed loops, and for the publish the steps that the
      [websocket_endpoint] tasks take on the registry during each awaited
      send (module [Interleaved]). *)

From Stdlib Require Import ZArith QArith List String Ascii Bool Lia.
Import ListNotations.

Local Open Scope string_scope.
Local Open Scope list_scope.
Local Open Scope Z_scope.

(* ===================================================================== *)
(** * Time normalizer *)
(* ===================================================================== *)

Module Time.

(** [datetime.datetime]: the wall-clock fields and [tzinfo], [None] for a
    naive value, [Some off] for a fixed offset of [off] microseconds east of
    UTC ([timezone.utc] is [Some 0]). *)
Record datetime := mkDatetime {
  year : Z; month : Z; day : Z;
  hour : Z; minute : Z; second : Z; microsecond : Z;
  tzinfo : option Z
}.

Definition digit_of (c : ascii) : option Z :=
  let n := Z.of_nat (nat_of_ascii c) in
  if (48 <=? n) && (n <=? 57) then Some (n - 48) else None.

(** Exactly [n] decimal digits, most significant first. *)
Fixpoint digits_acc (n : nat) (acc : Z) (l : list ascii) : option (Z * list ascii) :=
  match n with
  | O => Some (acc, l)
  | S n' =>
      match l with
      | [] => None
      | c :: t =>
          match digit_of c with
          | Some d => digits_acc n' (10 * acc + d) t
          | None => None
          end
      end
  end.

Definition digits (n : nat) (l : list ascii) : option (Z * list ascii) :=
  digits_acc n 0 l.

Definition expect (c : ascii) (l : list ascii) : option (list ascii) :=
  match l with
  | c' :: t => if Ascii.eqb c c' then Some t else None
  | [] => None
  end.

Definition is_leap (y : Z) : bool :=
  (y mod 4 =? 0) && (negb (y mod 100 =? 0) || (y mod 400 =? 0)).

Definition days_in_month (y m : Z) : Z :=
  if m =? 2 then (if is_leap y then 29 else 28)
  else if (m =? 4) || (m =? 6) || (m =? 9) || (m =? 11) then 30 else 31.

Definition in_range (lo x hi : Z) : bool := (lo <=? x) && (x <=? hi).

(** The checks of the [datetime] constructor. *)
Definition valid_fields (y mo d h mi s us : Z) : bool :=
  in_range 1 y 9999 && in_range 1 mo 12 && in_range 1 d (days_in_month y mo)
  && in_range 0 h 23 && in_range 0 mi 59 && in_range 0 s 59
  && in_range 0 us 999999.

(** [.fff] or [.ffffff] at the end of a clock reading: the fraction in
    microseconds and what follows it. *)
Definition parse_fraction (l : list ascii) (stop : list ascii -> bool)
  : option (Z * list ascii) :=
  match digits 6 l with
  | Some (us, r) => if stop r then Some (us, r) else None
  | None =>
      match digits 3 l with
      | Some (ms, r) => if stop r then Some (ms * 1000, r) else None
      | None => None
      end
  end.

(** [HH[:MM[:SS[.fff[fff]]]]], read up to the first character for which
    [stop] holds (the end of the text, or the sign of an offset). *)
Definition parse_hh_mm_ss_ff (l : list ascii) (stop : list ascii -> bool)
  : option (Z * Z * Z * Z * list ascii) :=
  match digits 2 l with
  | None => None
  | Some (h, r1) =>
      if stop r1 then Some (h, 0, 0, 0, r1) else
      match expect ":" r1 with
      | None => None
      | Some r2 =>
          match digits 2 r2 with
          | None => None
          | Some (mi, r3) =>
              if stop r3 then Some (h, mi, 0, 0, r3) else
              match expect ":" r3 with
              | None => None
              | Some r4 =>
                  match digits 2 r4 with
                  | None => None
                  | Some (s, r5) =>
                      if stop r5 then Some (h, mi, s, 0, r5) else
                      match expect "." r5 with
                      | None => None
                      | Some r6 =>
                          match parse_fraction r6 stop with
                          | Some (us, r7) => Some (h, mi, s, us, r7)
                          | None => None
                          end
                      end
                  end
              end
          end
      end
  end.

Definition at_end (l : list ascii) : bool :=
  match l with [] => true | _ => false end.

Definition at_sign_or_end (l : list ascii) : bool :=
  match l with
  | [] => true
  | c :: _ => Ascii.eqb c "+" || Ascii.eqb c "-"
  end.

Definition usec_per_second : Z := 1000000.
Definition usec_per_day : Z := 86400 * usec_per_second.

(** The offset after the clock reading: nothing, or a sign and
    [HH:MM[:SS[.ffffff]]]; an offset must be strictly inside one day. *)
Definition parse_offset (l : list ascii) : option (option Z) :=
  match l with
  | [] => Some None
  | c :: t =>
      let len := List.length t in
      if negb ((len =? 5)%nat || (len =? 8)%nat || (len =? 15)%nat) then None else
      match parse_hh_mm_ss_ff t at_end with
      | Some (h, mi, s, us, _) =>
          let magnitude := ((h * 3600 + mi * 60 + s) * usec_per_second + us) in
          let off := if Ascii.eqb c "-" then - magnitude else magnitude in
          if (- usec_per_day <? off) && (off <? usec_per_day)
          then Some (Some off) else None
      | None => None
      end
  end.

(** [datetime.fromisoformat], for the grammar that Python 3.7 to 3.10
    document, [YYYY-MM-DD[*HH[:MM[:SS[.fff[fff]]]][+HH:MM[:SS[.ffffff]]]]];
    [None] stands for [ValueError]. *)
Definition fromisoformat (s : string) : option datetime :=
  match digits 4 (list_ascii_of_string s) with
  | None => None
  | Some (y, r1) =>
  match expect "-" r1 with
  | None => None
  | Some r2 =>
  match digits 2 r2 with
  | None => None
  | Some (mo, r3) =>
  match expect "-" r3 with
  | None => None
  | Some r4 =>
  match digits 2 r4 with
  | None => None
  | Some (d, r5) =>
      match r5 with
      | [] =>
          if valid_fields y mo d 0 0 0 0
          then Some (mkDatetime y mo d 0 0 0 0 None) else None
      | _separator :: t =>
          match parse_hh_mm_ss_ff t at_sign_or_end with
          | None => None
          | Some (h, mi, sec, us, r6) =>
              match parse_offset r6 with
              | None => None
              | Some tz =>
                  if valid_fields y mo d h mi sec us
                  then Some (mkDatetime y mo d h mi sec us tz) else None
              end
          end
      end
  end end end end end.

(** [str.endswith('Z')]. *)
Definition endswith_Z (s : string) : bool :=
  match rev (list_ascii_of_string s) with
  | c :: _ => Ascii.eqb c "Z"
  | [] => false
  end.

(** [str.replace('Z', '+00:00')]: every occurrence is replaced. *)
Fixpoint replace_Z (l : list ascii) : list ascii :=
  match l with
  | [] => []
  | c :: t =>
      if Ascii.eqb c "Z"
      then list_ascii_of_string "+00:00" ++ replace_Z t
      else c :: replace_Z t
  end.

(** [dt.replace(tzinfo=None)]: the wall-clock fields are kept as they are. *)
Definition replace_tzinfo_None (dt : datetime) : datetime :=
  mkDatetime (year dt) (month dt) (day dt)
             (hour dt) (minute dt) (second dt) (microsecond dt) None.

(** [parse_coinbase_time] of websocket_client.py and crypto_ingestion.py
    (the two bodies are the same):
<<
    if time_str.endswith('Z'):
        dt = datetime.fromisoformat(time_str.replace('Z', '+00:00'))
    else:
        dt = datetime.fromisoformat(time_str)
    return dt.replace(tzinfo=None) if dt.tzinfo else dt
>>
    A [tzinfo] object is true whenever it is not [None]. *)
Definition parse_coinbase_time (time_str : string) : option datetime :=
  let parsed :=
    if endswith_Z time_str
    then fromisoformat
           (string_of_list_ascii (replace_Z (list_ascii_of_string time_str)))
    else fromisoformat time_str in
  match parsed with
  | None => None
  | Some dt =>
      match tzinfo dt with
      | Some _ => Some (replace_tzinfo_None dt)
      | None => Some dt
      end
  end.

(** [n] decimal digits of [z], zero padded. *)
Fixpoint fixed_width (n : nat) (z : Z) : list ascii :=
  match n with
  | O => []
  | S n' =>
      fixed_width n' (z / 10) ++ [ascii_of_nat (Z.to_nat (48 + z mod 10))]
  end.

Definition format_offset (off : Z) : list ascii :=
  let sign : ascii := if off <? 0 then "-"%char else "+"%char in
  let a := Z.abs off in
  let us := a mod usec_per_second in
  let total := a / usec_per_second in
  let s := total mod 60 in
  let mi := (total / 60) mod 60 in
  let h := total / 3600 in
  sign :: fixed_width 2 h ++ ":"%char :: fixed_width 2 mi
    ++ (if (s =? 0) && (us =? 0) then []
        else ":"%char :: fixed_width 2 s
             ++ (if us =? 0 then [] else "."%char :: fixed_width 6 us)).

(** [datetime.isoformat()]. *)
Definition isoformat (dt : datetime) : string :=
  string_of_list_ascii
    (fixed_width 4 (year dt) ++ "-"%char :: fixed_width 2 (month dt)
     ++ "-"%char :: fixed_width 2 (day dt)
     ++ "T"%char :: fixed_width 2 (hour dt)
     ++ ":"%char :: fixed_width 2 (minute dt)
     ++ ":"%char :: fixed_width 2 (second dt)
     ++ (if microsecond dt =? 0 then []
         else "."%char :: fixed_width 6 (microsecond dt))
     ++ match tzinfo dt with
        | None => []
        | Some off => format_offset off
        end).

(** ** The instant a [datetime] denotes

    The proleptic Gregorian ordinal of [datetime.toordinal()] and from it the
    microseconds since 0001-01-01T00:00:00 UTC. An aware value denotes its
    wall clock minus its offset; a naive value is read as UTC, which is how
    the pipeline stores and compares it. *)

Definition days_before_year (y : Z) : Z :=
  let p := y - 1 in p * 365 + p / 4 - p / 100 + p / 400.

Fixpoint days_before_month_from (y : Z) (m : nat) : Z :=
  match m with
  | O => 0
  | S m' => days_before_month_from y m' + days_in_month y (Z.of_nat m)
  end.

Definition days_before_month (y m : Z) : Z :=
  days_before_month_from y (Z.to_nat (m - 1)).

Definition toordinal (dt : datetime) : Z :=
  days_before_year (year dt) + days_before_month (year dt) (month dt) + day dt.

Definition wall_clock_usec (dt : datetime) : Z :=
  (((toordinal dt * 24 + hour dt) * 60 + minute dt) * 60 + second dt)
  * usec_per_second + microsecond dt.

Definition utcoffset (dt : datetime) : Z :=
  match tzinfo dt with Some off => off | None => 0 end.

Definition utc_instant (dt : datetime) : Z :=
  wall_clock_usec dt - utcoffset dt.

End Time.

(* ===================================================================== *)
(** * Python values and conversions *)
(* ===================================================================== *)

Module Py.

#[local] Set Warnings "-register-all".

(** What [json.loads] returns and what [send_json] takes. *)
Inductive pyval :=
| VNone
| VBool (b : bool)
| VInt (z : Z)
| VFloat (q : Q)
| VStr (s : string)
| VList (l : list pyval)
| VDict (d : list (string * pyval)).

Inductive exn :=
| KeyError | TypeError | ValueError | AttributeError
| JSONDecodeError | DriverError | TransportError | SendError | RuntimeError.

(** The result of running a piece of code: it returns, it raises, or it
    awaits something that never completes. *)
Inductive res (A : Type) :=
| Ret (a : A)
| Raise (e : exn)
| Hang.
Arguments Ret {A} a.
Arguments Raise {A} e.
Arguments Hang {A}.

Definition res_bind {A B} (r : res A) (f : A -> res B) : res B :=
  match r with
  | Ret a => f a
  | Raise e => Raise e
  | Hang => Hang
  end.

Fixpoint dict_lookup (k : string) (d : list (string * pyval)) : option pyval :=
  match d with
  | [] => None
  | (k', v) :: t => if String.eqb k k' then Some v else dict_lookup k t
  end.

Definition keys (d : list (string * pyval)) : list string := map fst d.

(** [data[key]] for a string key. *)
Definition getitem (data : pyval) (key : string) : res pyval :=
  match data with
  | VDict d =>
      match dict_lookup key d with
      | Some v => Ret v
      | None => Raise KeyError
      end
  | _ => Raise TypeError
  end.

(** [data.get(key)]: only a dict has the method. *)
Definition dict_get (data : pyval) (key : string) : res pyval :=
  match data with
  | VDict d =>
      match dict_lookup key d with
      | Some v => Ret v
      | None => Ret VNone
      end
  | _ => Raise AttributeError
  end.

(** [v == 'text']. *)
Definition eq_str (v : pyval) (text : string) : bool :=
  match v with
  | VStr s => String.eqb s text
  | _ => false
  end.

Fixpoint read_digits (l : list ascii) (acc : Z) (n : nat) : Z * nat * list ascii :=
  match l with
  | [] => (acc, n, l)
  | c :: t =>
      match Time.digit_of c with
      | Some d => read_digits t (10 * acc + d) (S n)
      | None => (acc, n, l)
      end
  end.

Fixpoint pow10 (n : nat) : positive :=
  match n with
  | O => 1%positive
  | S n' => (10 * pow10 n')%positive
  end.

Definition read_sign (l : list ascii) : bool * list ascii :=
  match l with
  | c :: t =>
      if Ascii.eqb c "-" then (true, t)
      else if Ascii.eqb c "+" then (false, t)
      else (false, l)
  | [] => (false, l)
  end.

(** The decimal literals of [float(text)]: an optional sign, digits and an
    optional fraction, with a digit somewhere. The other spellings that
    Python reads (exponents, [inf], [nan], blanks around the number) are
    outside the model and count as not convertible. *)
Definition float_of_text (s : string) : option Q :=
  let '(neg, l1) := read_sign (list_ascii_of_string s) in
  let '(ip, n1, l2) := read_digits l1 0 0 in
  let '(num, n2, l3) :=
    match l2 with
    | c :: t => if Ascii.eqb c "." then read_digits t ip 0 else (ip, O, l2)
    | [] => (ip, O, l2)
    end in
  match l3 with
  | [] =>
      if (n1 + n2 =? 0)%nat then None
      else Some (Qmake (if neg then - num else num) (pow10 n2))
  | _ => None
  end.

(** [int(text)]: an optional sign and digits. *)
Definition int_of_text (s : string) : option Z :=
  let '(neg, l1) := read_sign (list_ascii_of_string s) in
  let '(n, k, l2) := read_digits l1 0 0 in
  match l2 with
  | [] => if (k =? 0)%nat then None else Some (if neg then - n else n)
  | _ => None
  end.

(** [float(v)]. *)
Definition py_float (v : pyval) : res Q :=
  match v with
  | VStr s =>
      match float_of_text s with
      | Some q => Ret q
      | None => Raise ValueError
      end
  | VInt z => Ret (inject_Z z)
  | VFloat q => Ret q
  | VBool b => Ret (if b then 1%Q else 0%Q)
  | VNone | VList _ | VDict _ => Raise TypeError
  end.

(** [int(v)]: a float is truncated towards zero. *)
Definition py_int (v : pyval) : res Z :=
  match v with
  | VStr s =>
      match int_of_text s with
      | Some z => Ret z
      | None => Raise ValueError
      end
  | VInt z => Ret z
  | VFloat q => Ret (Z.quot (Qnum q) (Zpos (Qden q)))
  | VBool b => Ret (if b then 1 else 0)
  | VNone | VList _ | VDict _ => Raise TypeError
  end.

End Py.

(* ===================================================================== *)
(** * The world of the pipeline and the monad its code runs in *)
(* ===================================================================== *)

Module Pipeline.
Import Time Py.

(** models.py: [Ticker] and [Trade]. The symbol and the side are whatever
    the frame carries. *)
Module Ticker.
Record t := mk {
  symbol : pyval;
  best_bid : Q;
  best_ask : Q;
  last_price : Q;
  volume_24h : Q;
  time : datetime
}.
End Ticker.

Module Trade.
Record t := mk {
  symbol : pyval;
  price : Q;
  size : Q;
  side : pyval;
  time : datetime;
  trade_id : Z
}.
End Trade.

(** config.py *)
Definition WEBSOCKET_RECONNECT_DELAY : Z := 5.

Definition client := nat.

(** What [await client.send_json(message)] does for a subscriber: it
    completes, it raises, or it never completes (a peer that stopped
    reading). *)
Inductive send_outcome := Delivers | SendRaises | NeverCompletes.

(** The parameters of an [INSERT] handed to [cursor.execute]. *)
Inductive write :=
| InsertTicker (symbol : pyval) (best_bid best_ask last_price spread volume_24h : Q)
               (timestamp : datetime)
| InsertTrade (symbol : pyval) (price size : Q) (side : pyval) (trade_id : Z)
              (timestamp : datetime).

(** What the feed connection manager does on its transport. *)
Inductive action :=
| Connect
| Subscribe
| Sleep (seconds : Z).

Inductive log_record :=
| LogError (message : string) (e : exn)
| LogInfo (message : string).

(** Everything the pipeline reads or changes.
    - [running]: the flag of the connection manager;
    - [committed], [pending]: the rows the store holds and those of the open
      transaction of the connection;
    - [driver]: whether each of the coming calls on the database driver
      ([execute], [commit], [rollback]) succeeds; past the end of the list
      every call succeeds;
    - [connected_clients]: the subscriber registry, a Python set, as the
      duplicate free list of its members in the order the set iterates;
    - [send_json]: how each subscriber's socket behaves; [delivered]: what
      the subscribers have received, oldest first;
    - [log], [trace]: the log records and the transport actions so far. *)
Record world := mkWorld {
  running : bool;
  committed : list write;
  pending : list write;
  driver : list bool;
  connected_clients : list client;
  send_json : client -> send_outcome;
  delivered : list (client * pyval);
  log : list log_record;
  trace : list action
}.

Definition set_running (b : bool) (w : world) : world :=
  mkWorld b (committed w) (pending w) (driver w) (connected_clients w)
          (send_json w) (delivered w) (log w) (trace w).
Definition set_store (c p : list write) (w : world) : world :=
  mkWorld (running w) c p (driver w) (connected_clients w)
          (send_json w) (delivered w) (log w) (trace w).
Definition set_driver (d : list bool) (w : world) : world :=
  mkWorld (running w) (committed w) (pending w) d (connected_clients w)
          (send_json w) (delivered w) (log w) (trace w).
Definition set_connected_clients (cs : list client) (w : world) : world :=
  mkWorld (running w) (committed w) (pending w) (driver w) cs
          (send_json w) (delivered w) (log w) (trace w).
Definition add_delivered (c : client) (message : pyval) (w : world) : world :=
  mkWorld (running w) (committed w) (pending w) (driver w) (connected_clients w)
          (send_json w) (delivered w ++ [(c, message)]) (log w) (trace w).
Definition add_log (r : log_record) (w : world) : world :=
  mkWorld (running w) (committed w) (pending w) (driver w) (connected_clients w)
          (send_json w) (delivered w) (log w ++ [r]) (trace w).
Definition add_trace (a : action) (w : world) : world :=
  mkWorld (running w) (committed w) (pending w) (driver w) (connected_clients w)
          (send_json w) (delivered w) (log w) (trace w ++ [a]).

Definition M (A : Type) : Type := world -> res A * world.

Definition ret {A} (a : A) : M A := fun w => (Ret a, w).
Definition raise {A} (e : exn) : M A := fun w => (Raise e, w).
Definition hang {A} : M A := fun w => (Hang, w).
Definition lift {A} (r : res A) : M A := fun w => (r, w).

Definition bind {A B} (m : M A) (f : A -> M B) : M B :=
  fun w =>
    match m w with
    | (Ret a, w') => f a w'
    | (Raise e, w') => (Raise e, w')
    | (Hang, w') => (Hang, w')
    end.

(** [try: m except Exception as e: handler e] (and the bare [except:]):
    what was done before the exception stays done; code that never
    completes is not interrupted. *)
Definition try_except {A} (m : M A) (handler : exn -> M A) : M A :=
  fun w =>
    match m w with
    | (Raise e, w') => handler e w'
    | r => r
    end.

Definition modify (f : world -> world) : M unit := fun w => (Ret tt, f w).
Definition get_running : M bool := fun w => (Ret (running w), w).

Declare Scope py_scope.
Delimit Scope py_scope with py.
Notation "x <- m ;; k" := (bind m (fun x => k))
  (at level 61, m at next level, right associativity) : py_scope.
Notation "m ;; k" := (bind m (fun _ => k))
  (at level 61, right associativity) : py_scope.
Notation "x <~ r ;; k" := (res_bind r (fun x => k))
  (at level 61, r at next level, right associativity) : py_scope.
Local Open Scope py_scope.

Definition logger_error (message : string) (e : exn) : M unit :=
  modify (add_log (LogError message e)).
Definition logger_info (message : string) : M unit :=
  modify (add_log (LogInfo message)).
Definition emit (a : action) : M unit := modify (add_trace a).

(** ** The database driver *)

(** One call into the driver: it succeeds or raises as [driver] says. *)
Definition driver_call : M unit :=
  fun w =>
    match driver w with
    | [] => (Ret tt, w)
    | ok :: rest =>
        (if ok then Ret tt else Raise DriverError, set_driver rest w)
    end.

Definition cursor_execute (row : write) : M unit :=
  driver_call ;;
  modify (fun w => set_store (committed w) (pending w ++ [row]) w).

Definition conn_commit : M unit :=
  driver_call ;;
  modify (fun w => set_store (committed w ++ pending w) [] w).

Definition conn_rollback : M unit :=
  driver_call ;;
  modify (fun w => set_store (committed w) [] w).

(** [t.replace(tzinfo=None) if t.tzinfo else t] *)
Definition naive (t : datetime) : datetime :=
  match tzinfo t with
  | Some _ => replace_tzinfo_None t
  | None => t
  end.

(** database.py *)
Module QuestDBClient.

Definition insert_ticker (ticker : Ticker.t) : M unit :=
  try_except
    (let spread := (Ticker.best_ask ticker - Ticker.best_bid ticker)%Q in
     let timestamp := naive (Ticker.time ticker) in
     cursor_execute
       (InsertTicker (Ticker.symbol ticker) (Ticker.best_bid ticker)
          (Ticker.best_ask ticker) (Ticker.last_price ticker) spread
          (Ticker.volume_24h ticker) timestamp) ;;
     conn_commit)
    (fun e =>
       logger_error "Failed to insert ticker" e ;;
       conn_rollback).

Definition insert_trade (trade : Trade.t) : M unit :=
  try_except
    (let timestamp := naive (Trade.time trade) in
     cursor_execute
       (InsertTrade (Trade.symbol trade) (Trade.price trade) (Trade.size trade)
          (Trade.side trade) (Trade.trade_id trade) timestamp) ;;
     conn_commit)
    (fun e =>
       logger_error "Failed to insert trade" e ;;
       conn_rollback).

End QuestDBClient.

(** ** The broadcast hub *)

Definition client_send_json (c : client) (message : pyval) : M unit :=
  fun w =>
    match send_json w c with
    | Delivers => (Ret tt, add_delivered c message w)
    | SendRaises => (Raise SendError, w)
    | NeverCompletes => (Hang, w)
    end.

Definition mem (c : client) (cs : list client) : bool :=
  existsb (Nat.eqb c) cs.

(** [disconnected.add(client)] *)
Definition set_add (c : client) (cs : list client) : list client :=
  if mem c cs then cs else cs ++ [c].

(** The loop
<<
    for client in connected_clients:
        try:
            await client.send_json(message)
        except:
            disconnected.add(client)
>>
    over the members still to visit; it returns [disconnected]. This is the
    loop run on its own, no other task touching the registry while a send
    is awaited: the feed loops below are stated for that case. What the loop
    does while the [websocket_endpoint] tasks add and remove members during
    its awaits is [Interleaved.for_each]. *)
Fixpoint send_to_each (message : pyval) (clients disconnected : list client)
  : M (list client) :=
  match clients with
  | [] => ret disconnected
  | c :: rest =>
      d <- try_except (client_send_json c message ;; ret disconnected)
                      (fun _ => ret (set_add c disconnected)) ;;
      send_to_each message rest d
  end.

(** [connected_clients.difference_update(disconnected)] *)
Definition difference_update (disconnected : list client) : M unit :=
  modify (fun w =>
    set_connected_clients
      (filter (fun c => negb (mem c disconnected)) (connected_clients w)) w).

(** main.py *)
Module Main.

(** The publish run on its own; [Interleaved.Main.broadcast_to_clients] is
    the publish with the other tasks running during its awaits. *)
Definition broadcast_to_clients (message : pyval) : M unit :=
  fun w =>
    match connected_clients w with
    | [] => (Ret tt, w)
    | clients =>
        (disconnected <- send_to_each message clients [] ;;
         difference_update disconnected) w
    end.

End Main.

(** ** Decoding a frame *)

(** [self.parse_coinbase_time(data['time'])] on the value of the field:
    only a string has [endswith]. *)
Definition parse_time_field (v : pyval) : res datetime :=
  match v with
  | VStr s =>
      match parse_coinbase_time s with
      | Some dt => Ret dt
      | None => Raise ValueError
      end
  | _ => Raise AttributeError
  end.

Definition float_field (data : pyval) (key : string) : res Q :=
  v <~ getitem data key ;; py_float v.

(** The expression [Ticker(symbol=data['product_id'], ...)], its arguments
    evaluated in the order they are written. *)
Definition Ticker_of (data : pyval) : res Ticker.t :=
  symbol <~ getitem data "product_id" ;;
  best_bid <~ float_field data "best_bid" ;;
  best_ask <~ float_field data "best_ask" ;;
  last_price <~ float_field data "price" ;;
  volume_24h <~ float_field data "volume_24h" ;;
  time <~ (v <~ getitem data "time" ;; parse_time_field v) ;;
  Ret (Ticker.mk symbol best_bid best_ask last_price volume_24h time).

(** The expression [Trade(symbol=data['product_id'], ...)]. *)
Definition Trade_of (data : pyval) : res Trade.t :=
  symbol <~ getitem data "product_id" ;;
  price <~ float_field data "price" ;;
  size <~ float_field data "size" ;;
  side <~ getitem data "side" ;;
  time <~ (v <~ getitem data "time" ;; parse_time_field v) ;;
  trade_id <~ (v <~ getitem data "trade_id" ;; py_int v) ;;
  Ret (Trade.mk symbol price size side time trade_id).

(** ** The upstream feed, as the manager sees it *)

(** A text frame: [json.loads] reads it or raises. *)
Inductive wire :=
| Text (v : pyval)
| NotJson.

(** What happens while the manager awaits the next frame: a frame arrives,
    or another task gives the stop signal. *)
Inductive inbound :=
| Frame (m : wire)
| StopSignal.

(** How the frames of a connection end: a read error, or a normal close. *)
Inductive ending := ReadError | ClosedOK.

(** One connection attempt and what follows it. *)
Record session := mkSession {
  connect_ok : bool;
  subscribe_ok : bool;
  inbound_events : list inbound;
  ending_of : ending;
  stop_during_delay : bool
}.

Definition json_loads (m : wire) : M pyval :=
  match m with
  | Text v => ret v
  | NotJson => raise JSONDecodeError
  end.

(** [await asyncio.sleep(seconds)]; the stop signal may be given meanwhile. *)
Definition asyncio_sleep (seconds : Z) (stop : bool) : M unit :=
  emit (Sleep seconds) ;;
  if stop then modify (set_running false) else ret tt.

(** [async with websockets.connect(URL) as websocket:] and
    [await websocket.send(json.dumps(subscribe_message))], then [body]. *)
Definition connected (s : session) (body : M unit) : M unit :=
  emit Connect ;;
  (if connect_ok s then ret tt else raise TransportError) ;;
  emit Subscribe ;;
  (if subscribe_ok s then ret tt else raise TransportError) ;;
  logger_info "Connected to Coinbase WebSocket feed" ;;
  body.

(** [async for message in websocket: handle message] *)
Fixpoint async_for (handle : wire -> M unit) (events : list inbound)
                   (fin : ending) : M unit :=
  match events with
  | [] =>
      match fin with
      | ReadError => raise TransportError
      | ClosedOK => ret tt
      end
  | Frame m :: rest => handle m ;; async_for handle rest fin
  | StopSignal :: rest => modify (set_running false) ;; async_for handle rest fin
  end.

(** websocket_client.py *)
Module CoinbaseWebSocketClient.
Section Client.

Variable on_ticker : Ticker.t -> M unit.
Variable on_trade : Trade.t -> M unit.
Variable broadcast_callbacks : list (pyval -> M unit).

Fixpoint each_callback (callbacks : list (pyval -> M unit)) (message : pyval)
  : M unit :=
  match callbacks with
  | [] => ret tt
  | callback :: rest =>
      try_except (callback message)
                 (fun e => logger_error "Error in broadcast callback" e) ;;
      each_callback rest message
  end.

Definition _broadcast_data (message : pyval) : M unit :=
  each_callback broadcast_callbacks message.

Definition ticker_message (ticker : Ticker.t) : pyval :=
  VDict [("type", VStr "ticker");
         ("data", VDict [("symbol", Ticker.symbol ticker);
                         ("price", VFloat (Ticker.last_price ticker));
                         ("bid", VFloat (Ticker.best_bid ticker));
                         ("ask", VFloat (Ticker.best_ask ticker));
                         ("volume", VFloat (Ticker.volume_24h ticker));
                         ("spread", VFloat (Ticker.best_ask ticker
                                            - Ticker.best_bid ticker)%Q)])].

Definition trade_message (trade : Trade.t) : pyval :=
  VDict [("type", VStr "trade");
         ("data", VDict [("symbol", Trade.symbol trade);
                         ("price", VFloat (Trade.price trade));
                         ("size", VFloat (Trade.size trade));
                         ("side", Trade.side trade);
                         ("time", VStr (isoformat (Trade.time trade)))])].

Definition _process_message (data : pyval) : M unit :=
  try_except
    (msg_type <- lift (dict_get data "type") ;;
     if eq_str msg_type "ticker" then
       ticker <- lift (Ticker_of data) ;;
       on_ticker ticker ;;
       _broadcast_data (ticker_message ticker)
     else if eq_str msg_type "match" then
       trade <- lift (Trade_of data) ;;
       on_trade trade ;;
       _broadcast_data (trade_message trade)
     else ret tt)
    (fun e => logger_error "Error processing message" e).

Definition receive (m : wire) : M unit :=
  data <- json_loads m ;; _process_message data.

(** The [async with] block of one connection attempt. *)
Definition attempt (s : session) : M unit :=
  connected s (async_for receive (inbound_events s) (ending_of s)).

(** [connect_and_subscribe] against a script of connection attempts. Past
    the end of the script a further attempt to connect is never answered. *)
Fixpoint connect_and_subscribe (script : list session) : M unit :=
  match script with
  | [] =>
      r <- get_running ;;
      if r then emit Connect ;; hang else ret tt
  | s :: rest =>
      r <- get_running ;;
      if r then
        try_except
          (attempt s)
          (fun e =>
             logger_error "WebSocket error" e ;;
             r' <- get_running ;;
             if r' then asyncio_sleep WEBSOCKET_RECONNECT_DELAY (stop_during_delay s)
             else ret tt) ;;
        connect_and_subscribe rest
      else ret tt
  end.

Definition start (script : list session) : M unit :=
  modify (set_running true) ;; connect_and_subscribe script.

Definition stop : M unit := modify (set_running false).

End Client.
End CoinbaseWebSocketClient.

(** main.py wires the client to the store and to the hub. *)
Module App.

Definition ws_client_process_message : pyval -> M unit :=
  CoinbaseWebSocketClient._process_message
    QuestDBClient.insert_ticker QuestDBClient.insert_trade
    [Main.broadcast_to_clients].

Definition ws_client_attempt : session -> M unit :=
  CoinbaseWebSocketClient.attempt
    QuestDBClient.insert_ticker QuestDBClient.insert_trade
    [Main.broadcast_to_clients].

Definition ws_client_connect_and_subscribe : list session -> M unit :=
  CoinbaseWebSocketClient.connect_and_subscribe
    QuestDBClient.insert_ticker QuestDBClient.insert_trade
    [Main.broadcast_to_clients].

End App.

(** crypto_ingestion.py *)
Module CoinbaseDataIngestion.

Definition insert_trade (trade : Trade.t) : M unit :=
  try_except
    (let timestamp := naive (Trade.time trade) in
     cursor_execute
       (InsertTrade (Trade.symbol trade) (Trade.price trade) (Trade.size trade)
          (Trade.side trade) (Trade.trade_id trade) timestamp) ;;
     conn_commit)
    (fun e =>
       logger_error "Failed to insert trade" e ;;
       conn_rollback).

Definition insert_ticker (ticker : Ticker.t) : M unit :=
  try_except
    (let spread := (Ticker.best_ask ticker - Ticker.best_bid ticker)%Q in
     let timestamp := naive (Ticker.time ticker) in
     cursor_execute
       (InsertTicker (Ticker.symbol ticker) (Ticker.best_bid ticker)
          (Ticker.best_ask ticker) (Ticker.last_price ticker) spread
          (Ticker.volume_24h ticker) timestamp) ;;
     conn_commit)
    (fun e =>
       logger_error "Failed to insert ticker" e ;;
       conn_rollback).

(** The publish run on its own, as in [Main]. *)
Definition broadcast_to_clients (message : pyval) : M unit :=
  fun w =>
    match connected_clients w with
    | [] => (Ret tt, w)
    | clients =>
        (disconnected <- send_to_each message clients [] ;;
         difference_update disconnected) w
    end.

Definition ticker_message (ticker : Ticker.t) : pyval :=
  VDict [("type", VStr "ticker");
         ("data", VDict [("symbol", Ticker.symbol ticker);
                         ("price", VFloat (Ticker.last_price ticker));
                         ("bid", VFloat (Ticker.best_bid ticker));
                         ("ask", VFloat (Ticker.best_ask ticker));
                         ("volume", VFloat (Ticker.volume_24h ticker))])].

Definition trade_message (trade : Trade.t) : pyval :=
  VDict [("type", VStr "trade");
         ("data", VDict [("symbol", Trade.symbol trade);
                         ("price", VFloat (Trade.price trade));
                         ("size", VFloat (Trade.size trade));
                         ("side", Trade.side trade)])].

(** The body of [async for message in websocket:]; nothing in it catches. *)
Definition receive (m : wire) : M unit :=
  data <- json_loads m ;;
  msg_type <- lift (getitem data "type") ;;
  if eq_str msg_type "ticker" then
    ticker <- lift (Ticker_of data) ;;
    insert_ticker ticker ;;
    broadcast_to_clients (ticker_message ticker)
  else if eq_str msg_type "match" then
    trade <- lift (Trade_of data) ;;
    insert_trade trade ;;
    broadcast_to_clients (trade_message trade)
  else ret tt.

(** The [async with] block of one connection attempt. *)
Definition attempt (s : session) : M unit :=
  connected s (async_for receive (inbound_events s) (ending_of s)).

Fixpoint coinbase_websocket_feed (script : list session) : M unit :=
  match script with
  | [] =>
      r <- get_running ;;
      if r then emit Connect ;; hang else ret tt
  | s :: rest =>
      r <- get_running ;;
      if r then
        try_except
          (attempt s)
          (fun e =>
             logger_error "WebSocket error" e ;;
             asyncio_sleep 5 (stop_during_delay s)) ;;
        coinbase_websocket_feed rest
      else ret tt
  end.

End CoinbaseDataIngestion.

End Pipeline.

(* ===================================================================== *)
(** * The store: tables and the two candle sweeps *)
(* ===================================================================== *)

Module Store.

(** models.py, [QUESTDB_SCHEMAS]. A table is the list of its rows in the
    order a query scans them. *)
Module Trades.
Record row := mk {
  symbol : string;
  price : Q;
  size : Q;
  side : string;
  trade_id : Z;
  timestamp : Z
}.
End Trades.

Module Tickers.
Record row := mk {
  symbol : string;
  best_bid : Q;
  best_ask : Q;
  last_price : Q;
  spread : Q;
  volume_24h : Q;
  timestamp : Z
}.
End Tickers.

Module Candles.
Record row := mk {
  symbol : string;
  open : Q;
  high : Q;
  low : Q;
  close : Q;
  volume : Q;
  trade_count : Z;
  timestamp : Z
}.
End Candles.

Record database := mkDatabase {
  coinbase_trades : list Trades.row;
  coinbase_ticker : list Tickers.row;
  coinbase_candles : list Candles.row
}.

Definition usec_per_minute : Z := 60000000.
Definition usec_per_hour : Z := 3600000000.

(** [date_trunc('minute', ts)] *)
Definition date_trunc_minute (ts : Z) : Z := ts - ts mod usec_per_minute.

(** [dateadd('h', n, ts)] *)
Definition dateadd_h (n : Z) (ts : Z) : Z := ts + n * usec_per_hour.

(** The aggregate functions, over the values of a group in scan order. *)
Definition Qmax2 (a b : Q) : Q := if Qle_bool a b then b else a.
Definition Qmin2 (a b : Q) : Q := if Qle_bool a b then a else b.

Definition sql_first (l : list Q) : Q := hd 0%Q l.
Definition sql_last (l : list Q) : Q := last l 0%Q.
Definition sql_max (l : list Q) : Q := fold_left Qmax2 (tl l) (hd 0%Q l).
Definition sql_min (l : list Q) : Q := fold_left Qmin2 (tl l) (hd 0%Q l).
Definition sql_sum (l : list Q) : Q := fold_left Qplus l 0%Q.
Definition sql_count {A} (l : list A) : Z := Z.of_nat (List.length l).
Definition sql_avg (l : list Q) : Q := (sql_sum l / inject_Z (sql_count l))%Q.

(** The key of [GROUP BY symbol, date_trunc('minute', timestamp)]. *)
Definition key : Type := string * Z.

Definition key_eqb (a b : key) : bool :=
  String.eqb (fst a) (fst b) && (snd a =? snd b).

(** The distinct keys, each at its first occurrence. *)
Fixpoint distinct (ks : list key) : list key :=
  match ks with
  | [] => []
  | k :: t => k :: filter (fun k' => negb (key_eqb k' k)) (distinct t)
  end.

Section GroupBy.
Context {row : Type}.
Variable key_of : row -> key.

Definition group (rows : list row) (k : key) : list row :=
  filter (fun r => key_eqb (key_of r) k) rows.

(** One output row per distinct key, computed from the rows of that key. *)
Definition group_by {out : Type} (aggregate : key -> list row -> out)
                    (rows : list row) : list out :=
  map (fun k => aggregate k (group rows k)) (distinct (map key_of rows)).

End GroupBy.

Definition trade_key (r : Trades.row) : key :=
  (Trades.symbol r, date_trunc_minute (Trades.timestamp r)).

Definition ticker_key (r : Tickers.row) : key :=
  (Tickers.symbol r, date_trunc_minute (Tickers.timestamp r)).

Definition candle_key (c : Candles.row) : key :=
  (Candles.symbol c, Candles.timestamp c).

(** crypto_ingestion.py, [generate_candles]: the SELECT list over one group
    of [coinbase_trades]. *)
Definition candle_of_trades (k : key) (g : list Trades.row) : Candles.row :=
  Candles.mk (fst k)
    (sql_first (map Trades.price g))
    (sql_max (map Trades.price g))
    (sql_min (map Trades.price g))
    (sql_last (map Trades.price g))
    (sql_sum (map Trades.size g))
    (sql_count g)
    (snd k).

(** [WHERE timestamp >= dateadd('h', -24, now())] *)
Definition trades_window (now : Z) (trades : list Trades.row) : list Trades.row :=
  filter (fun r => dateadd_h (-24) now <=? Trades.timestamp r) trades.

Definition select_candles_from_trades (now : Z) (trades : list Trades.row)
  : list Candles.row :=
  group_by trade_key candle_of_trades (trades_window now trades).

(** One pass of the loop body of [CoinbaseDataIngestion.generate_candles]
    whose statements succeed: when the trades table is not empty the rows
    selected are inserted into [coinbase_candles]. *)
Definition generate_candles_from_trades (now : Z) (db : database) : database :=
  if 0 <? sql_count (coinbase_trades db) then
    mkDatabase (coinbase_trades db) (coinbase_ticker db)
      (coinbase_candles db
       ++ select_candles_from_trades now (coinbase_trades db))
  else db.

(** database.py, [generate_candles]: the SELECT list over one group of
    [coinbase_ticker]. *)
Definition candle_of_tickers (k : key) (g : list Tickers.row) : Candles.row :=
  Candles.mk (fst k)
    (sql_first (map Tickers.last_price g))
    (sql_max (map Tickers.last_price g))
    (sql_min (map Tickers.last_price g))
    (sql_last (map Tickers.last_price g))
    (sql_avg (map Tickers.volume_24h g))
    (sql_count g)
    (snd k).

(** [SELECT DISTINCT timestamp FROM coinbase_candles
     WHERE timestamp >= dateadd('h', -2, now())] *)
Definition materialized (now : Z) (candles : list Candles.row) : list Z :=
  map Candles.timestamp
    (filter (fun c => dateadd_h (-2) now <=? Candles.timestamp c) candles).

(** [WHERE timestamp >= dateadd('h', -2, now())
       AND date_trunc('minute', timestamp) NOT IN (...)] *)
Definition ticker_window (now : Z) (db : database) : list Tickers.row :=
  filter
    (fun r =>
       (dateadd_h (-2) now <=? Tickers.timestamp r)
       && negb (existsb (Z.eqb (date_trunc_minute (Tickers.timestamp r)))
                        (materialized now (coinbase_candles db))))
    (coinbase_ticker db).

Definition select_candles_from_ticker (now : Z) (db : database)
  : list Candles.row :=
  group_by ticker_key candle_of_tickers (ticker_window now db).

(** [QuestDBClient.generate_candles] when the statement and the commit
    succeed. *)
Definition generate_candles (now : Z) (db : database) : database :=
  mkDatabase (coinbase_trades db) (coinbase_ticker db)
    (coinbase_candles db ++ select_candles_from_ticker now db).

End Store.

(* ===================================================================== *)
(** * Vocabulary of the statements *)
(* ===================================================================== *)

Module Obs.
Import Time Py Pipeline.

Definition delivers (o : send_outcome) : bool :=
  match o with Delivers => true | _ => false end.

Definition send_raises (o : send_outcome) : bool :=
  match o with SendRaises => true | _ => false end.

(** The world after [message] reached each of [clients] in turn. *)
Definition deliver_to (message : pyval) (clients : list client) (w : world)
  : world :=
  fold_left (fun w c => add_delivered c message w) clients w.

(** [disconnected] after [add] of each of [cs] in turn. *)
Definition add_all (cs d : list client) : list client :=
  fold_left (fun acc c => set_add c acc) cs d.

(** [m] leaves the transport trace as it is. *)
Definition keeps_trace {A} (m : M A) : Prop :=
  forall w, trace (snd (m w)) = trace w.

(** [m] only adds to the transport trace. *)
Definition extends_trace {A} (m : M A) : Prop :=
  forall w, exists tl, trace (snd (m w)) = trace w ++ tl.

(** The first thing [m] adds to the transport trace is [a]. *)
Definition starts_with {A} (a : action) (m : M A) : Prop :=
  forall w, exists tl, trace (snd (m w)) = trace w ++ a :: tl.

(** The fields a ticker frame and a trade frame must carry. *)
Definition ticker_fields : list string :=
  ["product_id"; "best_bid"; "best_ask"; "price"; "volume_24h"; "time"].
Definition trade_fields : list string :=
  ["product_id"; "price"; "size"; "side"; "time"; "trade_id"].
Definition ticker_numeric_fields : list string :=
  ["best_bid"; "best_ask"; "price"; "volume_24h"].
Definition trade_numeric_fields : list string := ["price"; "size"].

(** [m] never raises. *)
Definition no_raise {A} (m : M A) : Prop :=
  forall w e, fst (m w) <> Raise e.

End Obs.

(* ===================================================================== *)
(** * Concrete inputs used by the examples *)
(* ===================================================================== *)

Module Examples.
Import Time Py Pipeline Store.

(** A minute boundary, and a sweep 90 seconds after it. *)
Definition bucket0 : Z := 29000000 * usec_per_minute.
Definition sweep_time : Z := bucket0 + 90 * usec_per_second.

Definition trade_at (seconds price size : Z) : Trades.row :=
  Trades.mk "X" (inject_Z price) (inject_Z size) "buy" seconds
            (bucket0 + seconds * usec_per_second).

(** The four trades of the specification, all in the minute [bucket0]. *)
Definition four_trades : list Trades.row :=
  [trade_at 0 10 1; trade_at 10 12 2; trade_at 20 9 3; trade_at 59 11 4].

Definition four_trades_candle : Candles.row :=
  Candles.mk "X" 10 12 9 11 10 4 bucket0.

Definition ticker_at (symbol : string) (seconds price : Z) : Tickers.row :=
  Tickers.mk symbol 0 0 (inject_Z price) 0 100 (seconds * usec_per_second).

Definition flat_candle (symbol : string) (price : Z) (ts : Z) : Candles.row :=
  Candles.mk symbol (inject_Z price) (inject_Z price) (inject_Z price)
             (inject_Z price) 100 1 ts.

(** A sweep whose window starts 30 seconds into minute 0: a ticker of
    symbol B at second 45 is in the window, its minute starts before it. *)
Definition boundary_now : Z := 2 * usec_per_hour + 30 * usec_per_second.
Definition boundary_db : database :=
  mkDatabase [] [ticker_at "B" 45 20] [flat_candle "A" 10 0].

(** A sweep whose window starts at minute 0: symbol A has its candle of
    minute 0, symbol B has tickers in minute 0 and in minute 1. *)
Definition aligned_now : Z := 2 * usec_per_hour.
Definition two_symbols_db : database :=
  mkDatabase [] [ticker_at "B" 45 20; ticker_at "B" 70 21]
             [flat_candle "A" 10 0].

(** Two subscribers; the set iterates the one that never drains first. *)
Definition slow : client := 1%nat.
Definition healthy : client := 2%nat.
Definition slow_first : world :=
  mkWorld true [] [] [] [slow; healthy]
          (fun c => if Nat.eqb c slow then NeverCompletes else Delivers)
          [] [] [].

(** Two subscribers; the socket of the first one is closed. *)
Definition closed : client := 1%nat.
Definition closed_first : world :=
  mkWorld true [] [] [] [closed; healthy]
          (fun c => if Nat.eqb c closed then SendRaises else Delivers)
          [] [] [].

Definition good_ticker : pyval :=
  VDict [("type", VStr "ticker"); ("product_id", VStr "BTC-USD");
         ("best_bid", VStr "50000.0"); ("best_ask", VStr "50001.5");
         ("price", VStr "50000.5"); ("volume_24h", VStr "1000");
         ("time", VStr "2025-06-22T13:48:39.499077Z")].

(** The same frame without [best_bid]. *)
Definition ticker_without_bid : pyval :=
  VDict [("type", VStr "ticker"); ("product_id", VStr "BTC-USD");
         ("best_ask", VStr "50001.5");
         ("price", VStr "50000.5"); ("volume_24h", VStr "1000");
         ("time", VStr "2025-06-22T13:48:39.499077Z")].

Definition good_trade : pyval :=
  VDict [("type", VStr "match"); ("product_id", VStr "BTC-USD");
         ("price", VStr "50000.5"); ("size", VStr "0.1");
         ("side", VStr "buy"); ("trade_id", VInt 12345);
         ("time", VStr "2025-06-22T13:48:39.499077Z")].

Definition good_ticker_value : Ticker.t :=
  Ticker.mk (VStr "BTC-USD") 50000.0 50001.5 50000.5 1000
            (mkDatetime 2025 6 22 13 48 39 499077 None).

Definition good_trade_value : Trade.t :=
  Trade.mk (VStr "BTC-USD") 50000.5 0.1 (VStr "buy")
           (mkDatetime 2025 6 22 13 48 39 499077 None) 12345.

(** One healthy subscriber, a store that works, the manager running. *)
Definition one_client : world :=
  mkWorld true [] [] [] [healthy] (fun _ => Delivers) [] [] [].

(** A connection on which a frame without [best_bid] arrives, then a trade,
    and which is then closed normally. *)
Definition bad_then_good : session :=
  mkSession true true
            [Frame (Text ticker_without_bid); Frame (Text good_trade)]
            ClosedOK false.

(** A connection attempt that is refused. *)
Definition refused : session := mkSession false true [] ReadError false.

End Examples.

(* ===================================================================== *)
(** * The read side of the store *)
(* ===================================================================== *)

From Stdlib Require Import Sorting.Permutation Sorting.Sorted.

Module Queries.
Import Store.

(** [dateadd('m', n, ts)] *)
Definition dateadd_m (n ts : Z) : Z := ts + n * usec_per_minute.

(** [WHERE timestamp > dateadd('m', -5, now())] *)
Definition recent_tickers (now : Z) (tickers : list Tickers.row)
  : list Tickers.row :=
  filter (fun r => dateadd_m (-5) now <? Tickers.timestamp r) tickers.

(** The key of [GROUP BY symbol]. *)
Definition symbol_key (r : Tickers.row) : key := (Tickers.symbol r, 0).

(** [get_latest_prices] of database.py and of crypto_ingestion.py:
<<
    SELECT symbol, last(last_price) FROM coinbase_ticker
    WHERE timestamp > dateadd('m', -5, now()) GROUP BY symbol
>>
    then [{row[0]: row[1] for row in self.cursor.fetchall()}], and the empty
    dict when the query raises. The dict is the list of its items. *)
Definition get_latest_prices (query_ok : bool) (now : Z) (db : database)
  : list (string * Q) :=
  if query_ok then
    group_by symbol_key
      (fun k g => (fst k, sql_last (map Tickers.last_price g)))
      (recent_tickers now (coinbase_ticker db))
  else [].

(** The columns that [get_recent_candles] selects. *)
Record candle_view := mkView {
  view_time : Z;
  view_open : Q;
  view_high : Q;
  view_low : Q;
  view_close : Q;
  view_volume : Q
}.

Definition view_of (c : Candles.row) : candle_view :=
  mkView (Candles.timestamp c) (Candles.open c) (Candles.high c)
         (Candles.low c) (Candles.close c) (Candles.volume c).

(** [ORDER BY timestamp DESC]; rows of one timestamp stay in scan order. *)
Fixpoint insert_desc (c : Candles.row) (l : list Candles.row)
  : list Candles.row :=
  match l with
  | [] => [c]
  | h :: t =>
      if Candles.timestamp h <? Candles.timestamp c then c :: l
      else h :: insert_desc c t
  end.

Definition order_by_timestamp_desc (l : list Candles.row) : list Candles.row :=
  fold_right insert_desc [] l.

(** [LIMIT n]: the first [n] rows, and for a negative [n] the last [-n]. *)
Definition sql_limit {A} (n : Z) (l : list A) : list A :=
  if 0 <=? n then firstn (Z.to_nat n) l
  else skipn (List.length l - Z.to_nat (- n)) l.

(** [get_recent_candles] of database.py:
<<
    SELECT timestamp as time, open, high, low, close, volume
    FROM coinbase_candles WHERE symbol = %s
    ORDER BY timestamp DESC LIMIT %s
>>
    and the empty list when the query raises. *)
Definition get_recent_candles (query_ok : bool) (symbol : string) (limit : Z)
                              (db : database) : list candle_view :=
  if query_ok then
    map view_of
      (sql_limit limit
         (order_by_timestamp_desc
            (filter (fun c => String.eqb (Candles.symbol c) symbol)
                    (coinbase_candles db))))
  else [].

End Queries.

(* ===================================================================== *)
(** * The subscriber endpoint *)
(* ===================================================================== *)

(** The statements of [websocket_endpoint] (main.py, crypto_ingestion.py)
    that change the registry. *)
Module Endpoint.
Import Py Pipeline.
Local Open Scope py_scope.

(** [connected_clients.add(websocket)] *)
Definition add (c : client) : M unit :=
  modify (fun w => set_connected_clients (set_add c (connected_clients w)) w).

Definition without (c : client) (cs : list client) : list client :=
  filter (fun x => negb (Nat.eqb x c)) cs.

(** [except WebSocketDisconnect: connected_clients.remove(websocket)]:
    [set.remove] raises [KeyError] for a member that is not there. *)
Definition on_disconnect (c : client) : M unit :=
  fun w =>
    if mem c (connected_clients w)
    then (Ret tt, set_connected_clients (without c (connected_clients w)) w)
    else (Raise KeyError, w).

(** main.py only:
<<
    except Exception as e:
        logger.error(f"WebSocket error: {e}")
        connected_clients.discard(websocket)
>> *)
Definition on_exception (c : client) (e : exn) : M unit :=
  logger_error "WebSocket error" e ;;
  modify (fun w => set_connected_clients (without c (connected_clients w)) w).

End Endpoint.

(* ===================================================================== *)
(** * The publish while other tasks run *)
(* ===================================================================== *)

(** [broadcast_to_clients] iterates the registry itself and awaits inside
    the loop; at each [await] the event loop may run the
    [websocket_endpoint] task of any connection, and that task changes the
    same set. Here the publish is run together with what the other tasks do
    to the registry during each of its awaited sends. *)
Module Interleaved.
Import Py Pipeline.
Local Open Scope py_scope.

(** A statement of a [websocket_endpoint] task that touches the registry. *)
Inductive endpoint_step :=
| Accepts (c : client)
| Disconnects (c : client)
| Fails (c : client) (e : exn).

(** What the other tasks do during the awaits of one publish: the steps they
    take during the first awaited send, during the second, and so on; after
    the last entry they do nothing. *)
Definition schedule := list (list endpoint_step).

(** No other task touches the registry during the publish. *)
Definition quiet (s : schedule) : Prop := Forall (fun steps => steps = []) s.

(** The members that the iterator of the set still has ahead of it, after
    another task turned the set [before] into [after]: a member that left is
    not given any more, the others keep their places, and a new member is
    given last, the place [set_add] gives it. *)
Definition ahead_after (before after ahead : list client) : list client :=
  filter (fun c => mem c after) ahead
  ++ filter (fun c => negb (mem c before)) after.

(** One step of [for client in connected_clients]: the iterator of a set
    raises [RuntimeError] (Set changed size during iteration) when the set
    has not the size it had when the iteration began. *)
Definition check_size (size0 : nat) : M unit :=
  fun w =>
    if Nat.eqb (List.length (connected_clients w)) size0 then (Ret tt, w)
    else (Raise RuntimeError, w).

(** The body of the loop:
<<
    try:
        await client.send_json(message)
    except:
        disconnected.add(client)
>>
    It returns [disconnected]. *)
Definition try_send (c : client) (message : pyval) (disconnected : list client)
  : M (list client) :=
  try_except (client_send_json c message ;; ret disconnected)
             (fun _ => ret (set_add c disconnected)).

Section Publish.

(** What a step of [websocket_endpoint] does in the file at hand. *)
Variable endpoint : endpoint_step -> M unit.

(** The other tasks take [steps] while the publish awaits: an exception of
    theirs stays in their task, what they did to the registry is done.
    The result is what the iterator of the publish has ahead of it. *)
Fixpoint others_run (steps : list endpoint_step) (ahead : list client)
  : M (list client) :=
  match steps with
  | [] => ret ahead
  | s :: rest =>
      fun w =>
        let w' := snd (endpoint s w) in
        others_run rest
          (ahead_after (connected_clients w) (connected_clients w') ahead) w'
  end.

(** The rest of the loop once the other tasks are through their steps. *)
Fixpoint for_rest (message : pyval) (size0 : nat)
                  (ahead disconnected : list client) : M (list client) :=
  check_size size0 ;;
  match ahead with
  | [] => ret disconnected
  | c :: rest =>
      d <- try_send c message disconnected ;;
      for_rest message size0 rest d
  end.

(** The loop
<<
    for client in connected_clients:
        try:
            await client.send_json(message)
        except:
            disconnected.add(client)
>>
    from a step of the iterator on, [size0] being the size of the set when
    the iteration began. The other tasks run during the awaited send. *)
Fixpoint for_each (message : pyval) (size0 : nat) (s : schedule)
                  (ahead disconnected : list client) : M (list client) :=
  match s with
  | [] => for_rest message size0 ahead disconnected
  | steps :: later =>
      check_size size0 ;;
      match ahead with
      | [] => ret disconnected
      | c :: rest =>
          rest' <- others_run steps rest ;;
          d <- try_send c message disconnected ;;
          for_each message size0 later rest' d
      end
  end.

(** [broadcast_to_clients] of main.py and of crypto_ingestion.py. *)
Definition publish (s : schedule) (message : pyval) : M unit :=
  fun w =>
    match connected_clients w with
    | [] => (Ret tt, w)
    | clients =>
        (disconnected <- for_each message (List.length clients) s clients [] ;;
         difference_update disconnected) w
    end.

End Publish.

(** main.py *)
Module Main.

(** [connected_clients.add(websocket)], the handler of
    [WebSocketDisconnect] and the handler of [Exception]. *)
Definition websocket_endpoint (s : endpoint_step) : M unit :=
  match s with
  | Accepts c => Endpoint.add c
  | Disconnects c => Endpoint.on_disconnect c
  | Fails c e => Endpoint.on_exception c e
  end.

Definition broadcast_to_clients : schedule -> pyval -> M unit :=
  publish websocket_endpoint.

End Main.

(** crypto_ingestion.py *)
Module CoinbaseDataIngestion.

(** [self.connected_clients.add(websocket)] and the handler of
    [WebSocketDisconnect]; another exception leaves the endpoint. *)
Definition websocket_endpoint (s : endpoint_step) : M unit :=
  match s with
  | Accepts c => Endpoint.add c
  | Disconnects c => Endpoint.on_disconnect c
  | Fails c e => raise e
  end.

Definition broadcast_to_clients : schedule -> pyval -> M unit :=
  publish websocket_endpoint.

End CoinbaseDataIngestion.

(** The sockets behave as [sj] from now on. *)
Definition set_send_json (sj : client -> send_outcome) (w : world) : world :=
  mkWorld (running w) (committed w) (pending w) (driver w)
          (connected_clients w) sj (delivered w) (log w) (trace w).

(** ** Concrete schedules *)

(** A third websocket, not registered yet. *)
Definition newcomer : client := 3%nat.

(** While the send to the closed socket is awaited, the endpoint of that
    socket gets [WebSocketDisconnect]. *)
Definition closed_disconnects : schedule := [[Disconnects Examples.closed]].

(** While the send to the closed socket is awaited, a new connection is
    accepted. *)
Definition newcomer_arrives : schedule := [[Accepts newcomer]].

End Interleaved.

(* ===================================================================== *)
(** * Vocabulary of the further statements *)
(* ===================================================================== *)

Module Obs2.
Import Time Py Pipeline Store.

(** A decoded event of the feed. *)
Inductive event :=
| TickerEvent (t : Ticker.t)
| TradeEvent (t : Trade.t).


(** The row that the insert of the event hands to the store. *)
Definition row_of (ev : event) : write :=
  match ev with
  | TickerEvent t =>
      InsertTicker (Ticker.symbol t) (Ticker.best_bid t) (Ticker.best_ask t)
        (Ticker.last_price t) (Ticker.best_ask t - Ticker.best_bid t)%Q
        (Ticker.volume_24h t) (naive (Ticker.time t))
  | TradeEvent t =>
      InsertTrade (Trade.symbol t) (Trade.price t) (Trade.size t)
        (Trade.side t) (Trade.trade_id t) (naive (Trade.time t))
  end.


(** The data model's invariant of a candle row. *)
Definition well_formed_candle (c : Candles.row) : Prop :=
  (Candles.low c <= Candles.open c)%Q /\ (Candles.open c <= Candles.high c)%Q
  /\ (Candles.low c <= Candles.close c)%Q
  /\ (Candles.close c <= Candles.high c)%Q
  /\ 1 <= Candles.trade_count c
  /\ Candles.timestamp c mod usec_per_minute = 0.

Definition sum_Z (l : list Z) : Z := fold_right Z.add 0 l.

(** [a] may come before [b] in an answer ordered by timestamp, newest
    first. *)
Definition newer_first (a b : Candles.row) : Prop :=
  Candles.timestamp b <= Candles.timestamp a.

End Obs2.

(* ===================================================================== *)
(** * Properties of the time normalizer *)
(* ===================================================================== *)

Import Time Py Pipeline Store Obs.
Local Open Scope py_scope.

(** The wire form of Coinbase, with the trailing [Z]: the value is naive and
    formatting it gives the text back without the [Z]. *)
Lemma parse_coinbase_time_Z_roundtrip :
  parse_coinbase_time "2025-06-22T13:48:39.499077Z"
    = Some (mkDatetime 2025 6 22 13 48 39 499077 None)
  /\ option_map isoformat (parse_coinbase_time "2025-06-22T13:48:39.499077Z")
     = Some "2025-06-22T13:48:39.499077".
Proof. split; vm_compute; reflexivity. Qed.

(** A text without zone marker: the value that [fromisoformat] reads is
    returned as it is. *)
Lemma parse_coinbase_time_naive :
  forall (s : string) (dt : datetime),
    endswith_Z s = false ->
    fromisoformat s = Some dt ->
    tzinfo dt = None ->
    parse_coinbase_time s = Some dt.
Proof.
  intros s dt Hz Hp Htz. unfold parse_coinbase_time.
  rewrite Hz, Hp, Htz. reflexivity.
Qed.

(** A text with an offset: the wall-clock fields are kept and the offset
    is dropped, so the instant moves by the offset. *)
Lemma parse_coinbase_time_drops_offset :
  forall (s : string) (dt : datetime),
    endswith_Z s = false ->
    fromisoformat s = Some dt ->
    exists r,
      parse_coinbase_time s = Some r
      /\ tzinfo r = None
      /\ wall_clock_usec r = wall_clock_usec dt
      /\ utc_instant r = utc_instant dt + utcoffset dt.
Proof.
  intros s dt Hz Hp. unfold parse_coinbase_time. rewrite Hz, Hp.
  destruct (tzinfo dt) as [off|] eqn:Htz.
  - exists (replace_tzinfo_None dt). repeat split.
    unfold utc_instant, utcoffset. rewrite Htz. simpl.
    unfold wall_clock_usec, toordinal. simpl. lia.
  - exists dt. repeat split; auto.
    unfold utc_instant, utcoffset. rewrite Htz. lia.
Qed.

(** C7. [parse_coinbase_time] on a text with the offset +05:30 returns the
    wall clock 13:48:39.499077 of the text, not the UTC wall clock
    08:18:39.499077 of the instant: the instant of the result is 19800
    seconds later than the instant the text denotes. *)
Theorem parse_coinbase_time_offset_not_utc :
  parse_coinbase_time "2025-06-22T13:48:39.499077+05:30"
    = Some (mkDatetime 2025 6 22 13 48 39 499077 None)
  /\ option_map utc_instant (fromisoformat "2025-06-22T13:48:39.499077+05:30")
     = Some (utc_instant (mkDatetime 2025 6 22 8 18 39 499077 None))
  /\ option_map utc_instant (parse_coinbase_time "2025-06-22T13:48:39.499077+05:30")
     = Some (utc_instant (mkDatetime 2025 6 22 8 18 39 499077 None)
             + 19800 * usec_per_second).
Proof. repeat split; vm_compute; reflexivity. Qed.

(* ===================================================================== *)
(** * Properties of the candle sweeps *)
(* ===================================================================== *)

Lemma key_eqb_eq : forall a b : key, key_eqb a b = true <-> a = b.
Proof.
  intros [s1 t1] [s2 t2]. unfold key_eqb. simpl.
  rewrite andb_true_iff, String.eqb_eq, Z.eqb_eq.
  split; [intros [-> ->]; reflexivity | intros H; inversion H; auto].
Qed.

Lemma key_eqb_refl : forall a : key, key_eqb a a = true.
Proof. intros a. apply key_eqb_eq. reflexivity. Qed.

Lemma distinct_In : forall (ks : list key) (k : key),
  In k (distinct ks) <-> In k ks.
Proof.
  induction ks as [|k0 t IH]; intros k; simpl; [tauto|].
  rewrite filter_In, IH, negb_true_iff.
  destruct (key_eqb k k0) eqn:E.
  - apply key_eqb_eq in E. subst. split; intros; auto.
  - split; [intros [H|[H _]]; auto | intros [H|H]; auto].
Qed.

Lemma distinct_NoDup : forall ks : list key, NoDup (distinct ks).
Proof.
  induction ks as [|k0 t IH]; simpl; constructor.
  - rewrite filter_In, key_eqb_refl. simpl. intros [_ H]. discriminate.
  - apply NoDup_filter. exact IH.
Qed.

Section GroupByFacts.
Context {row out : Type}.
Variable key_of : row -> key.
Variable aggregate : key -> list row -> out.
Variable out_key : out -> key.
Hypothesis aggregate_key : forall k g, out_key (aggregate k g) = k.


Lemma group_by_In : forall (rows : list row) (c : out),
  In c (group_by key_of aggregate rows) ->
  c = aggregate (out_key c) (group key_of rows (out_key c))
  /\ In (out_key c) (map key_of rows).
Proof.
  intros rows c H. unfold group_by in H. apply in_map_iff in H.
  destruct H as [k [Hc Hk]]. subst c. rewrite aggregate_key.
  split; [reflexivity | apply distinct_In; exact Hk].
Qed.

Lemma group_nonempty_key : forall (rows : list row) (k : key),
  group key_of rows k <> [] -> In k (map key_of rows).
Proof.
  intros rows k H. destruct (group key_of rows k) as [|r g] eqn:E;
    [congruence|].
  assert (Hr : In r (group key_of rows k)) by (rewrite E; left; reflexivity).
  unfold group in Hr. apply filter_In in Hr. destruct Hr as [Hin Hk].
  apply key_eqb_eq in Hk. subst k. apply in_map. exact Hin.
Qed.

Lemma group_by_complete : forall (rows : list row) (k : key),
  group key_of rows k <> [] ->
  In (aggregate k (group key_of rows k)) (group_by key_of aggregate rows).
Proof.
  intros rows k H. unfold group_by.
  apply (in_map (fun k => aggregate k (group key_of rows k))).
  apply distinct_In. apply group_nonempty_key. exact H.
Qed.

End GroupByFacts.

Lemma Qmax2_cases : forall a b : Q,
  (Qmax2 a b = a \/ Qmax2 a b = b) /\ (a <= Qmax2 a b)%Q /\ (b <= Qmax2 a b)%Q.
Proof.
  intros a b. unfold Qmax2. destruct (Qle_bool a b) eqn:E.
  - apply Qle_bool_iff in E. repeat split; auto. apply Qle_refl.
  - assert (H : ~ (a <= b)%Q) by (rewrite <- Qle_bool_iff; congruence).
    apply Qnot_le_lt, Qlt_le_weak in H. repeat split; auto. apply Qle_refl.
Qed.

Lemma Qmin2_cases : forall a b : Q,
  (Qmin2 a b = a \/ Qmin2 a b = b) /\ (Qmin2 a b <= a)%Q /\ (Qmin2 a b <= b)%Q.
Proof.
  intros a b. unfold Qmin2. destruct (Qle_bool a b) eqn:E.
  - apply Qle_bool_iff in E. repeat split; auto. apply Qle_refl.
  - assert (H : ~ (a <= b)%Q) by (rewrite <- Qle_bool_iff; congruence).
    apply Qnot_le_lt, Qlt_le_weak in H. repeat split; auto. apply Qle_refl.
Qed.

Lemma fold_Qmax2_spec : forall (l : list Q) (x : Q),
  In (fold_left Qmax2 l x) (x :: l)
  /\ forall y, In y (x :: l) -> (y <= fold_left Qmax2 l x)%Q.
Proof.
  induction l as [|a l IH]; intros x; simpl.
  - split; [auto|]. intros y [<-|[]]. apply Qle_refl.
  - destruct (IH (Qmax2 x a)) as [Hin Hub].
    destruct (Qmax2_cases x a) as [Hc [Hx Ha]]. split.
    + simpl in Hin. destruct Hin as [Hin|Hin]; [|auto].
      rewrite <- Hin. destruct Hc as [-> | ->]; auto.
    + intros y [<-|[<-|Hy]].
      * eapply Qle_trans; [exact Hx|]. apply Hub. left. reflexivity.
      * eapply Qle_trans; [exact Ha|]. apply Hub. left. reflexivity.
      * apply Hub. right. exact Hy.
Qed.

Lemma fold_Qmin2_spec : forall (l : list Q) (x : Q),
  In (fold_left Qmin2 l x) (x :: l)
  /\ forall y, In y (x :: l) -> (fold_left Qmin2 l x <= y)%Q.
Proof.
  induction l as [|a l IH]; intros x; simpl.
  - split; [auto|]. intros y [<-|[]]. apply Qle_refl.
  - destruct (IH (Qmin2 x a)) as [Hin Hlb].
    destruct (Qmin2_cases x a) as [Hc [Hx Ha]]. split.
    + simpl in Hin. destruct Hin as [Hin|Hin]; [|auto].
      rewrite <- Hin. destruct Hc as [-> | ->]; auto.
    + intros y [<-|[<-|Hy]].
      * eapply Qle_trans; [|exact Hx]. apply Hlb. left. reflexivity.
      * eapply Qle_trans; [|exact Ha]. apply Hlb. left. reflexivity.
      * apply Hlb. right. exact Hy.
Qed.

(** [max] and [min] of a group that is not empty: a value of the group that
    bounds all of them. *)
Lemma sql_max_spec : forall l : list Q,
  l <> [] -> In (sql_max l) l /\ forall y, In y l -> (y <= sql_max l)%Q.
Proof.
  intros [|x l] H; [congruence|]. unfold sql_max. simpl.
  apply fold_Qmax2_spec.
Qed.

Lemma sql_min_spec : forall l : list Q,
  l <> [] -> In (sql_min l) l /\ forall y, In y l -> (sql_min l <= y)%Q.
Proof.
  intros [|x l] H; [congruence|]. unfold sql_min. simpl.
  apply fold_Qmin2_spec.
Qed.

Lemma fold_left_Qplus : forall (l : list Q) (a : Q),
  (fold_left Qplus l a == a + fold_right Qplus 0 l)%Q.
Proof.
  induction l as [|x l IH]; intros a; simpl.
  - rewrite Qplus_0_r. reflexivity.
  - rewrite IH. rewrite Qplus_assoc. reflexivity.
Qed.

(** [sum] does not depend on the direction of the summation. *)
Lemma sql_sum_spec : forall l : list Q,
  (sql_sum l == fold_right Qplus 0 l)%Q.
Proof.
  intros l. unfold sql_sum. rewrite fold_left_Qplus.
  apply Qplus_0_l.
Qed.

Lemma sql_first_spec : forall (x : Q) (l : list Q), sql_first (x :: l) = x.
Proof. reflexivity. Qed.

Lemma sql_last_spec : forall (l : list Q) (x : Q), sql_last (l ++ [x]) = x.
Proof. intros l x. unfold sql_last. apply last_last. Qed.

(** ** The sweep over trades *)


Lemma candle_of_tickers_key : forall k g, candle_key (candle_of_tickers k g) = k.
Proof. intros [s b] g. reflexivity. Qed.


Lemma nonempty_first : forall {A} (l : list A),
  l <> [] -> exists x rest, l = x :: rest.
Proof. intros A [|x rest] H; [congruence | eauto]. Qed.

Lemma nonempty_last : forall {A} (l : list A),
  l <> [] -> exists init x, l = init ++ [x].
Proof.
  intros A l H. destruct (exists_last H) as [init [x E]]. eauto.
Qed.



Lemma generate_candles_from_trades_again : forall now db,
  coinbase_candles
    (generate_candles_from_trades now (generate_candles_from_trades now db))
  = coinbase_candles (generate_candles_from_trades now db)
    ++ (if 0 <? sql_count (coinbase_trades db)
        then select_candles_from_trades now (coinbase_trades db) else []).
Proof.
  intros now db. unfold generate_candles_from_trades.
  destruct (0 <? sql_count (coinbase_trades db)) eqn:E; simpl; rewrite E.
  - reflexivity.
  - rewrite app_nil_r. reflexivity.
Qed.

(** ** The sweep over ticker rows *)

Lemma existsb_Zeqb_In : forall (x : Z) (l : list Z),
  existsb (Z.eqb x) l = true <-> In x l.
Proof.
  intros x l. rewrite existsb_exists. split.
  - intros [y [Hy E]]. apply Z.eqb_eq in E. subst. exact Hy.
  - intros H. exists x. split; [exact H | apply Z.eqb_refl].
Qed.

Lemma materialized_In : forall now candles ts,
  In ts (materialized now candles) <->
  exists c, In c candles /\ Candles.timestamp c = ts
            /\ dateadd_h (-2) now <= ts.
Proof.
  intros now candles ts. unfold materialized. rewrite in_map_iff. split.
  - intros [c [E H]]. apply filter_In in H. destruct H as [Hin Hlo].
    apply Z.leb_le in Hlo. exists c. subst ts. auto.
  - intros [c [Hin [E Hlo]]]. exists c. split; [exact E|].
    apply filter_In. split; [exact Hin|]. apply Z.leb_le. subst ts. exact Hlo.
Qed.

Lemma materialized_app : forall now a b,
  materialized now (a ++ b) = materialized now a ++ materialized now b.
Proof.
  intros now a b. unfold materialized. rewrite filter_app, map_app.
  reflexivity.
Qed.

Lemma ticker_window_In : forall now db r,
  In r (ticker_window now db) <->
  In r (coinbase_ticker db)
  /\ dateadd_h (-2) now <= Tickers.timestamp r
  /\ ~ In (date_trunc_minute (Tickers.timestamp r))
          (materialized now (coinbase_candles db)).
Proof.
  intros now db r. unfold ticker_window.
  rewrite filter_In, andb_true_iff, negb_true_iff, Z.leb_le.
  rewrite <- existsb_Zeqb_In.
  destruct (existsb _ _); intuition congruence.
Qed.

Lemma select_candles_from_ticker_In : forall now db c,
  In c (select_candles_from_ticker now db) ->
  exists r, In r (ticker_window now db)
            /\ Tickers.symbol r = Candles.symbol c
            /\ date_trunc_minute (Tickers.timestamp r) = Candles.timestamp c.
Proof.
  intros now db c H. unfold select_candles_from_ticker in H.
  apply (group_by_In ticker_key candle_of_tickers candle_key
           candle_of_tickers_key) in H.
  destruct H as [_ H]. apply in_map_iff in H. destruct H as [r [E Hr]].
  exists r. split; [exact Hr|]. unfold ticker_key, candle_key in E.
  inversion E. auto.
Qed.

Lemma ticker_window_selected : forall now db r,
  In r (ticker_window now db) ->
  exists c, In c (select_candles_from_ticker now db)
            /\ Candles.symbol c = Tickers.symbol r
            /\ Candles.timestamp c = date_trunc_minute (Tickers.timestamp r).
Proof.
  intros now db r H.
  exists (candle_of_tickers (ticker_key r)
            (group ticker_key (ticker_window now db) (ticker_key r))).
  split; [|split; reflexivity].
  apply group_by_complete. intros E.
  assert (Hr : In r (group ticker_key (ticker_window now db) (ticker_key r))).
  { unfold group. apply filter_In. split; [exact H | apply key_eqb_refl]. }
  rewrite E in Hr. exact Hr.
Qed.

(** A second sweep at the same instant inserts only candles of a minute
    that starts before the window. *)
Lemma second_sweep_before_window : forall now db c,
  In c (select_candles_from_ticker now (generate_candles now db)) ->
  Candles.timestamp c < dateadd_h (-2) now.
Proof.
  intros now db c H.
  destruct (select_candles_from_ticker_In _ _ _ H) as [r [Hr [_ Et]]].
  apply ticker_window_In in Hr. destruct Hr as [Hin [Hlo Hnot]].
  simpl in Hin, Hnot. rewrite materialized_app in Hnot.
  destruct (Z.lt_ge_cases (Candles.timestamp c) (dateadd_h (-2) now))
    as [Hlt|Hge]; [exact Hlt|].
  exfalso. apply Hnot. apply in_or_app.
  destruct (in_dec Z.eq_dec (date_trunc_minute (Tickers.timestamp r))
              (materialized now (coinbase_candles db))) as [Hm|Hm];
    [left; exact Hm|].
  right.
  assert (Hw : In r (ticker_window now db))
    by (apply ticker_window_In; auto).
  destruct (ticker_window_selected _ _ _ Hw) as [c0 [Hc0 [_ Et0]]].
  apply materialized_In. exists c0. rewrite Et. rewrite Et in Et0. auto.
Qed.

Lemma date_trunc_minute_aligned : forall lo ts,
  lo mod usec_per_minute = 0 -> lo <= ts -> lo <= date_trunc_minute ts.
Proof.
  intros lo ts Hal Hle. unfold date_trunc_minute.
  assert (Hm : 0 < usec_per_minute) by (unfold usec_per_minute; lia).
  pose proof (Z.div_mod ts usec_per_minute ltac:(lia)) as Ets.
  pose proof (Z.div_mod lo usec_per_minute ltac:(lia)) as Elo.
  pose proof (Z.div_le_mono lo ts usec_per_minute Hm Hle) as Hq.
  rewrite Hal in Elo. nia.
Qed.

(** When the window starts on a minute boundary the sweep over ticker rows
    is idempotent. *)
Lemma generate_candles_idempotent_aligned : forall now db,
  dateadd_h (-2) now mod usec_per_minute = 0 ->
  generate_candles now (generate_candles now db) = generate_candles now db.
Proof.
  intros now db Hal.
  assert (E : select_candles_from_ticker now (generate_candles now db) = []).
  { destruct (select_candles_from_ticker now (generate_candles now db))
      as [|c l] eqn:E; [reflexivity|].
    assert (Hc : In c (select_candles_from_ticker now (generate_candles now db)))
      by (rewrite E; left; reflexivity).
    pose proof (second_sweep_before_window _ _ _ Hc) as Hlt.
    destruct (select_candles_from_ticker_In _ _ _ Hc) as [r [Hr [_ Et]]].
    apply ticker_window_In in Hr. destruct Hr as [_ [Hlo _]].
    pose proof (date_trunc_minute_aligned _ _ Hal Hlo). lia. }
  unfold generate_candles at 1. rewrite E, app_nil_r. reflexivity.
Qed.

(** C1. Run twice at the same instant over the same trades, the sweep over
    trades leaves every candle twice in the table; and the sweep over ticker
    rows inserts again the candle of the minute in which its window starts. *)
Theorem candle_sweeps_not_idempotent :
  (let db := mkDatabase Examples.four_trades [] [] in
   let once := generate_candles_from_trades Examples.sweep_time db in
   let twice := generate_candles_from_trades Examples.sweep_time once in
   coinbase_candles once = [Examples.four_trades_candle]
   /\ coinbase_candles twice
      = [Examples.four_trades_candle; Examples.four_trades_candle])
  /\ (let once := generate_candles Examples.boundary_now Examples.boundary_db in
      let twice := generate_candles Examples.boundary_now once in
      coinbase_candles once
      = [Examples.flat_candle "A" 10 0; Examples.flat_candle "B" 20 0]
      /\ coinbase_candles twice
         = [Examples.flat_candle "A" 10 0; Examples.flat_candle "B" 20 0;
            Examples.flat_candle "B" 20 0]).
Proof. repeat split; vm_compute; reflexivity. Qed.

(** The claim C8 without a condition on the minute fails: a minute that
    starts before the window and has a candle gets one more. *)
Lemma ticker_sweep_boundary_minute :
  ~ (forall now db c c',
       In c (coinbase_candles db) ->
       In c' (select_candles_from_ticker now db) ->
       Candles.timestamp c' <> Candles.timestamp c).
Proof.
  intros H.
  apply (H Examples.boundary_now Examples.boundary_db
           (Examples.flat_candle "A" 10 0) (Examples.flat_candle "B" 20 0)).
  - left. reflexivity.
  - vm_compute. left. reflexivity.
  - reflexivity.
Qed.

(** C8. A minute that starts inside the two-hour window and has a candle
    row, of whatever symbol, gets no candle from the sweep, for any
    symbol. *)
Theorem ticker_sweep_skips_materialized_minute :
  forall now db c c',
    In c (coinbase_candles db) ->
    dateadd_h (-2) now <= Candles.timestamp c ->
    In c' (select_candles_from_ticker now db) ->
    Candles.timestamp c' <> Candles.timestamp c.
Proof.
  intros now db c c' Hc Hlo Hc' E.
  destruct (select_candles_from_ticker_In _ _ _ Hc') as [r [Hr [_ Et]]].
  apply ticker_window_In in Hr. destruct Hr as [_ [_ Hnot]].
  apply Hnot. apply materialized_In. exists c. rewrite Et, E. auto.
Qed.

Lemma ticker_sweep_skips_materialized_minute_witness :
  select_candles_from_ticker Examples.aligned_now Examples.two_symbols_db
    = [Examples.flat_candle "B" 21 usec_per_minute]
  /\ Candles.timestamp (Examples.flat_candle "B" 21 usec_per_minute)
     <> Candles.timestamp (Examples.flat_candle "A" 10 0).
Proof.
  split; [vm_compute; reflexivity|].
  apply (ticker_sweep_skips_materialized_minute
           Examples.aligned_now Examples.two_symbols_db).
  - left. reflexivity.
  - vm_compute. discriminate.
  - vm_compute. left. reflexivity.
Defined.

(* ===================================================================== *)
(** * Properties of the store writes *)
(* ===================================================================== *)

(** When the statement fails and the rollback succeeds the insert returns
    normally, the failure is logged and the store holds what it held. *)
Lemma insert_ticker_execute_fails : forall ticker w d,
  hd true d = true ->
  QuestDBClient.insert_ticker ticker (set_driver (false :: d) w)
  = (Ret tt,
     set_store (committed w) []
       (add_log (LogError "Failed to insert ticker" DriverError)
          (set_driver (tl d) w))).
Proof.
  intros ticker w [|b d] H; simpl in H; subst; reflexivity.
Qed.

Lemma insert_trade_execute_fails : forall trade w d,
  hd true d = true ->
  QuestDBClient.insert_trade trade (set_driver (false :: d) w)
  = (Ret tt,
     set_store (committed w) []
       (add_log (LogError "Failed to insert trade" DriverError)
          (set_driver (tl d) w))).
Proof.
  intros trade w [|b d] H; simpl in H; subst; reflexivity.
Qed.

(** When the commit fails and the rollback succeeds the row of the failed
    write is discarded. *)
Lemma insert_ticker_commit_fails : forall ticker w d,
  hd true d = true ->
  QuestDBClient.insert_ticker ticker (set_driver (true :: false :: d) w)
  = (Ret tt,
     set_store (committed w) []
       (add_log (LogError "Failed to insert ticker" DriverError)
          (set_driver (tl d) w))).
Proof.
  intros ticker w [|b d] H; simpl in H; subst; reflexivity.
Qed.

(** When the driver works the row is committed. *)
Lemma insert_ticker_succeeds : forall ticker w,
  driver w = [] ->
  exists row,
    QuestDBClient.insert_ticker ticker w
    = (Ret tt, set_store (committed w ++ pending w ++ [row]) [] w).
Proof.
  intros ticker w H. eexists.
  unfold QuestDBClient.insert_ticker, try_except, cursor_execute, conn_commit,
    bind, driver_call, modify. rewrite H. simpl. rewrite H. simpl.
  reflexivity.
Qed.

(** The two copies of the inserts are the same code. *)
Lemma monolith_inserts_same :
  CoinbaseDataIngestion.insert_ticker = QuestDBClient.insert_ticker
  /\ CoinbaseDataIngestion.insert_trade = QuestDBClient.insert_trade.
Proof. split; reflexivity. Qed.

(** C6. An insert whose statement raises and whose rollback raises as well
    (a connection that is gone) lets the exception of the rollback out to
    its caller, for a ticker and for a trade, in database.py and in
    crypto_ingestion.py. *)
Theorem insert_raises_when_rollback_raises :
  forall (ticker : Ticker.t) (trade : Trade.t) (w : world) (d : list bool),
    QuestDBClient.insert_ticker ticker (set_driver (false :: false :: d) w)
    = (Raise DriverError,
       add_log (LogError "Failed to insert ticker" DriverError) (set_driver d w))
    /\ QuestDBClient.insert_trade trade (set_driver (false :: false :: d) w)
       = (Raise DriverError,
          add_log (LogError "Failed to insert trade" DriverError) (set_driver d w))
    /\ CoinbaseDataIngestion.insert_ticker ticker
         (set_driver (false :: false :: d) w)
       = (Raise DriverError,
          add_log (LogError "Failed to insert ticker" DriverError) (set_driver d w))
    /\ CoinbaseDataIngestion.insert_trade trade
         (set_driver (false :: false :: d) w)
       = (Raise DriverError,
          add_log (LogError "Failed to insert trade" DriverError) (set_driver d w)).
Proof. intros ticker trade w d. repeat split; reflexivity. Qed.

(* ===================================================================== *)
(** * Properties of the broadcast hub *)
(* ===================================================================== *)

Lemma deliver_to_fields : forall message cs w,
  running (deliver_to message cs w) = running w
  /\ committed (deliver_to message cs w) = committed w
  /\ pending (deliver_to message cs w) = pending w
  /\ driver (deliver_to message cs w) = driver w
  /\ connected_clients (deliver_to message cs w) = connected_clients w
  /\ send_json (deliver_to message cs w) = send_json w
  /\ delivered (deliver_to message cs w)
     = delivered w ++ map (fun c => (c, message)) cs
  /\ log (deliver_to message cs w) = log w
  /\ trace (deliver_to message cs w) = trace w.
Proof.
  intros message cs. unfold deliver_to.
  induction cs as [|c cs IH]; intros w; simpl.
  - rewrite app_nil_r. repeat split; reflexivity.
  - destruct (IH (add_delivered c message w))
      as [H1 [H2 [H3 [H4 [H5 [H6 [H7 [H8 H9]]]]]]]].
    simpl in *. rewrite H7, <- app_assoc. simpl. repeat split; assumption.
Qed.

(** The loop over the subscribers when none of them blocks. *)
Lemma send_to_each_returns : forall message cs d w,
  (forall c, In c cs -> send_json w c <> NeverCompletes) ->
  send_to_each message cs d w
  = (Ret (add_all (filter (fun c => send_raises (send_json w c)) cs) d),
     deliver_to message (filter (fun c => delivers (send_json w c)) cs) w).
Proof.
  intros message cs. induction cs as [|c cs IH]; intros d w H.
  - reflexivity.
  - assert (Hc : send_json w c <> NeverCompletes) by (apply H; left; reflexivity).
    assert (Hrest : forall x, In x cs -> send_json w x <> NeverCompletes)
      by (intros x Hx; apply H; right; exact Hx).
    simpl. unfold bind at 1, try_except, bind, client_send_json.
    destruct (send_json w c) eqn:E; simpl; [| |congruence].
    + rewrite IH by exact Hrest. reflexivity.
    + rewrite IH by exact Hrest. reflexivity.
Qed.

(** The loop over the subscribers up to one that blocks. *)
Lemma send_to_each_hangs : forall message pre c post d w,
  send_json w c = NeverCompletes ->
  (forall x, In x pre -> send_json w x <> NeverCompletes) ->
  send_to_each message (pre ++ c :: post) d w
  = (Hang,
     deliver_to message (filter (fun x => delivers (send_json w x)) pre) w).
Proof.
  intros message pre c post. induction pre as [|x pre IH]; intros d w Hc H.
  - simpl. unfold bind at 1, try_except, bind, client_send_json.
    rewrite Hc. reflexivity.
  - assert (Hx : send_json w x <> NeverCompletes) by (apply H; left; reflexivity).
    assert (Hrest : forall y, In y pre -> send_json w y <> NeverCompletes)
      by (intros y Hy; apply H; right; exact Hy).
    simpl. unfold bind at 1, try_except, bind, client_send_json.
    destruct (send_json w x) eqn:E; simpl; [| |congruence].
    + rewrite IH; auto.
    + rewrite IH; auto.
Qed.

Lemma mem_In : forall c cs, mem c cs = true <-> In c cs.
Proof.
  intros c cs. unfold mem. rewrite existsb_exists. split.
  - intros [x [Hx E]]. apply Nat.eqb_eq in E. subst. exact Hx.
  - intros H. exists c. split; [exact H | apply Nat.eqb_refl].
Qed.

Lemma set_add_In : forall c x d, In x (set_add c d) <-> x = c \/ In x d.
Proof.
  intros c x d. unfold set_add. destruct (mem c d) eqn:E.
  - apply mem_In in E. split; [auto | intros [->|H]; auto].
  - rewrite in_app_iff. simpl. intuition.
Qed.

Lemma add_all_In : forall cs d x, In x (add_all cs d) <-> In x cs \/ In x d.
Proof.
  unfold add_all. induction cs as [|c cs IH]; intros d x; simpl.
  - tauto.
  - rewrite IH, set_add_In. intuition.
Qed.

Lemma filter_not_disconnected : forall (sj : client -> send_outcome) cs,
  filter (fun c => negb (mem c (add_all
            (filter (fun c => send_raises (sj c)) cs) []))) cs
  = filter (fun c => negb (send_raises (sj c))) cs.
Proof.
  intros sj cs. apply filter_ext_in. intros c Hc. f_equal.
  destruct (send_raises (sj c)) eqn:E.
  - apply mem_In, add_all_In. left. apply filter_In. auto.
  - destruct (mem c _) eqn:Em; [|reflexivity].
    apply mem_In, add_all_In in Em. destruct Em as [Em|[]].
    apply filter_In in Em. destruct Em as [_ Em]. congruence.
Qed.

(** [broadcast_to_clients] when no subscriber blocks. *)
Lemma broadcast_to_clients_returns : forall message w,
  (forall c, In c (connected_clients w) -> send_json w c <> NeverCompletes) ->
  Main.broadcast_to_clients message w
  = (Ret tt,
     set_connected_clients
       (filter (fun c => negb (send_raises (send_json w c))) (connected_clients w))
       (deliver_to message
          (filter (fun c => delivers (send_json w c)) (connected_clients w)) w)).
Proof.
  intros message w H. unfold Main.broadcast_to_clients.
  destruct (connected_clients w) as [|c cs] eqn:E.
  - destruct w; simpl in E; subst; reflexivity.
  - unfold bind. rewrite send_to_each_returns by exact H.
    unfold difference_update, modify. f_equal.
    pose proof (deliver_to_fields message
                  (filter (fun c0 => delivers (send_json w c0)) (c :: cs)) w)
      as [H1 [H2 [H3 [H4 [H5 [H6 [H7 [H8 H9]]]]]]]].
    unfold set_connected_clients. rewrite H5, E.
    rewrite (filter_not_disconnected (send_json w) (c :: cs)).
    reflexivity.
Qed.


(** ** The publish while other tasks run *)

Lemma check_size_same : forall size0 w,
  List.length (connected_clients w) = size0 ->
  Interleaved.check_size size0 w = (Ret tt, w).
Proof.
  intros size0 w H. unfold Interleaved.check_size.
  rewrite H, Nat.eqb_refl. reflexivity.
Qed.

Lemma check_size_changed : forall size0 w,
  List.length (connected_clients w) <> size0 ->
  Interleaved.check_size size0 w = (Raise RuntimeError, w).
Proof.
  intros size0 w H. unfold Interleaved.check_size.
  apply Nat.eqb_neq in H. rewrite H. reflexivity.
Qed.

(** The body of the loop catches whatever the send raises. *)
Lemma try_send_cases : forall c message d w,
  (send_json w c = Delivers
   /\ Interleaved.try_send c message d w = (Ret d, add_delivered c message w))
  \/ (send_json w c = SendRaises
      /\ Interleaved.try_send c message d w = (Ret (set_add c d), w))
  \/ (send_json w c = NeverCompletes
      /\ Interleaved.try_send c message d w = (Hang, w)).
Proof.
  intros c message d w.
  unfold Interleaved.try_send, try_except, bind, client_send_json.
  destruct (send_json w c); auto.
Qed.

Lemma try_send_registry : forall c message d w,
  connected_clients (snd (Interleaved.try_send c message d w))
  = connected_clients w.
Proof.
  intros c message d w.
  destruct (try_send_cases c message d w) as [[_ E]|[[_ E]|[_ E]]];
    rewrite E; reflexivity.
Qed.

(** Once the other tasks are through, the loop is [send_to_each]. *)
Lemma for_rest_send_to_each : forall message ahead size0 d w,
  List.length (connected_clients w) = size0 ->
  Interleaved.for_rest message size0 ahead d w = send_to_each message ahead d w.
Proof.
  intros message ahead. induction ahead as [|c rest IH]; intros size0 d w H.
  - simpl. unfold bind. rewrite (check_size_same size0 w H). reflexivity.
  - simpl. unfold bind at 1. rewrite (check_size_same size0 w H).
    fold (Interleaved.try_send c message d). unfold bind.
    pose proof (try_send_registry c message d w) as Hr.
    destruct (Interleaved.try_send c message d w) as [[d'|e|] w1];
      [|reflexivity|reflexivity].
    simpl in Hr. apply IH. rewrite Hr. exact H.
Qed.

(** While no other task touches the registry, the loop is [send_to_each]. *)
Lemma for_each_quiet : forall endpoint message s size0 ahead d w,
  Interleaved.quiet s ->
  List.length (connected_clients w) = size0 ->
  Interleaved.for_each endpoint message size0 s ahead d w
  = send_to_each message ahead d w.
Proof.
  intros endpoint message s.
  induction s as [|steps later IH]; intros size0 ahead d w Hq H.
  - apply for_rest_send_to_each. exact H.
  - inversion Hq as [|x l Hsteps Hlater Ex]. rewrite Hsteps.
    simpl. unfold bind at 1. rewrite (check_size_same _ w H).
    destruct ahead as [|c rest]; [reflexivity|].
    simpl. unfold bind at 1, ret at 1.
    fold (Interleaved.try_send c message d). unfold bind.
    pose proof (try_send_registry c message d w) as Hr.
    destruct (Interleaved.try_send c message d w) as [[d'|e|] w1];
      [|reflexivity|reflexivity].
    simpl in Hr. apply IH; [exact Hlater|]. rewrite Hr. exact H.
Qed.

(** While no other task touches the registry, the publish is the
    [broadcast_to_clients] of the feed loops. *)
Lemma publish_quiet : forall endpoint s message w,
  Interleaved.quiet s ->
  Interleaved.publish endpoint s message w = Main.broadcast_to_clients message w.
Proof.
  intros endpoint s message w Hq.
  unfold Interleaved.publish, Main.broadcast_to_clients.
  destruct (connected_clients w) as [|c cs] eqn:E; [reflexivity|].
  unfold bind. rewrite (for_each_quiet endpoint message s _ (c :: cs) [] w Hq).
  - reflexivity.
  - rewrite E. reflexivity.
Qed.

Lemma for_rest_raises_only_RuntimeError : forall message ahead size0 d w e,
  fst (Interleaved.for_rest message size0 ahead d w) = Raise e ->
  e = RuntimeError.
Proof.
  intros message ahead. induction ahead as [|c rest IH]; intros size0 d w e.
  - simpl. unfold bind, Interleaved.check_size.
    destruct (Nat.eqb _ _); simpl; congruence.
  - simpl. unfold bind at 1. unfold Interleaved.check_size at 1.
    destruct (Nat.eqb _ _); simpl; [|congruence].
    fold (Interleaved.try_send c message d). unfold bind.
    destruct (try_send_cases c message d w) as [[_ E]|[[_ E]|[_ E]]];
      rewrite E; try apply IH. simpl. congruence.
Qed.

Lemma for_each_raises_only_RuntimeError :
  forall endpoint message s size0 ahead d w e,
    fst (Interleaved.for_each endpoint message size0 s ahead d w) = Raise e ->
    e = RuntimeError.
Proof.
  intros endpoint message s.
  induction s as [|steps later IH]; intros size0 ahead d w e.
  - apply for_rest_raises_only_RuntimeError.
  - simpl. unfold bind at 1. unfold Interleaved.check_size at 1.
    destruct (Nat.eqb _ _); simpl; [|congruence].
    destruct ahead as [|c rest]; [simpl; congruence|].
    unfold bind at 1.
    destruct (Interleaved.others_run endpoint steps rest w) as [[rest'|e'|] w1]
      eqn:Eo.
    + fold (Interleaved.try_send c message d). unfold bind.
      destruct (try_send_cases c message d w1) as [[_ E]|[[_ E]|[_ E]]];
        rewrite E; try apply IH. simpl. congruence.
    + exfalso. revert Eo. clear. revert rest w.
      induction steps as [|s steps IHs]; intros rest w; simpl.
      * unfold ret. congruence.
      * apply IHs.
    + simpl. congruence.
Qed.

(** Whatever the subscribers and the other tasks do, no exception of a send
    leaves the publish: what it can raise is the [RuntimeError] of the for
    statement. *)
Lemma publish_raises_only_RuntimeError : forall endpoint s message w e,
  fst (Interleaved.publish endpoint s message w) = Raise e -> e = RuntimeError.
Proof.
  intros endpoint s message w e. unfold Interleaved.publish.
  destruct (connected_clients w) as [|c cs]; [simpl; congruence|].
  unfold bind.
  pose proof (for_each_raises_only_RuntimeError endpoint message s
                (List.length (c :: cs)) (c :: cs) [] w) as H.
  destruct (Interleaved.for_each endpoint message (List.length (c :: cs)) s
              (c :: cs) [] w) as [[d|e'|] w1]; simpl in *.
  - unfold difference_update, modify. simpl. congruence.
  - intros E. inversion E; subst. apply H. reflexivity.
  - congruence.
Qed.

(** The other tasks changed the size of the registry while the first send
    was awaited: the for statement raises at its next step, so the publish
    raises, no subscriber after the first is sent the message and the
    publish removes nobody. *)
Lemma publish_raises_on_size_change :
  forall endpoint steps later message w c rest ahead w1,
    connected_clients w = c :: rest ->
    Interleaved.others_run endpoint steps rest w = (Ret ahead, w1) ->
    List.length (connected_clients w1) <> List.length (c :: rest) ->
    send_json w1 c <> NeverCompletes ->
    exists w',
      Interleaved.publish endpoint (steps :: later) message w
      = (Raise RuntimeError, w')
      /\ connected_clients w' = connected_clients w1
      /\ delivered w'
         = delivered w1
           ++ (if delivers (send_json w1 c) then [(c, message)] else []).
Proof.
  intros endpoint steps later message w c rest ahead w1 E Eo Hsize Hc.
  unfold Interleaved.publish. rewrite E. unfold bind at 1.
  cbn [Interleaved.for_each]. unfold bind at 1.
  rewrite check_size_same by (rewrite E; reflexivity).
  unfold bind at 1. rewrite Eo.
  fold (Interleaved.try_send c message []). unfold bind at 1.
  assert (Hnext : forall d w2,
            connected_clients w2 = connected_clients w1 ->
            Interleaved.for_each endpoint message (List.length (c :: rest))
              later ahead d w2 = (Raise RuntimeError, w2)).
  { intros d w2 H2. destruct later as [|steps' later']; simpl.
    - destruct ahead; simpl; unfold bind;
        rewrite check_size_changed by (rewrite H2; exact Hsize); reflexivity.
    - unfold bind. rewrite check_size_changed by (rewrite H2; exact Hsize).
      reflexivity. }
  destruct (try_send_cases c message [] w1) as [[Ec E1]|[[Ec E1]|[Ec E1]]];
    [| |congruence]; rewrite E1, Ec; simpl delivers; cbv iota.
  - rewrite Hnext by reflexivity. eexists. split; [reflexivity|].
    split; reflexivity.
  - rewrite Hnext by reflexivity. eexists. split; [reflexivity|].
    split; [reflexivity|]. rewrite app_nil_r. reflexivity.
Qed.

(** While no other task touches the registry and every send completes or
    raises, the publish returns, the subscribers whose send raised are out
    of the registry, and the others have been sent the message, in the
    order of the iteration. *)
Lemma quiet_publish_evicts_failed_subscribers :
  forall endpoint s message w,
    Interleaved.quiet s ->
    (forall c, In c (connected_clients w) -> send_json w c <> NeverCompletes) ->
    exists w',
      Interleaved.publish endpoint s message w = (Ret tt, w')
      /\ connected_clients w'
         = filter (fun c => negb (send_raises (send_json w c)))
                  (connected_clients w)
      /\ send_json w' = send_json w
      /\ delivered w'
         = delivered w
           ++ map (fun c => (c, message))
                  (filter (fun c => delivers (send_json w c))
                          (connected_clients w)).
Proof.
  intros endpoint s message w Hq H.
  rewrite (publish_quiet endpoint s message w Hq).
  rewrite (broadcast_to_clients_returns message w H).
  pose proof (deliver_to_fields message
                (filter (fun c => delivers (send_json w c))
                        (connected_clients w)) w)
    as [_ [_ [_ [_ [_ [H6 [H7 _]]]]]]].
  eexists. split; [reflexivity|]. simpl.
  split; [reflexivity|]. split; [exact H6 | exact H7].
Qed.

(** C5. The claim fails on the code. Two subscribers are registered; the
    socket of the first one is closed, so the send to it raises. While that
    send is awaited the endpoint of the closed socket gets
    [WebSocketDisconnect] and removes it from the registry: the for
    statement then raises [RuntimeError], the publish raises to its caller
    and the healthy subscriber is never sent the message. When instead a new
    connection is accepted during that send, the publish raises as well and
    the closed socket is still registered afterwards. In main.py and in
    crypto_ingestion.py alike. With no other task running during the send,
    the same publish returns, removes the closed socket and serves the
    healthy subscriber. *)
Theorem publish_raises_when_registry_changes :
  (fst (Interleaved.Main.broadcast_to_clients Interleaved.closed_disconnects
          (VStr "event") Examples.closed_first) = Raise RuntimeError
   /\ delivered
        (snd (Interleaved.Main.broadcast_to_clients
                Interleaved.closed_disconnects (VStr "event")
                Examples.closed_first)) = []
   /\ fst (Interleaved.CoinbaseDataIngestion.broadcast_to_clients
             Interleaved.closed_disconnects (VStr "event")
             Examples.closed_first) = Raise RuntimeError
   /\ delivered
        (snd (Interleaved.CoinbaseDataIngestion.broadcast_to_clients
                Interleaved.closed_disconnects (VStr "event")
                Examples.closed_first)) = [])
  /\ (fst (Interleaved.Main.broadcast_to_clients Interleaved.newcomer_arrives
             (VStr "event") Examples.closed_first) = Raise RuntimeError
      /\ connected_clients
           (snd (Interleaved.Main.broadcast_to_clients
                   Interleaved.newcomer_arrives (VStr "event")
                   Examples.closed_first))
         = [Examples.closed; Examples.healthy; Interleaved.newcomer]
      /\ delivered
           (snd (Interleaved.Main.broadcast_to_clients
                   Interleaved.newcomer_arrives (VStr "event")
                   Examples.closed_first)) = []
      /\ fst (Interleaved.CoinbaseDataIngestion.broadcast_to_clients
                Interleaved.newcomer_arrives (VStr "event")
                Examples.closed_first) = Raise RuntimeError
      /\ connected_clients
           (snd (Interleaved.CoinbaseDataIngestion.broadcast_to_clients
                   Interleaved.newcomer_arrives (VStr "event")
                   Examples.closed_first))
         = [Examples.closed; Examples.healthy; Interleaved.newcomer]
      /\ delivered
           (snd (Interleaved.CoinbaseDataIngestion.broadcast_to_clients
                   Interleaved.newcomer_arrives (VStr "event")
                   Examples.closed_first)) = [])
  /\ (fst (Interleaved.Main.broadcast_to_clients [] (VStr "event")
             Examples.closed_first) = Ret tt
      /\ connected_clients
           (snd (Interleaved.Main.broadcast_to_clients [] (VStr "event")
                   Examples.closed_first)) = [Examples.healthy]
      /\ delivered
           (snd (Interleaved.Main.broadcast_to_clients [] (VStr "event")
                   Examples.closed_first))
         = [(Examples.healthy, VStr "event")]).
Proof. repeat split; reflexivity. Qed.




(* ===================================================================== *)
(** * Properties of the decoder *)
(* ===================================================================== *)

Lemma py_float_not_Hang : forall v, py_float v <> Hang.
Proof.
  intros v. destruct v as [|b|z|q|s|l|d]; simpl; try discriminate.
  destruct (float_of_text s); discriminate.
Qed.

Lemma py_int_not_Hang : forall v, py_int v <> Hang.
Proof.
  intros v. destruct v as [|b|z|q|s|l|d]; simpl; try discriminate.
  destruct (int_of_text s); discriminate.
Qed.

Lemma parse_time_field_not_Hang : forall v, parse_time_field v <> Hang.
Proof.
  intros v. destruct v as [|b|z|q|s|l|d]; simpl; try discriminate.
  destruct (parse_coinbase_time s); discriminate.
Qed.

Lemma getitem_dict : forall data key v,
  getitem data key = Ret v ->
  exists d, data = VDict d /\ dict_lookup key d = Some v.
Proof.
  intros data key v H. destruct data as [|b|z|q|s|l|d]; simpl in H;
    try discriminate.
  exists d. split; [reflexivity|].
  destruct (dict_lookup key d); congruence.
Qed.

Lemma getitem_not_Hang : forall data key, getitem data key <> Hang.
Proof.
  intros data key. destruct data as [|b|z|q|s|l|d]; simpl; try discriminate.
  destruct (dict_lookup key d); discriminate.
Qed.

Lemma float_field_Ret : forall data key q,
  float_field data key = Ret q ->
  exists d v, data = VDict d /\ dict_lookup key d = Some v /\ py_float v = Ret q.
Proof.
  intros data key q H. unfold float_field in H.
  destruct (getitem data key) as [v| |] eqn:E; simpl in H; try discriminate.
  apply getitem_dict in E. destruct E as [d [-> E]]. eauto.
Qed.

Lemma float_field_not_Hang : forall data key, float_field data key <> Hang.
Proof.
  intros data key. unfold float_field.
  pose proof (getitem_not_Hang data key).
  destruct (getitem data key) as [v| |]; simpl; try congruence.
  apply py_float_not_Hang.
Qed.

Ltac res_cases H :=
  repeat match type of H with
  | context [res_bind ?r _] =>
      let E := fresh "E" in
      destruct r eqn:E; simpl in H; try discriminate H
  end.

(** A ticker is built only from a dict that has every field, the numeric
    ones convertible. *)
Lemma Ticker_of_Ret : forall data t,
  Ticker_of data = Ret t ->
  exists d,
    data = VDict d
    /\ (forall k, In k ticker_fields -> dict_lookup k d <> None)
    /\ (forall k v, In k ticker_numeric_fields -> dict_lookup k d = Some v ->
                    exists q, py_float v = Ret q).
Proof.
  intros data t H. unfold Ticker_of in H. res_cases H.
  apply getitem_dict in E. destruct E as [d [-> E]].
  apply float_field_Ret in E0, E1, E2, E3.
  destruct E0 as [d0 [v0 [D0 [L0 F0]]]]. destruct E1 as [d1 [v1 [D1 [L1 F1]]]].
  destruct E2 as [d2 [v2 [D2 [L2 F2]]]]. destruct E3 as [d3 [v3 [D3 [L3 F3]]]].
  inversion D0; inversion D1; inversion D2; inversion D3; subst d0 d1 d2 d3.
  destruct (getitem (VDict d) "time") as [vt| |] eqn:Et; simpl in E4;
    try discriminate.
  apply getitem_dict in Et. destruct Et as [d4 [D4 L4]]. inversion D4; subst d4.
  exists d. split; [reflexivity|]. split.
  - intros k Hk. simpl in Hk.
    destruct Hk as [<-|[<-|[<-|[<-|[<-|[<-|[]]]]]]]; congruence.
  - intros k v Hk Hv. simpl in Hk.
    destruct Hk as [<-|[<-|[<-|[<-|[]]]]]; rewrite Hv in *.
    + inversion L0; subst; eauto.
    + inversion L1; subst; eauto.
    + inversion L2; subst; eauto.
    + inversion L3; subst; eauto.
Qed.

Lemma Trade_of_Ret : forall data t,
  Trade_of data = Ret t ->
  exists d,
    data = VDict d
    /\ (forall k, In k trade_fields -> dict_lookup k d <> None)
    /\ (forall k v, In k trade_numeric_fields -> dict_lookup k d = Some v ->
                    exists q, py_float v = Ret q)
    /\ (forall v, dict_lookup "trade_id" d = Some v -> exists z, py_int v = Ret z).
Proof.
  intros data t H. unfold Trade_of in H. res_cases H.
  apply getitem_dict in E. destruct E as [d [-> E]].
  apply float_field_Ret in E0, E1.
  destruct E0 as [d0 [v0 [D0 [L0 F0]]]]. destruct E1 as [d1 [v1 [D1 [L1 F1]]]].
  inversion D0; inversion D1; subst d0 d1.
  apply getitem_dict in E2. destruct E2 as [d2 [D2 L2]]. inversion D2; subst d2.
  destruct (getitem (VDict d) "time") as [vt| |] eqn:Et; simpl in E3;
    try discriminate.
  apply getitem_dict in Et. destruct Et as [d4 [D4 L4]]. inversion D4; subst d4.
  destruct (getitem (VDict d) "trade_id") as [vi| |] eqn:Ei; simpl in E4;
    try discriminate.
  apply getitem_dict in Ei. destruct Ei as [d5 [D5 L5]]. inversion D5; subst d5.
  exists d. split; [reflexivity|]. split; [|split].
  - intros k Hk. simpl in Hk.
    destruct Hk as [<-|[<-|[<-|[<-|[<-|[<-|[]]]]]]]; congruence.
  - intros k v Hk Hv. simpl in Hk.
    destruct Hk as [<-|[<-|[]]]; rewrite Hv in *.
    + inversion L0; subst; eauto.
    + inversion L1; subst; eauto.
  - intros v Hv. rewrite Hv in L5. inversion L5; subst. eauto.
Qed.

Lemma res_bind_not_Hang : forall {A B} (r : res A) (f : A -> res B),
  r <> Hang -> (forall a, f a <> Hang) -> res_bind r f <> Hang.
Proof.
  intros A B r f Hr Hf. destruct r; simpl; [apply Hf | discriminate | congruence].
Qed.

Lemma Ticker_of_not_Hang : forall data, Ticker_of data <> Hang.
Proof.
  intros data. unfold Ticker_of.
  repeat (apply res_bind_not_Hang;
          [first [apply getitem_not_Hang | apply float_field_not_Hang
                 | apply res_bind_not_Hang;
                   [apply getitem_not_Hang
                   | intros; apply parse_time_field_not_Hang]]
          | intros]).
  discriminate.
Qed.

Lemma Trade_of_not_Hang : forall data, Trade_of data <> Hang.
Proof.
  intros data. unfold Trade_of.
  repeat (apply res_bind_not_Hang;
          [first [apply getitem_not_Hang | apply float_field_not_Hang
                 | apply res_bind_not_Hang;
                   [apply getitem_not_Hang
                   | intros; first [apply parse_time_field_not_Hang
                                   | apply py_int_not_Hang]]]
          | intros]).
  discriminate.
Qed.

(** A frame without a required field, or with a numeric field that does
    not convert, gives no ticker: the constructor expression raises. *)
Lemma Ticker_of_malformed : forall d,
  (exists k, In k ticker_fields /\ dict_lookup k d = None)
  \/ (exists k v e, In k ticker_numeric_fields /\ dict_lookup k d = Some v
                    /\ py_float v = Raise e) ->
  exists e, Ticker_of (VDict d) = Raise e.
Proof.
  intros d H. destruct (Ticker_of (VDict d)) as [t|e|] eqn:E.
  - exfalso. apply Ticker_of_Ret in E. destruct E as [d' [D [Hall Hnum]]].
    inversion D; subst d'. destruct H as [[k [Hk Hn]]|[k [v [e [Hk [Hv He]]]]]].
    + exact (Hall k Hk Hn).
    + destruct (Hnum k v Hk Hv) as [q Hq]. congruence.
  - eauto.
  - exfalso. exact (Ticker_of_not_Hang _ E).
Qed.

Lemma Trade_of_malformed : forall d,
  (exists k, In k trade_fields /\ dict_lookup k d = None)
  \/ (exists k v e, In k trade_numeric_fields /\ dict_lookup k d = Some v
                    /\ py_float v = Raise e)
  \/ (exists v e, dict_lookup "trade_id" d = Some v /\ py_int v = Raise e) ->
  exists e, Trade_of (VDict d) = Raise e.
Proof.
  intros d H. destruct (Trade_of (VDict d)) as [t|e|] eqn:E.
  - exfalso. apply Trade_of_Ret in E. destruct E as [d' [D [Hall [Hnum Hid]]]].
    inversion D; subst d'.
    destruct H as [[k [Hk Hn]]|[[k [v [e [Hk [Hv He]]]]]|[v [e [Hv He]]]]].
    + exact (Hall k Hk Hn).
    + destruct (Hnum k v Hk Hv) as [q Hq]. congruence.
    + destruct (Hid v Hv) as [z Hz]. congruence.
  - eauto.
  - exfalso. exact (Trade_of_not_Hang _ E).
Qed.

Lemma eq_str_match_not_ticker : forall v,
  eq_str v "match" = true -> eq_str v "ticker" = false.
Proof.
  intros v H. destruct v as [|b|z|q|s|l|d]; simpl in *; try reflexivity.
  apply String.eqb_eq in H. subst. reflexivity.
Qed.

Lemma try_except_no_raise : forall {A} (m : M A) (h : exn -> M A) (w : world),
  (forall e, fst (m w) <> Raise e) -> try_except m h w = m w.
Proof.
  intros A m h w H. unfold try_except.
  destruct (m w) as [[a|e|] w1]; simpl in *; try reflexivity.
  exfalso. exact (H e eq_refl).
Qed.

Section ClientFacts.

Variable on_ticker : Ticker.t -> M unit.
Variable on_trade : Trade.t -> M unit.
Variable callbacks : list (pyval -> M unit).

Lemma each_callback_no_raise : forall (cbs : list (pyval -> M unit)) message,
  no_raise (CoinbaseWebSocketClient.each_callback cbs message).
Proof.
  intros cbs message. induction cbs as [|cb cbs IH]; intros w e.
  - discriminate.
  - simpl. unfold bind, try_except, logger_error, modify.
    destruct (cb message w) as [[[]|e0|] w1]; simpl;
      first [apply IH | discriminate].
Qed.

(** A ticker frame that does not decode is logged and dropped: nothing is
    stored, nothing is published, nothing is raised. *)
Lemma _process_message_drops_ticker : forall data msg_type e w,
  dict_get data "type" = Ret msg_type ->
  eq_str msg_type "ticker" = true ->
  Ticker_of data = Raise e ->
  CoinbaseWebSocketClient._process_message on_ticker on_trade callbacks data w
  = (Ret tt, add_log (LogError "Error processing message" e) w).
Proof.
  intros data msg_type e w Ht Hk He.
  unfold CoinbaseWebSocketClient._process_message, try_except, bind, lift.
  rewrite Ht, Hk, He. reflexivity.
Qed.

Lemma _process_message_drops_trade : forall data msg_type e w,
  dict_get data "type" = Ret msg_type ->
  eq_str msg_type "match" = true ->
  Trade_of data = Raise e ->
  CoinbaseWebSocketClient._process_message on_ticker on_trade callbacks data w
  = (Ret tt, add_log (LogError "Error processing message" e) w).
Proof.
  intros data msg_type e w Ht Hk He.
  unfold CoinbaseWebSocketClient._process_message, try_except, bind, lift.
  rewrite Ht, (eq_str_match_not_ticker _ Hk), Hk, He. reflexivity.
Qed.

(** websocket_client.py is robust to a malformed ticker or trade frame:
    the frame is dropped with one log record and the frames after it on the
    same connection are processed. *)
Lemma client_drops_malformed_frame : forall d kind rest fin w,
  dict_lookup "type" d = Some (VStr kind) ->
  (kind = "ticker"
   /\ ((exists k, In k ticker_fields /\ dict_lookup k d = None)
       \/ (exists k v e, In k ticker_numeric_fields
                         /\ dict_lookup k d = Some v /\ py_float v = Raise e)))
  \/ (kind = "match"
      /\ ((exists k, In k trade_fields /\ dict_lookup k d = None)
          \/ (exists k v e, In k trade_numeric_fields
                            /\ dict_lookup k d = Some v /\ py_float v = Raise e)
          \/ (exists v e, dict_lookup "trade_id" d = Some v
                          /\ py_int v = Raise e))) ->
  exists e,
    CoinbaseWebSocketClient._process_message on_ticker on_trade callbacks
      (VDict d) w
    = (Ret tt, add_log (LogError "Error processing message" e) w)
    /\ async_for (CoinbaseWebSocketClient.receive on_ticker on_trade callbacks)
         (Frame (Text (VDict d)) :: rest) fin w
       = async_for (CoinbaseWebSocketClient.receive on_ticker on_trade callbacks)
           rest fin (add_log (LogError "Error processing message" e) w).
Proof.
  intros d kind rest fin w Ht H.
  assert (Hg : dict_get (VDict d) "type" = Ret (VStr kind))
    by (simpl; rewrite Ht; reflexivity).
  assert (Hp : exists e,
    CoinbaseWebSocketClient._process_message on_ticker on_trade callbacks
      (VDict d) w
    = (Ret tt, add_log (LogError "Error processing message" e) w)).
  { destruct H as [[-> H]|[-> H]].
    - destruct (Ticker_of_malformed d H) as [e He]. exists e.
      apply (_process_message_drops_ticker _ _ _ _ Hg eq_refl He).
    - destruct (Trade_of_malformed d H) as [e He]. exists e.
      apply (_process_message_drops_trade _ _ _ _ Hg eq_refl He). }
  destruct Hp as [e Hp]. exists e. split; [exact Hp|].
  simpl. unfold bind at 1. unfold CoinbaseWebSocketClient.receive at 1.
  unfold bind at 1. simpl. rewrite Hp. reflexivity.
Qed.

(** What a ticker frame and a trade frame that decode hand to the
    broadcast callbacks. *)
Lemma _process_message_publishes_ticker : forall data msg_type ticker w w1,
  dict_get data "type" = Ret msg_type ->
  eq_str msg_type "ticker" = true ->
  Ticker_of data = Ret ticker ->
  on_ticker ticker w = (Ret tt, w1) ->
  CoinbaseWebSocketClient._process_message on_ticker on_trade callbacks data w
  = CoinbaseWebSocketClient._broadcast_data callbacks
      (CoinbaseWebSocketClient.ticker_message ticker) w1.
Proof.
  intros data msg_type ticker w w1 Ht Hk Hd Hs.
  unfold CoinbaseWebSocketClient._process_message.
  rewrite <- (try_except_no_raise
                (CoinbaseWebSocketClient._broadcast_data callbacks
                   (CoinbaseWebSocketClient.ticker_message ticker))
                (fun e => logger_error "Error processing message" e) w1)
    by (intros e; apply each_callback_no_raise).
  unfold try_except, bind, lift. rewrite Ht, Hk, Hd, Hs. reflexivity.
Qed.

Lemma _process_message_publishes_trade : forall data msg_type trade w w1,
  dict_get data "type" = Ret msg_type ->
  eq_str msg_type "match" = true ->
  Trade_of data = Ret trade ->
  on_trade trade w = (Ret tt, w1) ->
  CoinbaseWebSocketClient._process_message on_ticker on_trade callbacks data w
  = CoinbaseWebSocketClient._broadcast_data callbacks
      (CoinbaseWebSocketClient.trade_message trade) w1.
Proof.
  intros data msg_type trade w w1 Ht Hk Hd Hs.
  unfold CoinbaseWebSocketClient._process_message.
  rewrite <- (try_except_no_raise
                (CoinbaseWebSocketClient._broadcast_data callbacks
                   (CoinbaseWebSocketClient.trade_message trade))
                (fun e => logger_error "Error processing message" e) w1)
    by (intros e; apply each_callback_no_raise).
  unfold try_except, bind, lift.
  rewrite Ht, (eq_str_match_not_ticker _ Hk), Hk, Hd, Hs. reflexivity.
Qed.

End ClientFacts.

Lemma monolith_receive_publishes_ticker : forall data msg_type ticker w w1,
  getitem data "type" = Ret msg_type ->
  eq_str msg_type "ticker" = true ->
  Ticker_of data = Ret ticker ->
  CoinbaseDataIngestion.insert_ticker ticker w = (Ret tt, w1) ->
  CoinbaseDataIngestion.receive (Text data) w
  = CoinbaseDataIngestion.broadcast_to_clients
      (CoinbaseDataIngestion.ticker_message ticker) w1.
Proof.
  intros data msg_type ticker w w1 Ht Hk Hd Hs.
  unfold CoinbaseDataIngestion.receive, json_loads, bind, lift, ret.
  rewrite Ht, Hk, Hd, Hs. reflexivity.
Qed.

Lemma monolith_receive_publishes_trade : forall data msg_type trade w w1,
  getitem data "type" = Ret msg_type ->
  eq_str msg_type "match" = true ->
  Trade_of data = Ret trade ->
  CoinbaseDataIngestion.insert_trade trade w = (Ret tt, w1) ->
  CoinbaseDataIngestion.receive (Text data) w
  = CoinbaseDataIngestion.broadcast_to_clients
      (CoinbaseDataIngestion.trade_message trade) w1.
Proof.
  intros data msg_type trade w w1 Ht Hk Hd Hs.
  unfold CoinbaseDataIngestion.receive, json_loads, bind, lift, ret.
  rewrite Ht, (eq_str_match_not_ticker _ Hk), Hk, Hd, Hs. reflexivity.
Qed.

Lemma examples_decode :
  Ticker_of Examples.good_ticker = Ret Examples.good_ticker_value
  /\ Trade_of Examples.good_trade = Ret Examples.good_trade_value
  /\ Ticker_of Examples.ticker_without_bid = Raise KeyError.
Proof. repeat split; vm_compute; reflexivity. Qed.

(** C2. On a connection that carries a ticker frame without [best_bid] and
    then a trade, the feed loop of crypto_ingestion.py lets the [KeyError]
    out of the receive loop: the trade is neither stored nor published, the
    loop sleeps 5 seconds and connects again; the client of
    websocket_client.py logs the bad frame, stores and publishes the trade
    and connects again only once the connection is closed. *)
Theorem monolith_feed_reconnects_on_malformed_frame :
  (let w' := snd (CoinbaseDataIngestion.coinbase_websocket_feed
                    [Examples.bad_then_good] Examples.one_client) in
   trace w' = [Connect; Subscribe; Sleep 5; Connect]
   /\ log w' = [LogInfo "Connected to Coinbase WebSocket feed";
                LogError "WebSocket error" KeyError]
   /\ committed w' = []
   /\ delivered w' = [])
  /\ (let w' := snd (App.ws_client_connect_and_subscribe
                       [Examples.bad_then_good] Examples.one_client) in
      trace w' = [Connect; Subscribe; Connect]
      /\ log w' = [LogInfo "Connected to Coinbase WebSocket feed";
                   LogError "Error processing message" KeyError]
      /\ committed w'
         = [InsertTrade (VStr "BTC-USD") 50000.5 0.1 (VStr "buy") 12345
              (mkDatetime 2025 6 22 13 48 39 499077 None)]
      /\ delivered w'
         = [(Examples.healthy,
             CoinbaseWebSocketClient.trade_message Examples.good_trade_value)]).
Proof. repeat split; vm_compute; reflexivity. Qed.

(* ===================================================================== *)
(** * The published payloads *)
(* ===================================================================== *)

(** The claim C9 fails for crypto_ingestion.py: the ticker payload it
    publishes has no [spread] and its trade payload has no [time]. *)
Lemma monolith_payloads_lack_spread_and_time :
  (exists payload data,
     delivered (snd (CoinbaseDataIngestion.receive
                       (Text Examples.good_ticker) Examples.one_client))
     = [(Examples.healthy, payload)]
     /\ getitem payload "data" = Ret (VDict data)
     /\ keys data = ["symbol"; "price"; "bid"; "ask"; "volume"]
     /\ dict_lookup "spread" data = None)
  /\ (exists payload data,
        delivered (snd (CoinbaseDataIngestion.receive
                          (Text Examples.good_trade) Examples.one_client))
        = [(Examples.healthy, payload)]
        /\ getitem payload "data" = Ret (VDict data)
        /\ keys data = ["symbol"; "price"; "size"; "side"]
        /\ dict_lookup "time" data = None).
Proof.
  split.
  - eexists. eexists. split; [vm_compute; reflexivity|].
    split; [reflexivity|]. split; reflexivity.
  - eexists. eexists. split; [vm_compute; reflexivity|].
    split; [reflexivity|]. split; reflexivity.
Qed.

(** C9. For a frame that decodes and whose event is stored, the client of
    websocket_client.py hands to its broadcast callbacks, for a ticker, the
    dict with [type] and [data] of symbol, price, bid, ask, volume and
    spread, the spread being best_ask minus best_bid, and for a trade the
    dict with [type] and [data] of symbol, price, size, side and time; the
    feed of crypto_ingestion.py publishes the ticker data without spread and
    the trade data without time. *)
Theorem published_payload_shapes :
  (forall on_ticker on_trade callbacks data msg_type ticker w w1,
     dict_get data "type" = Ret msg_type ->
     eq_str msg_type "ticker" = true ->
     Ticker_of data = Ret ticker ->
     on_ticker ticker w = (Ret tt, w1) ->
     CoinbaseWebSocketClient._process_message on_ticker on_trade callbacks data w
     = CoinbaseWebSocketClient._broadcast_data callbacks
         (VDict [("type", VStr "ticker");
                 ("data",
                  VDict [("symbol", Ticker.symbol ticker);
                         ("price", VFloat (Ticker.last_price ticker));
                         ("bid", VFloat (Ticker.best_bid ticker));
                         ("ask", VFloat (Ticker.best_ask ticker));
                         ("volume", VFloat (Ticker.volume_24h ticker));
                         ("spread", VFloat (Ticker.best_ask ticker
                                            - Ticker.best_bid ticker)%Q)])])
         w1)
  /\ (forall on_ticker on_trade callbacks data msg_type trade w w1,
        dict_get data "type" = Ret msg_type ->
        eq_str msg_type "match" = true ->
        Trade_of data = Ret trade ->
        on_trade trade w = (Ret tt, w1) ->
        CoinbaseWebSocketClient._process_message on_ticker on_trade callbacks
          data w
        = CoinbaseWebSocketClient._broadcast_data callbacks
            (VDict [("type", VStr "trade");
                    ("data",
                     VDict [("symbol", Trade.symbol trade);
                            ("price", VFloat (Trade.price trade));
                            ("size", VFloat (Trade.size trade));
                            ("side", Trade.side trade);
                            ("time", VStr (isoformat (Trade.time trade)))])])
            w1)
  /\ (forall data msg_type ticker w w1,
        getitem data "type" = Ret msg_type ->
        eq_str msg_type "ticker" = true ->
        Ticker_of data = Ret ticker ->
        CoinbaseDataIngestion.insert_ticker ticker w = (Ret tt, w1) ->
        CoinbaseDataIngestion.receive (Text data) w
        = CoinbaseDataIngestion.broadcast_to_clients
            (VDict [("type", VStr "ticker");
                    ("data",
                     VDict [("symbol", Ticker.symbol ticker);
                            ("price", VFloat (Ticker.last_price ticker));
                            ("bid", VFloat (Ticker.best_bid ticker));
                            ("ask", VFloat (Ticker.best_ask ticker));
                            ("volume", VFloat (Ticker.volume_24h ticker))])])
            w1)
  /\ (forall data msg_type trade w w1,
        getitem data "type" = Ret msg_type ->
        eq_str msg_type "match" = true ->
        Trade_of data = Ret trade ->
        CoinbaseDataIngestion.insert_trade trade w = (Ret tt, w1) ->
        CoinbaseDataIngestion.receive (Text data) w
        = CoinbaseDataIngestion.broadcast_to_clients
            (VDict [("type", VStr "trade");
                    ("data",
                     VDict [("symbol", Trade.symbol trade);
                            ("price", VFloat (Trade.price trade));
                            ("size", VFloat (Trade.size trade));
                            ("side", Trade.side trade)])])
            w1).
Proof.
  split; [|split; [|split]].
  - intros. eapply _process_message_publishes_ticker; eassumption.
  - intros. eapply _process_message_publishes_trade; eassumption.
  - intros. eapply monolith_receive_publishes_ticker; eassumption.
  - intros. eapply monolith_receive_publishes_trade; eassumption.
Qed.

Lemma published_payload_shapes_witness :
  delivered (snd (App.ws_client_process_message
                    Examples.good_ticker Examples.one_client))
  = [(Examples.healthy,
      VDict [("type", VStr "ticker");
             ("data",
              VDict [("symbol", VStr "BTC-USD");
                     ("price", VFloat 50000.5);
                     ("bid", VFloat 50000.0);
                     ("ask", VFloat 50001.5);
                     ("volume", VFloat 1000);
                     ("spread", VFloat (50001.5 - 50000.0)%Q)])])]
  /\ delivered (snd (App.ws_client_process_message
                       Examples.good_trade Examples.one_client))
     = [(Examples.healthy,
         VDict [("type", VStr "trade");
                ("data",
                 VDict [("symbol", VStr "BTC-USD");
                        ("price", VFloat 50000.5);
                        ("size", VFloat 0.1);
                        ("side", VStr "buy");
                        ("time", VStr "2025-06-22T13:48:39.499077")])])].
Proof.
  split.
  - unfold App.ws_client_process_message.
    rewrite (proj1 published_payload_shapes
               QuestDBClient.insert_ticker QuestDBClient.insert_trade
               [Main.broadcast_to_clients] Examples.good_ticker
               (VStr "ticker") Examples.good_ticker_value Examples.one_client
               (snd (QuestDBClient.insert_ticker Examples.good_ticker_value
                       Examples.one_client))).
    + vm_compute. reflexivity.
    + reflexivity.
    + reflexivity.
    + vm_compute. reflexivity.
    + vm_compute. reflexivity.
  - unfold App.ws_client_process_message.
    rewrite (proj1 (proj2 published_payload_shapes)
               QuestDBClient.insert_ticker QuestDBClient.insert_trade
               [Main.broadcast_to_clients] Examples.good_trade
               (VStr "match") Examples.good_trade_value Examples.one_client
               (snd (QuestDBClient.insert_trade Examples.good_trade_value
                       Examples.one_client))).
    + vm_compute. reflexivity.
    + reflexivity.
    + reflexivity.
    + vm_compute. reflexivity.
    + vm_compute. reflexivity.
Defined.

(* ===================================================================== *)
(** * Properties of the feed connection manager *)
(* ===================================================================== *)

Lemma keeps_trace_ret : forall {A} (a : A), keeps_trace (ret a).
Proof. intros A a w. reflexivity. Qed.

Lemma keeps_trace_raise : forall {A} e, keeps_trace (@raise A e).
Proof. intros A e w. reflexivity. Qed.

Lemma keeps_trace_lift : forall {A} (r : res A), keeps_trace (lift r).
Proof. intros A r w. reflexivity. Qed.

Lemma keeps_trace_bind : forall {A B} (m : M A) (f : A -> M B),
  keeps_trace m -> (forall a, keeps_trace (f a)) -> keeps_trace (bind m f).
Proof.
  intros A B m f Hm Hf w. unfold bind. specialize (Hm w).
  destruct (m w) as [[a|e|] w1]; simpl in *; auto.
  rewrite Hf. exact Hm.
Qed.

Lemma keeps_trace_try_except : forall {A} (m : M A) (h : exn -> M A),
  keeps_trace m -> (forall e, keeps_trace (h e)) -> keeps_trace (try_except m h).
Proof.
  intros A m h Hm Hh w. unfold try_except. specialize (Hm w).
  destruct (m w) as [[a|e|] w1]; simpl in *; auto.
  rewrite Hh. exact Hm.
Qed.

Lemma keeps_trace_modify : forall f,
  (forall w, trace (f w) = trace w) -> keeps_trace (modify f).
Proof. intros f H w. apply H. Qed.

Lemma keeps_trace_logger_error : forall message e,
  keeps_trace (logger_error message e).
Proof. intros message e w. reflexivity. Qed.

Lemma keeps_trace_driver_call : keeps_trace driver_call.
Proof.
  intros w. unfold driver_call. destruct (driver w) as [|[] d]; reflexivity.
Qed.

Lemma keeps_trace_json_loads : forall m, keeps_trace (json_loads m).
Proof. intros [v|] w; reflexivity. Qed.

Create HintDb trace_db.
#[local] Hint Resolve keeps_trace_ret keeps_trace_raise keeps_trace_lift
  keeps_trace_logger_error keeps_trace_driver_call keeps_trace_json_loads
  : trace_db.

Ltac keeps :=
  repeat first
    [ apply keeps_trace_bind
    | apply keeps_trace_try_except
    | apply keeps_trace_modify; intros; reflexivity
    | solve [auto with trace_db]
    | intro ].

Lemma keeps_trace_insert_ticker : forall ticker,
  keeps_trace (QuestDBClient.insert_ticker ticker).
Proof.
  intros ticker. unfold QuestDBClient.insert_ticker, cursor_execute,
    conn_commit, conn_rollback. keeps.
Qed.

Lemma keeps_trace_insert_trade : forall trade,
  keeps_trace (QuestDBClient.insert_trade trade).
Proof.
  intros trade. unfold QuestDBClient.insert_trade, cursor_execute,
    conn_commit, conn_rollback. keeps.
Qed.

Lemma keeps_trace_client_send_json : forall c message,
  keeps_trace (client_send_json c message).
Proof.
  intros c message w. unfold client_send_json.
  destruct (send_json w c); reflexivity.
Qed.

Lemma keeps_trace_send_to_each : forall message cs d,
  keeps_trace (send_to_each message cs d).
Proof.
  intros message cs. induction cs as [|c cs IH]; intros d; simpl.
  - apply keeps_trace_ret.
  - apply keeps_trace_bind; [|intros; apply IH].
    apply keeps_trace_try_except; [|intros; apply keeps_trace_ret].
    apply keeps_trace_bind;
      [apply keeps_trace_client_send_json | intros; apply keeps_trace_ret].
Qed.

Lemma keeps_trace_broadcast_to_clients : forall message,
  keeps_trace (Main.broadcast_to_clients message).
Proof.
  intros message w. unfold Main.broadcast_to_clients.
  destruct (connected_clients w) as [|c cs]; [reflexivity|].
  apply (keeps_trace_bind (send_to_each message (c :: cs) [])
           (fun d => difference_update d)).
  - apply keeps_trace_send_to_each.
  - intros d w1. reflexivity.
Qed.

#[local] Hint Resolve keeps_trace_insert_ticker keeps_trace_insert_trade
  keeps_trace_broadcast_to_clients : trace_db.

Lemma keeps_trace_each_callback : forall (cbs : list (pyval -> M unit)) message,
  Forall (fun cb => forall m, keeps_trace (cb m)) cbs ->
  keeps_trace (CoinbaseWebSocketClient.each_callback cbs message).
Proof.
  intros cbs message H. induction H as [|cb cbs Hcb _ IH]; simpl.
  - apply keeps_trace_ret.
  - apply keeps_trace_bind; [|intros; exact IH].
    apply keeps_trace_try_except;
      [apply Hcb | intros; apply keeps_trace_logger_error].
Qed.

Lemma keeps_trace_app_receive : forall m,
  keeps_trace (CoinbaseWebSocketClient.receive
                 QuestDBClient.insert_ticker QuestDBClient.insert_trade
                 [Main.broadcast_to_clients] m).
Proof.
  intros m. unfold CoinbaseWebSocketClient.receive.
  apply keeps_trace_bind; [solve [auto with trace_db]|]. intros data.
  unfold CoinbaseWebSocketClient._process_message.
  apply keeps_trace_try_except; [|auto with trace_db].
  apply keeps_trace_bind; [auto with trace_db|]. intros msg_type.
  assert (Hb : forall message,
            keeps_trace (CoinbaseWebSocketClient._broadcast_data
                           [Main.broadcast_to_clients] message)).
  { intros message. apply keeps_trace_each_callback.
    repeat constructor. auto with trace_db. }
  destruct (eq_str msg_type "ticker"); [|destruct (eq_str msg_type "match")].
  - keeps.
  - keeps.
  - auto with trace_db.
Qed.

Lemma keeps_trace_monolith_receive : forall m,
  keeps_trace (CoinbaseDataIngestion.receive m).
Proof.
  intros m. unfold CoinbaseDataIngestion.receive.
  apply keeps_trace_bind; [solve [auto with trace_db]|]. intros data.
  apply keeps_trace_bind; [auto with trace_db|]. intros msg_type.
  destruct (eq_str msg_type "ticker"); [|destruct (eq_str msg_type "match")].
  - apply keeps_trace_bind; [auto with trace_db|]. intros ticker.
    apply keeps_trace_bind; [apply keeps_trace_insert_ticker|]. intros _.
    apply keeps_trace_broadcast_to_clients.
  - apply keeps_trace_bind; [auto with trace_db|]. intros trade.
    apply keeps_trace_bind; [apply keeps_trace_insert_trade|]. intros _.
    apply keeps_trace_broadcast_to_clients.
  - auto with trace_db.
Qed.

Lemma keeps_trace_async_for : forall handle events fin,
  (forall m, keeps_trace (handle m)) ->
  keeps_trace (async_for handle events fin).
Proof.
  intros handle events fin H. induction events as [|[m|] events IH]; simpl.
  - destruct fin; auto with trace_db.
  - apply keeps_trace_bind; [apply H | intros; exact IH].
  - apply keeps_trace_bind; [|intros; exact IH].
    apply keeps_trace_modify. reflexivity.
Qed.

(** ** What is added to the trace *)

Lemma extends_of_keeps : forall {A} (m : M A), keeps_trace m -> extends_trace m.
Proof. intros A m H w. exists []. rewrite app_nil_r. apply H. Qed.

Lemma extends_trace_bind : forall {A B} (m : M A) (f : A -> M B),
  extends_trace m -> (forall a, extends_trace (f a)) -> extends_trace (bind m f).
Proof.
  intros A B m f Hm Hf w. unfold bind. destruct (Hm w) as [t1 H1].
  destruct (m w) as [[a|e|] w1]; simpl in *; eauto.
  destruct (Hf a w1) as [t2 H2]. exists (t1 ++ t2).
  rewrite H2, H1, app_assoc. reflexivity.
Qed.

Lemma extends_trace_try_except : forall {A} (m : M A) (h : exn -> M A),
  extends_trace m -> (forall e, extends_trace (h e)) ->
  extends_trace (try_except m h).
Proof.
  intros A m h Hm Hh w. unfold try_except. destruct (Hm w) as [t1 H1].
  destruct (m w) as [[a|e|] w1]; simpl in *; eauto.
  destruct (Hh e w1) as [t2 H2]. exists (t1 ++ t2).
  rewrite H2, H1, app_assoc. reflexivity.
Qed.

Lemma extends_trace_emit : forall a, extends_trace (emit a).
Proof. intros a w. exists [a]. reflexivity. Qed.

Lemma extends_trace_asyncio_sleep : forall n stop,
  extends_trace (asyncio_sleep n stop).
Proof. intros n stop w. exists [Sleep n]. destruct stop; reflexivity. Qed.

Lemma starts_with_bind : forall {A B} a (m : M A) (f : A -> M B),
  starts_with a m -> (forall x, extends_trace (f x)) -> starts_with a (bind m f).
Proof.
  intros A B a m f Hm Hf w. unfold bind. destruct (Hm w) as [t1 H1].
  destruct (m w) as [[x|e|] w1]; simpl in *; eauto.
  destruct (Hf x w1) as [t2 H2]. exists (t1 ++ t2).
  rewrite H2, H1, <- app_assoc. reflexivity.
Qed.

Lemma starts_with_try_except : forall {A} a (m : M A) (h : exn -> M A),
  starts_with a m -> (forall e, extends_trace (h e)) ->
  starts_with a (try_except m h).
Proof.
  intros A a m h Hm Hh w. unfold try_except. destruct (Hm w) as [t1 H1].
  destruct (m w) as [[x|e|] w1]; simpl in *; eauto.
  destruct (Hh e w1) as [t2 H2]. exists (t1 ++ t2).
  rewrite H2, H1, <- app_assoc. reflexivity.
Qed.

Lemma starts_with_emit : forall a, starts_with a (emit a).
Proof. intros a w. exists []. reflexivity. Qed.

(** A connection attempt starts with [Connect]. *)
Lemma connected_starts_with_Connect : forall s body,
  keeps_trace body -> starts_with Connect (connected s body).
Proof.
  intros s body Hb. unfold connected.
  apply starts_with_bind; [apply starts_with_emit|]. intros _.
  apply extends_trace_bind;
    [destruct (connect_ok s); apply extends_of_keeps; auto with trace_db|].
  intros _. apply extends_trace_bind; [apply extends_trace_emit|]. intros _.
  apply extends_trace_bind;
    [destruct (subscribe_ok s); apply extends_of_keeps; auto with trace_db|].
  intros _. apply extends_trace_bind;
    [apply extends_of_keeps, keeps_trace_modify; reflexivity|].
  intros _. apply extends_of_keeps, Hb.
Qed.

Lemma extends_of_starts_with : forall {A} a (m : M A),
  starts_with a m -> extends_trace m.
Proof. intros A a m H w. destruct (H w) as [tl E]. eauto. Qed.

Lemma keeps_trace_get_running : keeps_trace get_running.
Proof. intros w. reflexivity. Qed.

Lemma app_attempt_starts_with_Connect : forall s,
  starts_with Connect (App.ws_client_attempt s).
Proof.
  intros s. apply connected_starts_with_Connect.
  apply keeps_trace_async_for. apply keeps_trace_app_receive.
Qed.

Lemma monolith_attempt_starts_with_Connect : forall s,
  starts_with Connect (CoinbaseDataIngestion.attempt s).
Proof.
  intros s. apply connected_starts_with_Connect.
  apply keeps_trace_async_for. apply keeps_trace_monolith_receive.
Qed.

Lemma app_handler_extends : forall s e,
  extends_trace
    (logger_error "WebSocket error" e ;;
     r' <- get_running ;;
     if r' then asyncio_sleep WEBSOCKET_RECONNECT_DELAY (stop_during_delay s)
     else ret tt).
Proof.
  intros s e. apply extends_trace_bind;
    [apply extends_of_keeps, keeps_trace_logger_error|].
  intros _. apply extends_trace_bind;
    [apply extends_of_keeps, keeps_trace_get_running|].
  intros [|]; [apply extends_trace_asyncio_sleep
              | apply extends_of_keeps, keeps_trace_ret].
Qed.

Lemma monolith_handler_extends : forall s e,
  extends_trace
    (logger_error "WebSocket error" e ;; asyncio_sleep 5 (stop_during_delay s)).
Proof.
  intros s e. apply extends_trace_bind;
    [apply extends_of_keeps, keeps_trace_logger_error|].
  intros _. apply extends_trace_asyncio_sleep.
Qed.

Lemma loop_end_extends :
  extends_trace (r <- get_running ;; if r then emit Connect ;; hang else ret tt).
Proof.
  apply extends_trace_bind; [apply extends_of_keeps, keeps_trace_get_running|].
  intros [|]; [|apply extends_of_keeps, keeps_trace_ret].
  apply extends_trace_bind; [apply extends_trace_emit|].
  intros _ w. exists []. rewrite app_nil_r. reflexivity.
Qed.

Lemma app_loop_extends : forall script,
  extends_trace (App.ws_client_connect_and_subscribe script).
Proof.
  induction script as [|s rest IH].
  - apply loop_end_extends.
  - unfold App.ws_client_connect_and_subscribe. simpl.
    apply extends_trace_bind;
      [apply extends_of_keeps, keeps_trace_get_running|].
    intros [|]; [|apply extends_of_keeps, keeps_trace_ret].
    apply extends_trace_bind; [|intros _; exact IH].
    apply extends_trace_try_except; [|apply app_handler_extends].
    apply (extends_of_starts_with Connect).
    apply app_attempt_starts_with_Connect.
Qed.

Lemma monolith_loop_extends : forall script,
  extends_trace (CoinbaseDataIngestion.coinbase_websocket_feed script).
Proof.
  induction script as [|s rest IH].
  - apply loop_end_extends.
  - simpl.
    apply extends_trace_bind;
      [apply extends_of_keeps, keeps_trace_get_running|].
    intros [|]; [|apply extends_of_keeps, keeps_trace_ret].
    apply extends_trace_bind; [|intros _; exact IH].
    apply extends_trace_try_except; [|apply monolith_handler_extends].
    apply (extends_of_starts_with Connect).
    apply monolith_attempt_starts_with_Connect.
Qed.

(** While the manager is running the next thing it does on the transport
    is to connect. *)
Lemma app_loop_connects : forall script w,
  running w = true ->
  exists tl,
    trace (snd (App.ws_client_connect_and_subscribe script w))
    = trace w ++ Connect :: tl.
Proof.
  intros [|s rest] w H.
  - exists []. unfold App.ws_client_connect_and_subscribe. simpl.
    unfold bind, get_running. rewrite H. reflexivity.
  - unfold App.ws_client_connect_and_subscribe. simpl.
    unfold bind at 1, get_running. rewrite H.
    apply (starts_with_bind Connect); [|intros _; apply app_loop_extends].
    apply starts_with_try_except; [|apply app_handler_extends].
    apply app_attempt_starts_with_Connect.
Qed.

Lemma monolith_loop_connects : forall script w,
  running w = true ->
  exists tl,
    trace (snd (CoinbaseDataIngestion.coinbase_websocket_feed script w))
    = trace w ++ Connect :: tl.
Proof.
  intros [|s rest] w H.
  - exists []. simpl. unfold bind, get_running. rewrite H. reflexivity.
  - simpl. unfold bind at 1, get_running. rewrite H.
    apply (starts_with_bind Connect); [|intros _; apply monolith_loop_extends].
    apply starts_with_try_except; [|apply monolith_handler_extends].
    apply monolith_attempt_starts_with_Connect.
Qed.

(** Once the flag is down the loop does nothing more. *)
Lemma app_loop_stopped : forall script w,
  running w = false ->
  App.ws_client_connect_and_subscribe script w = (Ret tt, w).
Proof.
  intros [|s rest] w H; unfold App.ws_client_connect_and_subscribe; simpl;
    unfold bind, get_running; rewrite H; reflexivity.
Qed.

Lemma monolith_loop_stopped : forall script w,
  running w = false ->
  CoinbaseDataIngestion.coinbase_websocket_feed script w = (Ret tt, w).
Proof.
  intros [|s rest] w H; simpl; unfold bind, get_running; rewrite H;
    reflexivity.
Qed.

(** An exception that ends a connection attempt while the manager is
    running: the fixed delay, then the rest of the loop. *)
Lemma app_loop_retries : forall s rest w e w1,
  running w = true ->
  App.ws_client_attempt s w = (Raise e, w1) ->
  running w1 = true ->
  App.ws_client_connect_and_subscribe (s :: rest) w
  = App.ws_client_connect_and_subscribe rest
      (let w2 := add_trace (Sleep WEBSOCKET_RECONNECT_DELAY)
                   (add_log (LogError "WebSocket error" e) w1) in
       if stop_during_delay s then set_running false w2 else w2).
Proof.
  intros s rest w e w1 H Ha H1.
  unfold App.ws_client_connect_and_subscribe, App.ws_client_attempt in *.
  simpl. unfold bind at 1, get_running. rewrite H.
  unfold bind at 1, try_except. rewrite Ha.
  unfold bind at 1, logger_error, modify.
  unfold bind at 1, get_running. simpl. rewrite H1.
  unfold asyncio_sleep, bind at 1, emit, modify.
  destruct (stop_during_delay s); reflexivity.
Qed.

Lemma monolith_loop_retries : forall s rest w e w1,
  running w = true ->
  CoinbaseDataIngestion.attempt s w = (Raise e, w1) ->
  CoinbaseDataIngestion.coinbase_websocket_feed (s :: rest) w
  = CoinbaseDataIngestion.coinbase_websocket_feed rest
      (let w2 := add_trace (Sleep 5)
                   (add_log (LogError "WebSocket error" e) w1) in
       if stop_during_delay s then set_running false w2 else w2).
Proof.
  intros s rest w e w1 H Ha.
  simpl. unfold bind at 1, get_running. rewrite H.
  unfold bind at 1, try_except. rewrite Ha.
  unfold bind at 1, logger_error, modify.
  unfold asyncio_sleep, bind at 1, emit, modify.
  destruct (stop_during_delay s); reflexivity.
Qed.

(** The stop signal given during a connection: when the connection ends
    the loop returns without connecting again. *)
Lemma app_loop_stop_during_attempt : forall s rest w r w1,
  running w = true ->
  App.ws_client_attempt s w = (r, w1) ->
  r <> Hang ->
  running w1 = false ->
  exists w',
    App.ws_client_connect_and_subscribe (s :: rest) w = (Ret tt, w')
    /\ trace w' = trace w1.
Proof.
  intros s rest w r w1 H Ha Hr H1.
  unfold App.ws_client_connect_and_subscribe, App.ws_client_attempt in *.
  simpl. unfold bind at 1, get_running. rewrite H.
  unfold bind at 1, try_except. rewrite Ha.
  destruct r as [[]|e|]; [| |congruence].
  - exists w1. split; [|reflexivity].
    apply (app_loop_stopped rest w1 H1).
  - unfold bind at 1, logger_error, modify.
    unfold bind at 1, get_running. simpl. rewrite H1. unfold ret.
    exists (add_log (LogError "WebSocket error" e) w1). split; [|reflexivity].
    apply (app_loop_stopped rest). exact H1.
Qed.

Lemma monolith_loop_stop_during_attempt : forall s rest w r w1,
  running w = true ->
  CoinbaseDataIngestion.attempt s w = (r, w1) ->
  r <> Hang ->
  running w1 = false ->
  exists w' tl,
    CoinbaseDataIngestion.coinbase_websocket_feed (s :: rest) w = (Ret tt, w')
    /\ trace w' = trace w1 ++ tl
    /\ ~ In Connect tl.
Proof.
  intros s rest w r w1 H Ha Hr H1.
  simpl. unfold bind at 1, get_running. rewrite H.
  unfold bind at 1, try_except. rewrite Ha.
  destruct r as [[]|e|]; [| |congruence].
  - exists w1, []. split; [|split].
    + apply (monolith_loop_stopped rest w1 H1).
    + rewrite app_nil_r. reflexivity.
    + intros [].
  - unfold bind at 1, logger_error, modify.
    unfold asyncio_sleep, bind at 1, emit, modify.
    exists (if stop_during_delay s
            then set_running false
                   (add_trace (Sleep 5)
                      (add_log (LogError "WebSocket error" e) w1))
            else add_trace (Sleep 5)
                   (add_log (LogError "WebSocket error" e) w1)).
    exists [Sleep 5]. split; [|split].
    + destruct (stop_during_delay s); simpl;
        apply monolith_loop_stopped; simpl; try exact H1; reflexivity.
    + destruct (stop_during_delay s); reflexivity.
    + intros [E|[]]. discriminate.
Qed.

Lemma refused_attempt : forall w,
  App.ws_client_attempt Examples.refused w
  = (Raise TransportError, add_trace Connect w)
  /\ CoinbaseDataIngestion.attempt Examples.refused w
     = (Raise TransportError, add_trace Connect w).
Proof. intros w. split; reflexivity. Qed.

(** However many attempts are refused in a row, each is followed by the
    delay and by one more attempt. *)
Lemma app_loop_refused : forall n w,
  running w = true ->
  fst (App.ws_client_connect_and_subscribe (repeat Examples.refused n) w) = Hang
  /\ trace (snd (App.ws_client_connect_and_subscribe
                   (repeat Examples.refused n) w))
     = trace w
       ++ List.concat (repeat [Connect; Sleep WEBSOCKET_RECONNECT_DELAY] n)
       ++ [Connect].
Proof.
  induction n as [|n IH]; intros w H.
  - unfold App.ws_client_connect_and_subscribe. simpl.
    unfold bind, get_running. rewrite H. simpl. split; reflexivity.
  - change (repeat Examples.refused (S n))
      with (Examples.refused :: repeat Examples.refused n).
    rewrite (app_loop_retries Examples.refused _ w TransportError
               (add_trace Connect w) H (proj1 (refused_attempt w)) H).
    simpl stop_during_delay. cbv iota zeta.
    destruct (IH (add_trace (Sleep WEBSOCKET_RECONNECT_DELAY)
                    (add_log (LogError "WebSocket error" TransportError)
                       (add_trace Connect w))) H) as [Hr Ht].
    split; [exact Hr|]. rewrite Ht. simpl. rewrite <- !app_assoc.
    reflexivity.
Qed.

Lemma monolith_loop_refused : forall n w,
  running w = true ->
  fst (CoinbaseDataIngestion.coinbase_websocket_feed
         (repeat Examples.refused n) w) = Hang
  /\ trace (snd (CoinbaseDataIngestion.coinbase_websocket_feed
                   (repeat Examples.refused n) w))
     = trace w ++ List.concat (repeat [Connect; Sleep 5] n) ++ [Connect].
Proof.
  induction n as [|n IH]; intros w H.
  - simpl. unfold bind, get_running. rewrite H. simpl. split; reflexivity.
  - change (repeat Examples.refused (S n))
      with (Examples.refused :: repeat Examples.refused n).
    rewrite (monolith_loop_retries Examples.refused _ w TransportError
               (add_trace Connect w) H (proj2 (refused_attempt w))).
    simpl stop_during_delay. cbv iota zeta.
    destruct (IH (add_trace (Sleep 5)
                    (add_log (LogError "WebSocket error" TransportError)
                       (add_trace Connect w))) H) as [Hr Ht].
    split; [exact Hr|]. rewrite Ht. simpl. rewrite <- !app_assoc.
    reflexivity.
Qed.

(** C3. In websocket_client.py and in crypto_ingestion.py: an exception
    that ends a connection attempt while the manager is running is followed
    by a sleep of the reconnect delay, 5 seconds, and, unless the stop
    signal is given meanwhile, by a new attempt to connect; this holds after
    any number of failures; and with the flag down, at the head of the loop
    or from a stop signal given during a connection, the loop returns and
    connects no more. *)
Theorem reconnect_after_error_until_stopped :
  WEBSOCKET_RECONNECT_DELAY = 5
  /\ (forall s rest w e w1,
        running w = true ->
        App.ws_client_attempt s w = (Raise e, w1) ->
        running w1 = true ->
        exists w2,
          App.ws_client_connect_and_subscribe (s :: rest) w
          = App.ws_client_connect_and_subscribe rest w2
          /\ trace w2 = trace w1 ++ [Sleep WEBSOCKET_RECONNECT_DELAY]
          /\ running w2 = negb (stop_during_delay s)
          /\ (stop_during_delay s = false ->
              exists tl,
                trace (snd (App.ws_client_connect_and_subscribe rest w2))
                = trace w1 ++ Sleep WEBSOCKET_RECONNECT_DELAY :: Connect :: tl))
  /\ (forall s rest w e w1,
        running w = true ->
        CoinbaseDataIngestion.attempt s w = (Raise e, w1) ->
        running w1 = true ->
        exists w2,
          CoinbaseDataIngestion.coinbase_websocket_feed (s :: rest) w
          = CoinbaseDataIngestion.coinbase_websocket_feed rest w2
          /\ trace w2 = trace w1 ++ [Sleep 5]
          /\ running w2 = negb (stop_during_delay s)
          /\ (stop_during_delay s = false ->
              exists tl,
                trace (snd (CoinbaseDataIngestion.coinbase_websocket_feed
                              rest w2))
                = trace w1 ++ Sleep 5 :: Connect :: tl))
  /\ (forall n w,
        running w = true ->
        trace (snd (App.ws_client_connect_and_subscribe
                      (repeat Examples.refused n) w))
        = trace w ++ List.concat (repeat [Connect; Sleep 5] n) ++ [Connect]
        /\ trace (snd (CoinbaseDataIngestion.coinbase_websocket_feed
                         (repeat Examples.refused n) w))
           = trace w ++ List.concat (repeat [Connect; Sleep 5] n) ++ [Connect])
  /\ (forall script w,
        running w = false ->
        App.ws_client_connect_and_subscribe script w = (Ret tt, w)
        /\ CoinbaseDataIngestion.coinbase_websocket_feed script w = (Ret tt, w))
  /\ (forall s rest w r w1,
        running w = true ->
        App.ws_client_attempt s w = (r, w1) ->
        r <> Hang ->
        running w1 = false ->
        exists w' tl,
          App.ws_client_connect_and_subscribe (s :: rest) w = (Ret tt, w')
          /\ trace w' = trace w1 ++ tl /\ ~ In Connect tl)
  /\ (forall s rest w r w1,
        running w = true ->
        CoinbaseDataIngestion.attempt s w = (r, w1) ->
        r <> Hang ->
        running w1 = false ->
        exists w' tl,
          CoinbaseDataIngestion.coinbase_websocket_feed (s :: rest) w
          = (Ret tt, w')
          /\ trace w' = trace w1 ++ tl /\ ~ In Connect tl).
Proof.
  split; [reflexivity|]. split; [|split; [|split; [|split; [|split]]]].
  - intros s rest w e w1 H Ha H1. eexists.
    split; [apply (app_loop_retries s rest w e w1 H Ha H1)|].
    cbv zeta. split; [destruct (stop_during_delay s); reflexivity|].
    split; [destruct (stop_during_delay s); simpl; auto|].
    intros Hs. rewrite Hs.
    destruct (app_loop_connects rest
                (add_trace (Sleep WEBSOCKET_RECONNECT_DELAY)
                   (add_log (LogError "WebSocket error" e) w1)) H1)
      as [tl Et].
    exists tl. rewrite Et. simpl. rewrite <- app_assoc. reflexivity.
  - intros s rest w e w1 H Ha H1. eexists.
    split; [apply (monolith_loop_retries s rest w e w1 H Ha)|].
    cbv zeta. split; [destruct (stop_during_delay s); reflexivity|].
    split; [destruct (stop_during_delay s); simpl; auto|].
    intros Hs. rewrite Hs.
    destruct (monolith_loop_connects rest
                (add_trace (Sleep 5)
                   (add_log (LogError "WebSocket error" e) w1)) H1)
      as [tl Et].
    exists tl. rewrite Et. simpl. rewrite <- app_assoc. reflexivity.
  - intros n w H. split.
    + apply (app_loop_refused n w H).
    + apply (monolith_loop_refused n w H).
  - intros script w H. split;
      [apply app_loop_stopped | apply monolith_loop_stopped]; exact H.
  - intros s rest w r w1 H Ha Hr H1.
    destruct (app_loop_stop_during_attempt s rest w r w1 H Ha Hr H1)
      as [w' [E Et]].
    exists w', []. rewrite app_nil_r. repeat split; auto.
  - apply monolith_loop_stop_during_attempt.
Qed.

Lemma reconnect_after_error_until_stopped_witness :
  exists w2,
    App.ws_client_connect_and_subscribe
      [Examples.refused; Examples.bad_then_good] Examples.one_client
    = App.ws_client_connect_and_subscribe [Examples.bad_then_good] w2
    /\ trace w2 = [Connect; Sleep 5]
    /\ running w2 = true.
Proof.
  destruct (proj1 (proj2 reconnect_after_error_until_stopped)
              Examples.refused [Examples.bad_then_good] Examples.one_client
              TransportError (add_trace Connect Examples.one_client))
    as [w2 [E [Et [Er _]]]].
  - reflexivity.
  - reflexivity.
  - reflexivity.
  - exists w2. split; [exact E|]. split; [exact Et | exact Er].
Defined.

(* ===================================================================== *)
(** * Further properties of the time normalizer *)
(* ===================================================================== *)

Lemma fromisoformat_valid : forall s dt,
  fromisoformat s = Some dt ->
  valid_fields (year dt) (month dt) (day dt) (hour dt) (minute dt)
               (second dt) (microsecond dt) = true.
Proof.
  intros s dt H. unfold fromisoformat in H.
  repeat match type of H with
  | context [match ?x with _ => _ end] =>
      destruct x eqn:?; try discriminate H
  end; inversion H; subst; simpl; assumption.
Qed.

(** X1. Whatever the text, a value that [parse_coinbase_time] returns is
    naive and its fields are those of a real date and time of day. *)
Theorem parse_coinbase_time_naive_and_valid : forall s r,
  parse_coinbase_time s = Some r ->
  tzinfo r = None
  /\ 1 <= year r <= 9999 /\ 1 <= month r <= 12
  /\ 1 <= day r <= days_in_month (year r) (month r)
  /\ 0 <= hour r <= 23 /\ 0 <= minute r <= 59 /\ 0 <= second r <= 59
  /\ 0 <= microsecond r <= 999999.
Proof.
  intros s r H. unfold parse_coinbase_time in H.
  assert (Hv : exists dt, tzinfo r = None
             /\ valid_fields (year dt) (month dt) (day dt) (hour dt)
                  (minute dt) (second dt) (microsecond dt) = true
             /\ year r = year dt /\ month r = month dt /\ day r = day dt
             /\ hour r = hour dt /\ minute r = minute dt
             /\ second r = second dt /\ microsecond r = microsecond dt).
  { destruct (endswith_Z s).
    - destruct (fromisoformat _) as [dt|] eqn:E; [|discriminate].
      exists dt. pose proof (fromisoformat_valid _ _ E) as V.
      destruct (tzinfo dt) eqn:T; inversion H; subst; simpl; auto 10.
    - destruct (fromisoformat s) as [dt|] eqn:E; [|discriminate].
      exists dt. pose proof (fromisoformat_valid _ _ E) as V.
      destruct (tzinfo dt) eqn:T; inversion H; subst; simpl; auto 10. }
  destruct Hv as [dt [Hn [V [-> [-> [-> [-> [-> [-> ->]]]]]]]]].
  split; [exact Hn|]. unfold valid_fields, in_range in V.
  repeat (apply andb_prop in V; destruct V as [V ?]).
  repeat match goal with
  | H : (_ <=? _) = true |- _ => apply Z.leb_le in H
  end. lia.
Qed.

Lemma parse_coinbase_time_naive_and_valid_witness :
  tzinfo (mkDatetime 2025 6 22 13 48 39 499077 None) = None
  /\ 1 <= 6 <= 12.
Proof.
  pose proof (parse_coinbase_time_naive_and_valid
                "2025-06-22T13:48:39.499077Z"
                (mkDatetime 2025 6 22 13 48 39 499077 None)) as H.
  destruct H as [Hn [_ [Hm _]]].
  - vm_compute. reflexivity.
  - split; [exact Hn | exact Hm].
Defined.

Lemma small_digit : forall d, 0 <= d < 10 ->
  d = 0 \/ d = 1 \/ d = 2 \/ d = 3 \/ d = 4 \/ d = 5 \/ d = 6 \/ d = 7
  \/ d = 8 \/ d = 9.
Proof. intros d H. lia. Qed.

Lemma digit_of_digit : forall d, 0 <= d < 10 ->
  digit_of (ascii_of_nat (Z.to_nat (48 + d))) = Some d
  /\ Ascii.eqb (ascii_of_nat (Z.to_nat (48 + d))) "Z" = false
  /\ at_sign_or_end (ascii_of_nat (Z.to_nat (48 + d)) :: []) = false.
Proof.
  intros d H.
  destruct (small_digit d H) as [->|[->|[->|[->|[->|[->|[->|[->|[->| ->]]]]]]]]];
    repeat split; reflexivity.
Qed.

Lemma digits_acc_app : forall n m acc l,
  digits_acc (n + m) acc l
  = match digits_acc n acc l with
    | Some (a, r) => digits_acc m a r
    | None => None
    end.
Proof.
  induction n as [|n IH]; intros m acc l; simpl; [reflexivity|].
  destruct l as [|c t]; [reflexivity|].
  destruct (digit_of c); [apply IH | reflexivity].
Qed.

Lemma fixed_width_S : forall n z,
  fixed_width (S n) z
  = fixed_width n (z / 10) ++ [ascii_of_nat (Z.to_nat (48 + z mod 10))].
Proof. reflexivity. Qed.

Lemma digits_acc_one : forall c d acc rest,
  digit_of c = Some d ->
  digits_acc 1 acc ([c] ++ rest) = Some (10 * acc + d, rest).
Proof. intros c d acc rest H. simpl. rewrite H. reflexivity. Qed.

Lemma digits_acc_fixed_width : forall n z acc rest,
  0 <= z < 10 ^ Z.of_nat n ->
  digits_acc n acc (fixed_width n z ++ rest)
  = Some (acc * 10 ^ Z.of_nat n + z, rest).
Proof.
  induction n as [|n IH]; intros z acc rest H.
  - simpl in *. f_equal. f_equal. lia.
  - replace (S n) with (n + 1)%nat at 1 by lia.
    rewrite digits_acc_app, fixed_width_S, <- app_assoc.
    rewrite Nat2Z.inj_succ, Z.pow_succ_r in H by lia.
    assert (Hq : 0 <= z / 10 < 10 ^ Z.of_nat n).
    { split; [apply Z.div_pos; lia|].
      apply Z.div_lt_upper_bound; lia. }
    rewrite (IH (z / 10) acc _ Hq).
    assert (Hd : 0 <= z mod 10 < 10) by (apply Z.mod_pos_bound; lia).
    rewrite (digits_acc_one _ (z mod 10)) by (apply digit_of_digit; exact Hd).
    rewrite Nat2Z.inj_succ, Z.pow_succ_r by lia.
    f_equal. f_equal. pose proof (Z.div_mod z 10 ltac:(lia)). lia.
Qed.

Lemma digits_fixed_width : forall n z rest,
  0 <= z < 10 ^ Z.of_nat n ->
  digits n (fixed_width n z ++ rest) = Some (z, rest).
Proof.
  intros n z rest H. unfold digits. rewrite digits_acc_fixed_width by exact H.
  reflexivity.
Qed.

Lemma fixed_width_no_Z : forall n z,
  Forall (fun c => Ascii.eqb c "Z" = false) (fixed_width n z).
Proof.
  induction n as [|n IH]; intros z; [constructor|].
  rewrite fixed_width_S.
  apply Forall_app. split; [apply IH|]. constructor; [|constructor].
  apply digit_of_digit. apply Z.mod_pos_bound. lia.
Qed.

Lemma replace_Z_none : forall l,
  Forall (fun c => Ascii.eqb c "Z" = false) l -> replace_Z l = l.
Proof.
  intros l H. induction H as [|c l Hc _ IH]; simpl; [reflexivity|].
  rewrite Hc, IH. reflexivity.
Qed.

Lemma replace_Z_app : forall a b, replace_Z (a ++ b) = replace_Z a ++ replace_Z b.
Proof.
  induction a as [|c a IH]; intros b; simpl; [reflexivity|].
  rewrite IH. destruct (Ascii.eqb c "Z"); [|reflexivity].
  simpl. reflexivity.
Qed.

Lemma list_ascii_of_string_app : forall s1 s2 : string,
  list_ascii_of_string (s1 ++ s2)%string
  = list_ascii_of_string s1 ++ list_ascii_of_string s2.
Proof.
  induction s1 as [|c s1 IH]; intros s2; simpl; [reflexivity|].
  rewrite IH. reflexivity.
Qed.

(** The characters of [isoformat] for a naive value. *)
Lemma isoformat_naive_chars : forall dt,
  tzinfo dt = None ->
  list_ascii_of_string (isoformat dt)
  = fixed_width 4 (year dt) ++ "-"%char :: fixed_width 2 (month dt)
    ++ "-"%char :: fixed_width 2 (day dt)
    ++ "T"%char :: fixed_width 2 (hour dt)
    ++ ":"%char :: fixed_width 2 (minute dt)
    ++ ":"%char :: fixed_width 2 (second dt)
    ++ (if microsecond dt =? 0 then []
        else "."%char :: fixed_width 6 (microsecond dt)).
Proof.
  intros dt H. unfold isoformat. rewrite H.
  rewrite list_ascii_of_string_of_list_ascii.
  repeat (rewrite <- app_assoc; simpl).
  rewrite app_nil_r. reflexivity.
Qed.

Lemma isoformat_naive_no_Z : forall dt,
  tzinfo dt = None ->
  Forall (fun c => Ascii.eqb c "Z" = false) (list_ascii_of_string (isoformat dt)).
Proof.
  intros dt H. rewrite (isoformat_naive_chars dt H).
  pose proof fixed_width_no_Z as F.
  repeat (apply Forall_app; split; [apply F|];
          apply Forall_cons; [reflexivity|]).
  apply Forall_app; split; [apply F|].
  destruct (microsecond dt =? 0); [constructor|].
  constructor; [reflexivity | apply F].
Qed.

Lemma expect_same : forall c r, expect c (c :: r) = Some r.
Proof. intros c r. unfold expect. rewrite Ascii.eqb_refl. reflexivity. Qed.

Lemma days_in_month_le_31 : forall y m, days_in_month y m <= 31.
Proof.
  intros y m. unfold days_in_month.
  destruct (m =? 2); [destruct (is_leap y); lia|].
  destruct ((m =? 4) || (m =? 6) || (m =? 9) || (m =? 11)); lia.
Qed.

Lemma valid_fields_bounds : forall y mo d h mi s us,
  valid_fields y mo d h mi s us = true ->
  0 <= y < 10 ^ Z.of_nat 4 /\ 0 <= mo < 10 ^ Z.of_nat 2
  /\ 0 <= d < 10 ^ Z.of_nat 2 /\ 0 <= h < 10 ^ Z.of_nat 2
  /\ 0 <= mi < 10 ^ Z.of_nat 2 /\ 0 <= s < 10 ^ Z.of_nat 2
  /\ 0 <= us < 10 ^ Z.of_nat 6.
Proof.
  intros y mo d h mi s us V. unfold valid_fields, in_range in V.
  repeat (apply andb_prop in V; destruct V as [V ?]).
  repeat match goal with
  | H : (_ <=? _) = true |- _ => apply Z.leb_le in H
  end.
  pose proof (days_in_month_le_31 y mo).
  change (10 ^ Z.of_nat 4) with 10000. change (10 ^ Z.of_nat 2) with 100.
  change (10 ^ Z.of_nat 6) with 1000000. lia.
Qed.

(** Reading back what [isoformat] wrote for a naive value, followed by
    nothing or by an offset. *)
Lemma fromisoformat_isoformat : forall dt tail tz,
  tzinfo dt = None ->
  valid_fields (year dt) (month dt) (day dt) (hour dt) (minute dt)
               (second dt) (microsecond dt) = true ->
  at_sign_or_end tail = true ->
  parse_offset tail = Some tz ->
  fromisoformat
    (string_of_list_ascii (list_ascii_of_string (isoformat dt) ++ tail))
  = Some (mkDatetime (year dt) (month dt) (day dt) (hour dt) (minute dt)
                     (second dt) (microsecond dt) tz).
Proof.
  intros dt tail tz Hn V Hstop Hoff.
  destruct (valid_fields_bounds _ _ _ _ _ _ _ V)
    as [By [Bmo [Bd [Bh [Bmi [Bs Bus]]]]]].
  unfold fromisoformat.
  rewrite list_ascii_of_string_of_list_ascii, (isoformat_naive_chars dt Hn).
  repeat (rewrite <- app_assoc; cbn [app]).
  rewrite (digits_fixed_width 4 _ _ By), expect_same.
  rewrite (digits_fixed_width 2 _ _ Bmo), expect_same.
  rewrite (digits_fixed_width 2 _ _ Bd).
  unfold parse_hh_mm_ss_ff.
  rewrite (digits_fixed_width 2 _ _ Bh).
  change (at_sign_or_end (":"%char :: ?r)) with false. cbv iota.
  rewrite expect_same, (digits_fixed_width 2 _ _ Bmi).
  change (at_sign_or_end (":"%char :: ?r)) with false. cbv iota.
  rewrite expect_same, (digits_fixed_width 2 _ _ Bs).
  destruct (microsecond dt =? 0) eqn:E.
  - apply Z.eqb_eq in E. cbn [app]. rewrite Hstop, Hoff, <- E, V.
    reflexivity.
  - cbn [app]. change (at_sign_or_end ("."%char :: ?r)) with false. cbv iota.
    rewrite expect_same. unfold parse_fraction.
    rewrite (digits_fixed_width 6 _ _ Bus), Hstop, Hoff, V. reflexivity.
Qed.

Lemma endswith_Z_no_Z : forall s,
  Forall (fun c => Ascii.eqb c "Z" = false) (list_ascii_of_string s) ->
  endswith_Z s = false.
Proof.
  intros s H. unfold endswith_Z. apply Forall_rev in H.
  destruct (rev (list_ascii_of_string s)) as [|c l]; [reflexivity|].
  inversion H; assumption.
Qed.

(** X2. For every naive date and time with valid fields, the text that
    [isoformat] gives for it, as it is or with a [Z] appended (the form of
    the Coinbase feed), is read back by [parse_coinbase_time] as that same
    value. *)
Theorem parse_coinbase_time_isoformat_roundtrip : forall dt,
  tzinfo dt = None ->
  valid_fields (year dt) (month dt) (day dt) (hour dt) (minute dt)
               (second dt) (microsecond dt) = true ->
  parse_coinbase_time (isoformat dt) = Some dt
  /\ parse_coinbase_time (isoformat dt ++ "Z")%string = Some dt.
Proof.
  intros dt Hn V.
  assert (Hdt : mkDatetime (year dt) (month dt) (day dt) (hour dt) (minute dt)
                  (second dt) (microsecond dt) None = dt)
    by (destruct dt; simpl in *; subst; reflexivity).
  pose proof (isoformat_naive_no_Z dt Hn) as HZ.
  split.
  - unfold parse_coinbase_time. rewrite (endswith_Z_no_Z _ HZ).
    pose proof (fromisoformat_isoformat dt [] None Hn V eq_refl eq_refl) as F.
    rewrite app_nil_r, string_of_list_ascii_of_string in F.
    rewrite F. simpl. rewrite Hdt. reflexivity.
  - unfold parse_coinbase_time.
    assert (He : endswith_Z (isoformat dt ++ "Z")%string = true).
    { unfold endswith_Z. rewrite list_ascii_of_string_app, rev_app_distr.
      reflexivity. }
    rewrite He, list_ascii_of_string_app, replace_Z_app.
    rewrite (replace_Z_none _ HZ).
    change (replace_Z (list_ascii_of_string "Z"))
      with (list_ascii_of_string "+00:00").
    rewrite (fromisoformat_isoformat dt (list_ascii_of_string "+00:00")
               (Some 0) Hn V eq_refl eq_refl).
    simpl. unfold replace_tzinfo_None. simpl. rewrite Hdt. reflexivity.
Qed.

Lemma parse_coinbase_time_isoformat_roundtrip_witness :
  parse_coinbase_time
    (isoformat (mkDatetime 2024 2 29 23 59 59 0 None) ++ "Z")%string
  = Some (mkDatetime 2024 2 29 23 59 59 0 None).
Proof.
  apply (parse_coinbase_time_isoformat_roundtrip
           (mkDatetime 2024 2 29 23 59 59 0 None)); reflexivity.
Defined.

(** X3. For a text without a trailing [Z] that [fromisoformat] reads, the
    result of [parse_coinbase_time] has the wall-clock fields of the text
    and, read as UTC, lies later than the instant the text denotes by
    exactly the offset of the text: the two agree only for offset zero. *)
Theorem parse_coinbase_time_instant_shift : forall s dt,
  endswith_Z s = false ->
  fromisoformat s = Some dt ->
  exists r,
    parse_coinbase_time s = Some r
    /\ year r = year dt /\ month r = month dt /\ day r = day dt
    /\ hour r = hour dt /\ minute r = minute dt /\ second r = second dt
    /\ microsecond r = microsecond dt
    /\ utc_instant r - utc_instant dt = utcoffset dt
    /\ (utc_instant r = utc_instant dt <-> utcoffset dt = 0).
Proof.
  intros s dt Hz Hp. unfold parse_coinbase_time. rewrite Hz, Hp.
  destruct (tzinfo dt) as [off|] eqn:Htz.
  - exists (replace_tzinfo_None dt). simpl.
    assert (E : utc_instant (replace_tzinfo_None dt) - utc_instant dt
                = utcoffset dt).
    { unfold utc_instant, utcoffset. rewrite Htz. simpl.
      unfold wall_clock_usec, toordinal. simpl. lia. }
    repeat split; auto; lia.
  - exists dt.
    assert (E : utcoffset dt = 0) by (unfold utcoffset; rewrite Htz; reflexivity).
    repeat split; auto; lia.
Qed.

Lemma parse_coinbase_time_instant_shift_witness :
  exists r,
    parse_coinbase_time "2025-06-22T13:48:39-04:00" = Some r
    /\ hour r = 13.
Proof.
  destruct (parse_coinbase_time_instant_shift "2025-06-22T13:48:39-04:00"
              (mkDatetime 2025 6 22 13 48 39 0 (Some (-14400000000))))
    as [r [Hr [_ [_ [_ [Hh _]]]]]].
  - reflexivity.
  - vm_compute. reflexivity.
  - exists r. split; [exact Hr | exact Hh].
Defined.

(* ===================================================================== *)
(** * Further properties of the decoder *)
(* ===================================================================== *)

Lemma parse_time_field_Ret : forall v t,
  parse_time_field v = Ret t ->
  exists s, v = VStr s /\ parse_coinbase_time s = Some t.
Proof.
  intros v t H. destruct v as [|b|z|q|s|l|d]; simpl in H; try discriminate.
  exists s. split; [reflexivity|].
  destruct (parse_coinbase_time s); congruence.
Qed.

(** X4. [Ticker(...)] is built from a frame exactly when the frame is a
    dict that carries the six fields, the four numeric ones convertible by
    [float] and [time] a text that [parse_coinbase_time] reads; the ticker
    holds those values. *)
Theorem Ticker_of_accepts_exactly : forall data t,
  Ticker_of data = Ret t <->
  exists d vb va vp vv s,
    data = VDict d
    /\ dict_lookup "product_id" d = Some (Ticker.symbol t)
    /\ dict_lookup "best_bid" d = Some vb
    /\ py_float vb = Ret (Ticker.best_bid t)
    /\ dict_lookup "best_ask" d = Some va
    /\ py_float va = Ret (Ticker.best_ask t)
    /\ dict_lookup "price" d = Some vp
    /\ py_float vp = Ret (Ticker.last_price t)
    /\ dict_lookup "volume_24h" d = Some vv
    /\ py_float vv = Ret (Ticker.volume_24h t)
    /\ dict_lookup "time" d = Some (VStr s)
    /\ parse_coinbase_time s = Some (Ticker.time t).
Proof.
  intros data t. split.
  - intros H. unfold Ticker_of in H. res_cases H.
    apply getitem_dict in E. destruct E as [d [-> E]].
    apply float_field_Ret in E0, E1, E2, E3.
    destruct E0 as [d0 [v0 [D0 [L0 F0]]]]. destruct E1 as [d1 [v1 [D1 [L1 F1]]]].
    destruct E2 as [d2 [v2 [D2 [L2 F2]]]]. destruct E3 as [d3 [v3 [D3 [L3 F3]]]].
    inversion D0; inversion D1; inversion D2; inversion D3; subst d0 d1 d2 d3.
    destruct (getitem (VDict d) "time") as [vt| |] eqn:Et; simpl in E4;
      try discriminate.
    apply getitem_dict in Et. destruct Et as [d4 [D4 L4]].
    inversion D4; subst d4.
    apply parse_time_field_Ret in E4. destruct E4 as [s [-> Hs]].
    inversion H; subst t; simpl.
    exists d, v0, v1, v2, v3, s. repeat split; assumption.
  - intros (d & vb & va & vp & vv & s & -> & H0 & H1 & F1 & H2 & F2 & H3 & F3
            & H4 & F4 & H5 & F5).
    unfold Ticker_of, float_field, getitem.
    rewrite H0, H1, H2, H3, H4, H5. simpl.
    rewrite F1. simpl. rewrite F2. simpl. rewrite F3. simpl. rewrite F4. simpl.
    rewrite F5. simpl. destruct t; reflexivity.
Qed.

Lemma Ticker_of_accepts_exactly_witness :
  Ticker_of Examples.good_ticker = Ret Examples.good_ticker_value.
Proof.
  apply (proj2 (Ticker_of_accepts_exactly Examples.good_ticker
                  Examples.good_ticker_value)).
  eexists. exists (VStr "50000.0"), (VStr "50001.5"), (VStr "50000.5"),
    (VStr "1000"), "2025-06-22T13:48:39.499077Z".
  repeat split; reflexivity.
Defined.

(** X5. [Trade(...)] is built from a frame exactly when the frame is a
    dict that carries the six fields, [price] and [size] convertible by
    [float], [trade_id] by [int] and [time] a text that
    [parse_coinbase_time] reads. *)
Theorem Trade_of_accepts_exactly : forall data t,
  Trade_of data = Ret t <->
  exists d vp vs vi s,
    data = VDict d
    /\ dict_lookup "product_id" d = Some (Trade.symbol t)
    /\ dict_lookup "price" d = Some vp
    /\ py_float vp = Ret (Trade.price t)
    /\ dict_lookup "size" d = Some vs
    /\ py_float vs = Ret (Trade.size t)
    /\ dict_lookup "side" d = Some (Trade.side t)
    /\ dict_lookup "time" d = Some (VStr s)
    /\ parse_coinbase_time s = Some (Trade.time t)
    /\ dict_lookup "trade_id" d = Some vi
    /\ py_int vi = Ret (Trade.trade_id t).
Proof.
  intros data t. split.
  - intros H. unfold Trade_of in H. res_cases H.
    apply getitem_dict in E. destruct E as [d [-> E]].
    apply float_field_Ret in E0, E1.
    destruct E0 as [d0 [v0 [D0 [L0 F0]]]]. destruct E1 as [d1 [v1 [D1 [L1 F1]]]].
    inversion D0; inversion D1; subst d0 d1.
    apply getitem_dict in E2. destruct E2 as [d2 [D2 L2]].
    inversion D2; subst d2.
    destruct (getitem (VDict d) "time") as [vt| |] eqn:Et; simpl in E3;
      try discriminate.
    apply getitem_dict in Et. destruct Et as [d4 [D4 L4]].
    inversion D4; subst d4.
    apply parse_time_field_Ret in E3. destruct E3 as [s [-> Hs]].
    destruct (getitem (VDict d) "trade_id") as [vi| |] eqn:Ei; simpl in E4;
      try discriminate.
    apply getitem_dict in Ei. destruct Ei as [d5 [D5 L5]].
    inversion D5; subst d5.
    inversion H; subst t; simpl.
    exists d, v0, v1, vi, s. repeat split; assumption.
  - intros (d & vp & vs & vi & s & -> & H0 & H1 & F1 & H2 & F2 & H3 & H4 & F4
            & H5 & F5).
    unfold Trade_of, float_field, getitem.
    rewrite H0, H1, H2, H3, H4, H5. simpl.
    rewrite F1. simpl. rewrite F2. simpl. rewrite F4. simpl. rewrite F5. simpl.
    destruct t; reflexivity.
Qed.

Lemma Trade_of_accepts_exactly_witness :
  Trade_of Examples.good_trade = Ret Examples.good_trade_value.
Proof.
  apply (proj2 (Trade_of_accepts_exactly Examples.good_trade
                  Examples.good_trade_value)).
  eexists. exists (VStr "50000.5"), (VStr "0.1"), (VInt 12345),
    "2025-06-22T13:48:39.499077Z".
  repeat split; reflexivity.
Defined.

(** X6. Only the six fields of its kind matter to the decoder: two frames
    that agree on them decode alike, to the same event or to the same
    exception, whatever else they carry. *)
Theorem decoder_reads_only_its_fields : forall d d',
  ((forall k, In k ticker_fields -> dict_lookup k d = dict_lookup k d') ->
   Ticker_of (VDict d) = Ticker_of (VDict d'))
  /\ ((forall k, In k trade_fields -> dict_lookup k d = dict_lookup k d') ->
      Trade_of (VDict d) = Trade_of (VDict d')).
Proof.
  intros d d'. split; intros H.
  - unfold Ticker_of, float_field, getitem.
    rewrite !(H _) by (simpl; tauto). reflexivity.
  - unfold Trade_of, float_field, getitem.
    rewrite !(H _) by (simpl; tauto). reflexivity.
Qed.

Lemma decoder_reads_only_its_fields_witness :
  Ticker_of (VDict (("sequence", VInt 7) :: [("type", VStr "ticker")]))
  = Ticker_of (VDict [("type", VStr "ticker")]).
Proof.
  apply (proj1 (decoder_reads_only_its_fields
                  (("sequence", VInt 7) :: [("type", VStr "ticker")])
                  [("type", VStr "ticker")])).
  intros k Hk. simpl in Hk.
  destruct Hk as [<-|[<-|[<-|[<-|[<-|[<-|[]]]]]]]; reflexivity.
Defined.

(* ===================================================================== *)
(** * Further properties of the feed client *)
(* ===================================================================== *)

Import Queries Obs2.

Lemma process_message_no_raise :
  forall on_ticker on_trade callbacks data,
    no_raise (CoinbaseWebSocketClient._process_message on_ticker on_trade
                callbacks data).
Proof.
  intros on_ticker on_trade callbacks data w e.
  unfold CoinbaseWebSocketClient._process_message, try_except.
  match goal with
  | |- context [match ?m w with _ => _ end] => destruct (m w) as [[[]|e0|] w1]
  end; simpl; discriminate.
Qed.

(** X7. Whatever the frame and whatever the callbacks do, no exception
    leaves [_process_message]. *)
Theorem _process_message_never_raises :
  forall on_ticker on_trade callbacks data w e,
    fst (CoinbaseWebSocketClient._process_message on_ticker on_trade callbacks
           data w) <> Raise e.
Proof.
  intros on_ticker on_trade callbacks data w e.
  apply process_message_no_raise.
Qed.

(** X8. A frame of another kind than [ticker] and [match] changes
    nothing, in both feeds; a frame that is not a dict is logged and dropped
    by websocket_client.py, where a dict without [type] counts as another
    kind; in crypto_ingestion.py the failing [data['type']] is raised out of
    the receive loop. *)
Theorem frames_of_other_kinds :
  (forall on_ticker on_trade callbacks data v w,
     dict_get data "type" = Ret v ->
     eq_str v "ticker" = false -> eq_str v "match" = false ->
     CoinbaseWebSocketClient._process_message on_ticker on_trade callbacks
       data w = (Ret tt, w))
  /\ (forall on_ticker on_trade callbacks d w,
        dict_lookup "type" d = None ->
        CoinbaseWebSocketClient._process_message on_ticker on_trade callbacks
          (VDict d) w = (Ret tt, w))
  /\ (forall on_ticker on_trade callbacks data e w,
        dict_get data "type" = Raise e ->
        CoinbaseWebSocketClient._process_message on_ticker on_trade callbacks
          data w
        = (Ret tt, add_log (LogError "Error processing message" e) w))
  /\ (forall data v w,
        getitem data "type" = Ret v ->
        eq_str v "ticker" = false -> eq_str v "match" = false ->
        CoinbaseDataIngestion.receive (Text data) w = (Ret tt, w))
  /\ (forall data e w,
        getitem data "type" = Raise e ->
        CoinbaseDataIngestion.receive (Text data) w = (Raise e, w))
  /\ (forall d w,
        dict_lookup "type" d = None ->
        CoinbaseDataIngestion.receive (Text (VDict d)) w = (Raise KeyError, w)).
Proof.
  repeat split.
  - intros on_ticker on_trade callbacks data v w Ht H1 H2.
    unfold CoinbaseWebSocketClient._process_message, try_except, bind, lift.
    rewrite Ht, H1, H2. reflexivity.
  - intros on_ticker on_trade callbacks d w Ht.
    unfold CoinbaseWebSocketClient._process_message, try_except, bind, lift.
    simpl. rewrite Ht. reflexivity.
  - intros on_ticker on_trade callbacks data e w Ht.
    unfold CoinbaseWebSocketClient._process_message, try_except, bind, lift.
    rewrite Ht. reflexivity.
  - intros data v w Ht H1 H2.
    unfold CoinbaseDataIngestion.receive, json_loads, bind, lift, ret.
    rewrite Ht, H1, H2. reflexivity.
  - intros data e w Ht.
    unfold CoinbaseDataIngestion.receive, json_loads, bind, lift, ret.
    rewrite Ht. reflexivity.
  - intros d w Ht.
    unfold CoinbaseDataIngestion.receive, json_loads, bind, lift, ret.
    simpl. rewrite Ht. reflexivity.
Qed.

Lemma frames_of_other_kinds_witness :
  App.ws_client_process_message
    (VDict [("type", VStr "subscriptions")]) Examples.one_client
  = (Ret tt, Examples.one_client)
  /\ App.ws_client_process_message (VDict [("channels", VList [])])
       Examples.one_client
     = (Ret tt, Examples.one_client)
  /\ CoinbaseDataIngestion.receive (Text (VDict [("channels", VList [])]))
       Examples.one_client
     = (Raise KeyError, Examples.one_client).
Proof.
  split; [|split].
  - apply (proj1 frames_of_other_kinds _ _ _ _ (VStr "subscriptions"));
      reflexivity.
  - apply (proj1 (proj2 frames_of_other_kinds)). reflexivity.
  - apply (proj2 (proj2 (proj2 (proj2 (proj2 frames_of_other_kinds))))).
    reflexivity.
Defined.

Section ClientFacts2.

Variable on_ticker : Ticker.t -> M unit.
Variable on_trade : Trade.t -> M unit.
Variable callbacks : list (pyval -> M unit).

Lemma receive_raises_only_json : forall m w e w1,
  CoinbaseWebSocketClient.receive on_ticker on_trade callbacks m w
  = (Raise e, w1) ->
  e = JSONDecodeError /\ m = NotJson.
Proof.
  intros m w e w1 H. unfold CoinbaseWebSocketClient.receive, bind in H.
  destruct m as [v|]; simpl in H.
  - pose proof (process_message_no_raise on_ticker on_trade callbacks
                  v w e) as N.
    rewrite H in N. simpl in N. congruence.
  - inversion H. auto.
Qed.

Lemma async_for_raises : forall events fin w e w1,
  async_for (CoinbaseWebSocketClient.receive on_ticker on_trade callbacks)
    events fin w = (Raise e, w1) ->
  (e = TransportError /\ fin = ReadError)
  \/ (e = JSONDecodeError /\ In (Frame NotJson) events).
Proof.
  induction events as [|[m|] events IH]; intros fin w e w1 H; simpl in H.
  - destruct fin; inversion H. auto.
  - unfold bind in H.
    destruct (CoinbaseWebSocketClient.receive on_ticker on_trade callbacks m w)
      as [[[]|e0|] w2] eqn:E; try discriminate.
    + destruct (IH _ _ _ _ H) as [A|[A B]]; [auto|].
      right. split; [exact A | right; exact B].
    + inversion H; subst. apply receive_raises_only_json in E.
      destruct E as [-> ->]. right. split; [reflexivity | left; reflexivity].
  - unfold bind, modify in H. destruct (IH _ _ _ _ H) as [A|[A B]]; [auto|].
    right. split; [exact A | right; exact B].
Qed.

End ClientFacts2.

(** X9. In websocket_client.py a connection attempt ends by an exception
    only for a transport failure (connect, subscribe or read) or for a frame
    that is not JSON: nothing that a JSON frame carries and nothing that the
    store or a subscriber does ends the connection. *)
Theorem attempt_ends_only_on_transport_or_json :
  forall on_ticker on_trade callbacks s w e w1,
    CoinbaseWebSocketClient.attempt on_ticker on_trade callbacks s w
    = (Raise e, w1) ->
    (e = TransportError
     /\ (connect_ok s = false \/ subscribe_ok s = false
         \/ ending_of s = ReadError))
    \/ (e = JSONDecodeError /\ In (Frame NotJson) (inbound_events s)).
Proof.
  intros on_ticker on_trade callbacks s w e w1 H.
  unfold CoinbaseWebSocketClient.attempt, connected in H.
  unfold bind at 1, emit, modify in H.
  destruct (connect_ok s) eqn:Ec.
  - unfold bind at 1, ret in H. unfold bind at 1, modify in H.
    destruct (subscribe_ok s) eqn:Es.
    + unfold bind at 1, ret in H.
      unfold bind at 1, logger_info, modify in H.
      apply async_for_raises in H. destruct H as [[-> Hf]|[-> Hin]]; auto.
    + unfold bind at 1, raise in H. inversion H. left. auto.
  - unfold bind at 1, raise in H. inversion H. left. auto.
Qed.

Lemma attempt_ends_only_on_transport_or_json_witness :
  (TransportError = TransportError
   /\ (connect_ok Examples.refused = false
       \/ subscribe_ok Examples.refused = false
       \/ ending_of Examples.refused = ReadError))
  \/ (TransportError = JSONDecodeError
      /\ In (Frame NotJson) (inbound_events Examples.refused)).
Proof.
  apply (attempt_ends_only_on_transport_or_json
           QuestDBClient.insert_ticker QuestDBClient.insert_trade
           [Main.broadcast_to_clients] Examples.refused Examples.one_client
           TransportError (add_trace Connect Examples.one_client)).
  reflexivity.
Defined.

(** X10. A connection that ends without an exception is followed by a new
    attempt at once, with no delay, in both loops. *)
Theorem reconnect_without_delay_after_close :
  (forall s rest w w1,
     running w = true ->
     App.ws_client_attempt s w = (Ret tt, w1) ->
     running w1 = true ->
     App.ws_client_connect_and_subscribe (s :: rest) w
     = App.ws_client_connect_and_subscribe rest w1
     /\ exists tl,
          trace (snd (App.ws_client_connect_and_subscribe (s :: rest) w))
          = trace w1 ++ Connect :: tl)
  /\ (forall s rest w w1,
        running w = true ->
        CoinbaseDataIngestion.attempt s w = (Ret tt, w1) ->
        running w1 = true ->
        CoinbaseDataIngestion.coinbase_websocket_feed (s :: rest) w
        = CoinbaseDataIngestion.coinbase_websocket_feed rest w1
        /\ exists tl,
             trace (snd (CoinbaseDataIngestion.coinbase_websocket_feed
                           (s :: rest) w))
             = trace w1 ++ Connect :: tl).
Proof.
  split; intros s rest w w1 H Ha H1.
  - assert (E : App.ws_client_connect_and_subscribe (s :: rest) w
                = App.ws_client_connect_and_subscribe rest w1).
    { unfold App.ws_client_connect_and_subscribe, App.ws_client_attempt in *.
      simpl. unfold bind at 1, get_running. rewrite H.
      unfold bind at 1, try_except. rewrite Ha. reflexivity. }
    split; [exact E|]. rewrite E. apply app_loop_connects. exact H1.
  - assert (E : CoinbaseDataIngestion.coinbase_websocket_feed (s :: rest) w
                = CoinbaseDataIngestion.coinbase_websocket_feed rest w1).
    { simpl. unfold bind at 1, get_running. rewrite H.
      unfold bind at 1, try_except. rewrite Ha. reflexivity. }
    split; [exact E|]. rewrite E. apply monolith_loop_connects. exact H1.
Qed.

Lemma reconnect_without_delay_after_close_witness :
  trace (snd (App.ws_client_connect_and_subscribe
                [Examples.bad_then_good] Examples.one_client))
  = [Connect; Subscribe; Connect].
Proof.
  destruct (proj1 reconnect_without_delay_after_close
              Examples.bad_then_good [] Examples.one_client
              (snd (App.ws_client_attempt Examples.bad_then_good
                      Examples.one_client)))
    as [E _].
  - reflexivity.
  - vm_compute. reflexivity.
  - reflexivity.
  - rewrite E. vm_compute. reflexivity.
Defined.

(** X11. [_broadcast_data] never raises: a callback that raises is logged
    and the callbacks after it are still called with the message. *)
Theorem _broadcast_data_isolates_callbacks :
  forall (callbacks : list (pyval -> M unit)) (message : pyval) (w : world),
    (forall e,
       fst (CoinbaseWebSocketClient._broadcast_data callbacks message w)
       <> Raise e)
    /\ (forall callback e w1,
          callback message w = (Raise e, w1) ->
          CoinbaseWebSocketClient._broadcast_data (callback :: callbacks)
            message w
          = CoinbaseWebSocketClient._broadcast_data callbacks message
              (add_log (LogError "Error in broadcast callback" e) w1)).
Proof.
  intros callbacks message w. split.
  - intros e. apply each_callback_no_raise.
  - intros callback e w1 H.
    unfold CoinbaseWebSocketClient._broadcast_data. simpl.
    unfold bind at 1, try_except. rewrite H. reflexivity.
Qed.

Lemma _broadcast_data_isolates_callbacks_witness :
  CoinbaseWebSocketClient._broadcast_data
    [(fun _ => raise SendError); Main.broadcast_to_clients]
    (VStr "event") Examples.one_client
  = CoinbaseWebSocketClient._broadcast_data [Main.broadcast_to_clients]
      (VStr "event")
      (add_log (LogError "Error in broadcast callback" SendError)
         Examples.one_client).
Proof.
  apply (proj2 (_broadcast_data_isolates_callbacks
                  [Main.broadcast_to_clients] (VStr "event")
                  Examples.one_client)).
  reflexivity.
Defined.

(* ===================================================================== *)
(** * Further properties of the store writes and of the hub *)
(* ===================================================================== *)

(** X12. Whatever the driver does, [insert_ticker] and [insert_trade]
    return or raise the driver's exception; the committed rows are then
    those of before, or those of before with the rows of the open
    transaction and the new row: never a part of them. A normal return
    leaves no open transaction, an exception leaves the committed rows as
    they were, and neither touches the subscribers or the manager. *)
Theorem insert_is_atomic : forall (ticker : Ticker.t) (trade : Trade.t) (w : world),
  (let r := QuestDBClient.insert_ticker ticker w in
   (fst r = Ret tt \/ fst r = Raise DriverError)
   /\ (committed (snd r) = committed w
       \/ committed (snd r)
          = committed w ++ pending w ++ [row_of (TickerEvent ticker)])
   /\ (fst r = Ret tt -> pending (snd r) = [])
   /\ (fst r = Raise DriverError -> committed (snd r) = committed w)
   /\ connected_clients (snd r) = connected_clients w
   /\ delivered (snd r) = delivered w
   /\ running (snd r) = running w /\ trace (snd r) = trace w)
  /\ (let r := QuestDBClient.insert_trade trade w in
      (fst r = Ret tt \/ fst r = Raise DriverError)
      /\ (committed (snd r) = committed w
          \/ committed (snd r)
             = committed w ++ pending w ++ [row_of (TradeEvent trade)])
      /\ (fst r = Ret tt -> pending (snd r) = [])
      /\ (fst r = Raise DriverError -> committed (snd r) = committed w)
      /\ connected_clients (snd r) = connected_clients w
      /\ delivered (snd r) = delivered w
      /\ running (snd r) = running w /\ trace (snd r) = trace w).
Proof.
  intros ticker trade w.
  destruct w as [rn cm pd dr cs sj dl lg tr].
  split; cbv zeta;
    destruct dr as [|[] [|[] [|[] dr]]]; simpl;
    repeat split; auto; try discriminate.
Qed.

Lemma insert_is_atomic_witness :
  pending (snd (QuestDBClient.insert_ticker Examples.good_ticker_value
                  (set_driver [true; false] Examples.one_client))) = []
  /\ committed (snd (QuestDBClient.insert_ticker Examples.good_ticker_value
                       (set_driver [false; false] Examples.one_client)))
     = committed (set_driver [false; false] Examples.one_client).
Proof.
  split.
  - destruct (proj1 (insert_is_atomic Examples.good_ticker_value
                       Examples.good_trade_value
                       (set_driver [true; false] Examples.one_client)))
      as [_ [_ [H _]]].
    apply H. reflexivity.
  - destruct (proj1 (insert_is_atomic Examples.good_ticker_value
                       Examples.good_trade_value
                       (set_driver [false; false] Examples.one_client)))
      as [_ [_ [_ [H _]]]].
    apply H. reflexivity.
Defined.

Lemma first_blocker : forall (sj : client -> send_outcome) (cs : list client),
  (forall c, In c cs -> sj c <> NeverCompletes)
  \/ exists pre c post,
       cs = pre ++ c :: post /\ sj c = NeverCompletes
       /\ forall x, In x pre -> sj x <> NeverCompletes.
Proof.
  intros sj cs. induction cs as [|a cs IH].
  - left. intros c [].
  - destruct (sj a) eqn:E.
    + destruct IH as [H|[pre [c [post [-> [Hc Hp]]]]]].
      * left. intros c [<-|Hc]; [congruence | auto].
      * right. exists (a :: pre), c, post. split; [reflexivity|].
        split; [exact Hc|]. intros x [<-|Hx]; [congruence | auto].
    + destruct IH as [H|[pre [c [post [-> [Hc Hp]]]]]].
      * left. intros c [<-|Hc]; [congruence | auto].
      * right. exists (a :: pre), c, post. split; [reflexivity|].
        split; [exact Hc|]. intros x [<-|Hx]; [congruence | auto].
    + right. exists [], a, cs. split; [reflexivity|]. split; [exact E|].
      intros x [].
Qed.

Lemma broadcast_to_clients_hangs : forall message w pre c post,
  connected_clients w = pre ++ c :: post ->
  send_json w c = NeverCompletes ->
  (forall x, In x pre -> send_json w x <> NeverCompletes) ->
  Main.broadcast_to_clients message w
  = (Hang, deliver_to message
             (filter (fun x => delivers (send_json w x)) pre) w).
Proof.
  intros message w pre c post E Hc Hpre.
  unfold Main.broadcast_to_clients. rewrite E.
  destruct (pre ++ c :: post) as [|y l] eqn:El.
  - destruct pre; discriminate.
  - rewrite <- El. unfold bind.
    rewrite (send_to_each_hangs message pre c post [] w Hc Hpre).
    reflexivity.
Qed.

(** X13. Whatever the subscribers do, a publish adds no subscriber, sends
    the message only to registered subscribers whose send completes, adds
    nothing else to what they received, and leaves the store, the log and
    the manager as they are. *)
Theorem broadcast_to_clients_frame : forall (message : pyval) (w : world),
  let w' := snd (Main.broadcast_to_clients message w) in
  (forall c, In c (connected_clients w') -> In c (connected_clients w))
  /\ (exists served,
        delivered w' = delivered w ++ map (fun c => (c, message)) served
        /\ forall c, In c served ->
                     In c (connected_clients w) /\ send_json w c = Delivers)
  /\ send_json w' = send_json w
  /\ committed w' = committed w /\ pending w' = pending w
  /\ driver w' = driver w /\ log w' = log w
  /\ running w' = running w /\ trace w' = trace w.
Proof.
  intros message w. cbv zeta.
  assert (Hserved : forall l c,
            In c (filter (fun c => delivers (send_json w c)) l) ->
            In c l /\ send_json w c = Delivers).
  { intros l c Hc. apply filter_In in Hc. destruct Hc as [Hin Hd].
    split; [exact Hin|]. destruct (send_json w c); simpl in Hd; congruence. }
  destruct (first_blocker (send_json w) (connected_clients w))
    as [H|[pre [c [post [E [Hc Hpre]]]]]].
  - rewrite (broadcast_to_clients_returns message w H). simpl.
    pose proof (deliver_to_fields message
                  (filter (fun c => delivers (send_json w c))
                          (connected_clients w)) w)
      as [H1 [H2 [H3 [H4 [H5 [H6 [H7 [H8 H9]]]]]]]].
    split; [intros c Hin; apply filter_In in Hin; tauto|].
    split; [eexists; split; [exact H7 | apply Hserved]|].
    repeat split; assumption.
  - rewrite (broadcast_to_clients_hangs message w pre c post E Hc Hpre). simpl.
    pose proof (deliver_to_fields message
                  (filter (fun c => delivers (send_json w c)) pre) w)
      as [H1 [H2 [H3 [H4 [H5 [H6 [H7 [H8 H9]]]]]]]].
    split; [rewrite H5; auto|].
    split.
    { eexists. split; [exact H7|]. intros x Hx.
      destruct (Hserved pre x Hx) as [Hin Hd]. split; [|exact Hd].
      rewrite E. apply in_or_app. left. exact Hin. }
    repeat split; assumption.
Qed.

Lemma broadcast_to_clients_frame_witness :
  In Examples.slow (connected_clients Examples.slow_first).
Proof.
  apply (proj1 (broadcast_to_clients_frame (VStr "event") Examples.slow_first)).
  vm_compute. left. reflexivity.
Defined.

Lemma filter_filter_same : forall {A} (f g : A -> bool) (l : list A),
  (forall x, In x l -> g x = true -> f x = true) ->
  filter g (filter f l) = filter g l.
Proof.
  intros A f g l H. induction l as [|a l IH]; simpl; [reflexivity|].
  assert (IH' : filter g (filter f l) = filter g l)
    by (apply IH; intros x Hx; apply H; right; exact Hx).
  destruct (f a) eqn:Ef; simpl.
  - rewrite IH'. reflexivity.
  - destruct (g a) eqn:Eg; [|exact IH'].
    rewrite (H a (or_introl eq_refl) Eg) in Ef. discriminate.
Qed.

(** X14. Two publishes in a row, while no other task touches the registry
    and no send blocks; between them the sockets may come to behave in any
    other way. Both publishes return. The first message goes to the
    subscribers whose send completes; a subscriber whose send raised is then
    out of the registry and is not tried again, whatever its socket does
    later; the second message goes to the subscribers that stayed and whose
    send then completes, after the first message and in the same order; the
    second publish removes the subscribers whose send then raises, and
    nobody when the sockets that stayed behave as before. *)
Theorem quiet_publishes_keep_order :
  forall (endpoint : Interleaved.endpoint_step -> M unit)
         (s1 s2 : Interleaved.schedule) (m1 m2 : pyval) (w : world)
         (sj2 : client -> send_outcome),
    Interleaved.quiet s1 ->
    Interleaved.quiet s2 ->
    (forall c, In c (connected_clients w) -> send_json w c <> NeverCompletes) ->
    (forall c, In c (connected_clients w) -> send_json w c <> SendRaises ->
               sj2 c <> NeverCompletes) ->
    let stay := filter (fun c => negb (send_raises (send_json w c)))
                       (connected_clients w) in
    exists w1 w2,
      Interleaved.publish endpoint s1 m1 w = (Ret tt, w1)
      /\ Interleaved.publish endpoint s2 m2 (Interleaved.set_send_json sj2 w1)
         = (Ret tt, w2)
      /\ connected_clients w1 = stay
      /\ connected_clients w2 = filter (fun c => negb (send_raises (sj2 c))) stay
      /\ delivered w2
         = delivered w
           ++ map (fun c => (c, m1))
                  (filter (fun c => delivers (send_json w c))
                          (connected_clients w))
           ++ map (fun c => (c, m2)) (filter (fun c => delivers (sj2 c)) stay)
      /\ ((forall c, In c stay -> sj2 c = send_json w c) ->
          connected_clients w2 = connected_clients w1).
Proof.
  intros endpoint s1 s2 m1 m2 w sj2 Hq1 Hq2 H1 H2 stay.
  destruct (quiet_publish_evicts_failed_subscribers endpoint s1 m1 w Hq1 H1)
    as [w1 [E1 [R1 [_ D1]]]].
  fold stay in R1.
  assert (H2' : forall c,
            In c (connected_clients (Interleaved.set_send_json sj2 w1)) ->
            send_json (Interleaved.set_send_json sj2 w1) c <> NeverCompletes).
  { intros c Hc. simpl in Hc. rewrite R1 in Hc. unfold stay in Hc.
    apply filter_In in Hc. destruct Hc as [Hin Hr]. simpl.
    apply H2; [exact Hin|]. intros E. rewrite E in Hr. discriminate. }
  destruct (quiet_publish_evicts_failed_subscribers endpoint s2 m2
              (Interleaved.set_send_json sj2 w1) Hq2 H2')
    as [w2 [E2 [R2 [_ D2]]]].
  simpl in R2, D2. rewrite R1 in R2, D2.
  exists w1, w2. split; [exact E1|]. split; [exact E2|].
  split; [exact R1|]. split; [exact R2|]. split.
  - rewrite D2, D1, <- app_assoc. reflexivity.
  - intros Hsame. rewrite R2, R1.
    rewrite (filter_ext_in (fun c => negb (send_raises (sj2 c)))
               (fun c => negb (send_raises (send_json w c))) stay)
      by (intros c Hc; rewrite (Hsame c Hc); reflexivity).
    unfold stay. apply filter_filter_same. auto.
Qed.

Lemma quiet_publishes_keep_order_witness :
  exists w1 w2,
    Interleaved.Main.broadcast_to_clients [] (VStr "a") Examples.closed_first
    = (Ret tt, w1)
    /\ Interleaved.Main.broadcast_to_clients [[]] (VStr "b")
         (Interleaved.set_send_json (fun _ => Delivers) w1) = (Ret tt, w2)
    /\ connected_clients w2 = [Examples.healthy]
    /\ delivered w2
       = [(Examples.healthy, VStr "a"); (Examples.healthy, VStr "b")].
Proof.
  destruct (quiet_publishes_keep_order Interleaved.Main.websocket_endpoint
              [] [[]] (VStr "a") (VStr "b") Examples.closed_first
              (fun _ => Delivers))
    as [w1 [w2 [E1 [E2 [_ [R2 [Ed _]]]]]]].
  - constructor.
  - constructor; [reflexivity | constructor].
  - intros c Hc. simpl. destruct (Nat.eqb c Examples.closed); discriminate.
  - intros c _ _. discriminate.
  - exists w1, w2. split; [exact E1|]. split; [exact E2|].
    split; [exact R2 | exact Ed].
Defined.

Lemma filter_all : forall {A} (f : A -> bool) (l : list A),
  (forall x, In x l -> f x = true) -> filter f l = l.
Proof.
  intros A f l H. induction l as [|a l IH]; simpl; [reflexivity|].
  rewrite (H a (or_introl eq_refl)), IH; [reflexivity|].
  intros x Hx. apply H. right. exact Hx.
Qed.







(* ===================================================================== *)
(** * Properties of the subscriber endpoint *)
(* ===================================================================== *)

Lemma mem_app_self : forall c cs, mem c (cs ++ [c]) = true.
Proof. intros c cs. apply mem_In, in_or_app. right. left. reflexivity. Qed.

Lemma without_absent : forall c cs, ~ In c cs -> Endpoint.without c cs = cs.
Proof.
  intros c cs H. unfold Endpoint.without. apply filter_all.
  intros x Hx. apply negb_true_iff, Nat.eqb_neq. intros ->. exact (H Hx).
Qed.

Lemma without_not_In : forall c cs, ~ In c (Endpoint.without c cs).
Proof.
  intros c cs H. unfold Endpoint.without in H. apply filter_In in H.
  destruct H as [_ H]. rewrite Nat.eqb_refl in H. discriminate.
Qed.

Lemma without_app_self : forall c cs,
  ~ In c cs -> Endpoint.without c (cs ++ [c]) = cs.
Proof.
  intros c cs H. unfold Endpoint.without. rewrite filter_app. simpl.
  rewrite Nat.eqb_refl. simpl. rewrite app_nil_r.
  apply (without_absent c cs H).
Qed.

(** X16. Registering a websocket that is not yet registered and then
    handling its disconnect leaves the registry as it was and raises
    nothing; registering a member again changes nothing. *)
Theorem subscribe_disconnect_roundtrip : forall (c : client) (w : world),
  (~ In c (connected_clients w) ->
   (Endpoint.add c ;; Endpoint.on_disconnect c) w = (Ret tt, w))
  /\ (In c (connected_clients w) -> Endpoint.add c w = (Ret tt, w)).
Proof.
  intros c w. destruct w as [rn cm pd dr cs sj dl lg tr]. simpl.
  split; intros H.
  - unfold bind, Endpoint.add, Endpoint.on_disconnect, modify, set_add,
      set_connected_clients.
    cbn [connected_clients running committed pending driver send_json
         delivered log trace].
    destruct (mem c cs) eqn:E; [apply mem_In in E; contradiction|].
    rewrite mem_app_self, (without_app_self c cs H). reflexivity.
  - unfold Endpoint.add, modify, set_add, set_connected_clients.
    cbn [connected_clients running committed pending driver send_json
         delivered log trace].
    apply mem_In in H. rewrite H. reflexivity.
Qed.

Lemma subscribe_disconnect_roundtrip_witness :
  (Endpoint.add 7%nat ;; Endpoint.on_disconnect 7%nat) Examples.one_client
  = (Ret tt, Examples.one_client).
Proof.
  apply (proj1 (subscribe_disconnect_roundtrip 7%nat Examples.one_client)).
  simpl. intros [H|[]]. discriminate.
Defined.

(** X17. A subscriber whose send raised during a publish is gone from the
    registry when the publish returns; its disconnect handler, which calls
    [remove], then raises [KeyError], whereas the handler of main.py for
    other exceptions, which calls [discard], returns. *)
Theorem disconnect_after_eviction_raises :
  forall (c : client) (message : pyval) (e : exn) (w : world),
    In c (connected_clients w) ->
    send_json w c = SendRaises ->
    (forall x, In x (connected_clients w) -> send_json w x <> NeverCompletes) ->
    exists w1,
      Main.broadcast_to_clients message w = (Ret tt, w1)
      /\ ~ In c (connected_clients w1)
      /\ Endpoint.on_disconnect c w1 = (Raise KeyError, w1)
      /\ fst (Endpoint.on_exception c e w1) = Ret tt
      /\ connected_clients (snd (Endpoint.on_exception c e w1))
         = connected_clients w1.
Proof.
  intros c message e w Hin Hs H.
  eexists. split; [apply (broadcast_to_clients_returns message w H)|].
  assert (Hn : ~ In c (filter (fun c => negb (send_raises (send_json w c)))
                         (connected_clients w))).
  { intros Hc. apply filter_In in Hc. destruct Hc as [_ Hc].
    rewrite Hs in Hc. discriminate. }
  split; [exact Hn|]. split; [|split].
  - unfold Endpoint.on_disconnect. simpl.
    destruct (mem c _) eqn:E; [apply mem_In in E; contradiction | reflexivity].
  - reflexivity.
  - simpl. apply without_absent. exact Hn.
Qed.

Lemma disconnect_after_eviction_raises_witness :
  exists w1,
    Main.broadcast_to_clients (VStr "event") Examples.closed_first = (Ret tt, w1)
    /\ Endpoint.on_disconnect Examples.closed w1 = (Raise KeyError, w1).
Proof.
  destruct (disconnect_after_eviction_raises Examples.closed (VStr "event")
              SendError Examples.closed_first)
    as [w1 [E [_ [K _]]]].
  - left. reflexivity.
  - reflexivity.
  - intros x Hx. simpl. destruct (Nat.eqb x Examples.closed); discriminate.
  - exists w1. split; [exact E | exact K].
Defined.

(* ===================================================================== *)
(** * Further properties of the candle sweeps *)
(* ===================================================================== *)

Lemma date_trunc_minute_spec : forall ts,
  date_trunc_minute ts mod usec_per_minute = 0
  /\ date_trunc_minute ts <= ts < date_trunc_minute ts + usec_per_minute.
Proof.
  intros ts. unfold date_trunc_minute.
  assert (Hm : 0 < usec_per_minute) by (unfold usec_per_minute; lia).
  pose proof (Z.mod_pos_bound ts usec_per_minute Hm) as B.
  split; [|lia].
  pose proof (Z.div_mod ts usec_per_minute ltac:(lia)) as E.
  replace (ts - ts mod usec_per_minute)
    with ((ts / usec_per_minute) * usec_per_minute) by lia.
  apply Z.mod_mul. lia.
Qed.

Lemma sql_first_In : forall l : list Q, l <> [] -> In (sql_first l) l.
Proof. intros [|x l] H; [congruence | left; reflexivity]. Qed.

Lemma sql_last_In : forall l : list Q, l <> [] -> In (sql_last l) l.
Proof.
  intros l H. destruct (exists_last H) as [init [x ->]].
  rewrite sql_last_spec. apply in_or_app. right. left. reflexivity.
Qed.

Lemma ohlc_order : forall l : list Q,
  l <> [] ->
  (sql_min l <= sql_first l)%Q /\ (sql_first l <= sql_max l)%Q
  /\ (sql_min l <= sql_last l)%Q /\ (sql_last l <= sql_max l)%Q.
Proof.
  intros l H.
  destruct (sql_max_spec l H) as [_ Hub]. destruct (sql_min_spec l H) as [_ Hlb].
  pose proof (sql_first_In l H). pose proof (sql_last_In l H).
  repeat split; auto.
Qed.

Section GroupByMore.
Context {row : Type}.
Variable key_of : row -> key.

Lemma group_of_member_nonempty : forall (rows : list row) (k : key),
  In k (map key_of rows) -> group key_of rows k <> [].
Proof.
  intros rows k H E. apply in_map_iff in H. destruct H as [r [Hk Hr]].
  assert (Hg : In r (group key_of rows k)).
  { unfold group. apply filter_In. split; [exact Hr|].
    apply key_eqb_eq. exact Hk. }
  rewrite E in Hg. exact Hg.
Qed.

Lemma sum_Z_map_add : forall {A} (f g : A -> Z) (l : list A),
  sum_Z (map (fun x => f x + g x) l) = sum_Z (map f l) + sum_Z (map g l).
Proof.
  intros A f g l. induction l as [|a l IH]; simpl; [reflexivity|].
  unfold sum_Z in *. simpl. rewrite IH. lia.
Qed.

Lemma sum_Z_zero : forall {A} (f : A -> Z) (l : list A),
  (forall x, In x l -> f x = 0) -> sum_Z (map f l) = 0.
Proof.
  intros A f l H. induction l as [|a l IH]; [reflexivity|].
  unfold sum_Z in *. simpl. rewrite (H a (or_introl eq_refl)), IH; [reflexivity|].
  intros x Hx. apply H. right. exact Hx.
Qed.

Lemma count_key_once : forall (ks : list key) (k0 : key),
  NoDup ks -> In k0 ks ->
  sum_Z (map (fun k => if key_eqb k0 k then 1 else 0) ks) = 1.
Proof.
  intros ks k0 Hnd. induction Hnd as [|k ks Hk Hnd IH]; intros Hin; [destruct Hin|].
  unfold sum_Z in *. simpl. destruct (key_eqb k0 k) eqn:E.
  - apply key_eqb_eq in E. subst k.
    fold (sum_Z (map (fun k => if key_eqb k0 k then 1 else 0) ks)).
    rewrite sum_Z_zero; [reflexivity|].
    intros x Hx. destruct (key_eqb k0 x) eqn:Ex; [|reflexivity].
    apply key_eqb_eq in Ex. subst x. contradiction.
  - destruct Hin as [->|Hin]; [rewrite key_eqb_refl in E; discriminate|].
    rewrite (IH Hin). reflexivity.
Qed.

Lemma group_sizes_over : forall (rows : list row) (ks : list key),
  NoDup ks -> incl (map key_of rows) ks ->
  sum_Z (map (fun k => Z.of_nat (List.length (group key_of rows k))) ks)
  = Z.of_nat (List.length rows).
Proof.
  induction rows as [|r rows IH]; intros ks Hnd Hincl.
  - apply sum_Z_zero. reflexivity.
  - assert (E : forall k,
              Z.of_nat (List.length (group key_of (r :: rows) k))
              = Z.of_nat (List.length (group key_of rows k))
                + (if key_eqb (key_of r) k then 1 else 0)).
    { intros k. unfold group. simpl.
      destruct (key_eqb (key_of r) k); simpl; lia. }
    rewrite (map_ext _ _ E), sum_Z_map_add.
    rewrite IH; [|exact Hnd|intros k Hk; apply Hincl; right; exact Hk].
    rewrite count_key_once; [simpl List.length; lia | exact Hnd |].
    apply Hincl. left. reflexivity.
Qed.

(** Every row is in the group of exactly one of the distinct keys. *)
Lemma group_sizes : forall rows : list row,
  sum_Z (map (fun k => Z.of_nat (List.length (group key_of rows k)))
             (distinct (map key_of rows)))
  = Z.of_nat (List.length rows).
Proof.
  intros rows. apply group_sizes_over; [apply distinct_NoDup|].
  intros k Hk. apply distinct_In. exact Hk.
Qed.

End GroupByMore.

(** X18. Every candle that a sweep selects, from trades or from ticker
    rows, keeps the invariant of the data model: low is at most open and
    close, which are at most high, the count is at least 1, and the
    timestamp is on a minute boundary. *)
Theorem selected_candles_well_formed :
  (forall now trades c,
     In c (select_candles_from_trades now trades) -> well_formed_candle c)
  /\ (forall now db c,
        In c (select_candles_from_ticker now db) -> well_formed_candle c).
Proof.
  split.
  - intros now trades c H. unfold select_candles_from_trades, group_by in H.
    apply in_map_iff in H. destruct H as [k [<- Hk]].
    apply (proj1 (distinct_In _ _)) in Hk.
    pose proof (group_of_member_nonempty trade_key _ _ Hk) as Hne.
    apply in_map_iff in Hk. destruct Hk as [r [<- _]].
    set (g := group trade_key (trades_window now trades) (trade_key r)) in *.
    assert (Hp : map Trades.price g <> [])
      by (destruct g; [congruence | discriminate]).
    destruct (ohlc_order _ Hp) as [O1 [O2 [O3 O4]]].
    unfold well_formed_candle, candle_of_trades.
    cbn [Candles.low Candles.open Candles.high Candles.close
         Candles.trade_count Candles.timestamp trade_key snd].
    repeat split; auto.
    + unfold sql_count. destruct g; [congruence | simpl; lia].
    + apply date_trunc_minute_spec.
  - intros now db c H. unfold select_candles_from_ticker, group_by in H.
    apply in_map_iff in H. destruct H as [k [<- Hk]].
    apply (proj1 (distinct_In _ _)) in Hk.
    pose proof (group_of_member_nonempty ticker_key _ _ Hk) as Hne.
    apply in_map_iff in Hk. destruct Hk as [r [<- _]].
    set (g := group ticker_key (ticker_window now db) (ticker_key r)) in *.
    assert (Hp : map Tickers.last_price g <> [])
      by (destruct g; [congruence | discriminate]).
    destruct (ohlc_order _ Hp) as [O1 [O2 [O3 O4]]].
    unfold well_formed_candle, candle_of_tickers.
    cbn [Candles.low Candles.open Candles.high Candles.close
         Candles.trade_count Candles.timestamp ticker_key snd].
    repeat split; auto.
    + unfold sql_count. destruct g; [congruence | simpl; lia].
    + apply date_trunc_minute_spec.
Qed.

Lemma selected_candles_well_formed_witness :
  well_formed_candle Examples.four_trades_candle.
Proof.
  apply (proj1 selected_candles_well_formed Examples.sweep_time
           Examples.four_trades).
  vm_compute. left. reflexivity.
Defined.

(** X19. Every sample of the window is counted in exactly one candle: the
    counts of the candles that a sweep selects add up to the number of
    trades of the 24-hour window, and for the sweep over ticker rows to the
    number of ticker rows of the window whose minute has no candle yet. *)
Theorem candle_counts_add_up :
  (forall now trades,
     sum_Z (map Candles.trade_count (select_candles_from_trades now trades))
     = Z.of_nat (List.length (trades_window now trades)))
  /\ (forall now db,
        sum_Z (map Candles.trade_count (select_candles_from_ticker now db))
        = Z.of_nat (List.length (ticker_window now db))).
Proof.
  split.
  - intros now trades. unfold select_candles_from_trades, group_by.
    rewrite map_map. simpl. unfold sql_count. apply group_sizes.
  - intros now db. unfold select_candles_from_ticker, group_by.
    rewrite map_map. simpl. unfold sql_count. apply group_sizes.
Qed.

(** X20. The sweep over ticker rows: for the ticker rows of one symbol in
    one minute that are in the window and whose minute has no candle yet,
    when there is at least one, the sweep selects one candle of that symbol
    and minute, with open the first and close the last [last_price] in scan
    order, high and low the greatest and the least, volume the mean of
    [volume_24h] and the count of the rows. *)
Theorem ticker_candle_ohlcv :
  forall (now : Z) (db : database) (s : string) (b : Z),
    let g :=
      filter (fun r => String.eqb (Tickers.symbol r) s
                       && (date_trunc_minute (Tickers.timestamp r) =? b))
             (ticker_window now db) in
    let prices := map Tickers.last_price g in
    g <> [] ->
    exists c,
      In c (select_candles_from_ticker now db)
      /\ Candles.symbol c = s /\ Candles.timestamp c = b
      /\ (forall c', In c' (select_candles_from_ticker now db) ->
                     candle_key c' = (s, b) -> c' = c)
      /\ (exists first rest, g = first :: rest
                             /\ Candles.open c = Tickers.last_price first)
      /\ (exists init final, g = init ++ [final]
                             /\ Candles.close c = Tickers.last_price final)
      /\ In (Candles.high c) prices
      /\ (forall p, In p prices -> (p <= Candles.high c)%Q)
      /\ In (Candles.low c) prices
      /\ (forall p, In p prices -> (Candles.low c <= p)%Q)
      /\ (Candles.volume c
          == fold_right Qplus 0 (map Tickers.volume_24h g)
             / inject_Z (Z.of_nat (List.length g)))%Q
      /\ Candles.trade_count c = Z.of_nat (List.length g).
Proof.
  intros now db s b g prices Hg.
  assert (Eg : g = group ticker_key (ticker_window now db) (s, b))
    by reflexivity.
  exists (candle_of_tickers (s, b) g).
  assert (Hne : prices <> []).
  { unfold prices. destruct g; [congruence | discriminate]. }
  split.
  { rewrite Eg. apply group_by_complete. rewrite <- Eg. exact Hg. }
  split; [reflexivity|]. split; [reflexivity|]. split.
  { intros c' Hin Hk.
    apply (group_by_In ticker_key candle_of_tickers candle_key
             candle_of_tickers_key) in Hin.
    destruct Hin as [Hc _]. rewrite Hk in Hc. rewrite Hc, Eg. reflexivity. }
  split.
  { destruct (nonempty_first g Hg) as [x [rest E]]. exists x, rest.
    split; [exact E|]. simpl. fold prices. unfold prices. rewrite E.
    reflexivity. }
  split.
  { destruct (nonempty_last g Hg) as [init [x E]]. exists init, x.
    split; [exact E|]. simpl. fold prices. unfold prices. rewrite E.
    rewrite map_app. simpl. apply sql_last_spec. }
  simpl. fold prices.
  destruct (sql_max_spec prices Hne) as [Hmax Hub].
  destruct (sql_min_spec prices Hne) as [Hmin Hlb].
  repeat split; auto.
  unfold sql_avg, sql_count. rewrite sql_sum_spec, length_map. reflexivity.
Qed.

Lemma ticker_candle_ohlcv_witness :
  exists c,
    In c (select_candles_from_ticker Examples.aligned_now
            Examples.two_symbols_db)
    /\ Candles.symbol c = "B" /\ Candles.timestamp c = usec_per_minute.
Proof.
  destruct (ticker_candle_ohlcv Examples.aligned_now Examples.two_symbols_db
              "B" usec_per_minute) as [c [Hin [Hs [Ht _]]]].
  - vm_compute. discriminate.
  - exists c. split; [exact Hin|]. split; [exact Hs | exact Ht].
Defined.

(** X21. A sweep over ticker rows run again at the same instant inserts
    only candles of the minute in which the two-hour window starts; when the
    window starts on a minute boundary it inserts nothing and the second
    sweep leaves the database as the first left it. *)
Theorem repeated_ticker_sweep_only_boundary_minute :
  (forall now db c,
     In c (select_candles_from_ticker now (generate_candles now db)) ->
     dateadd_h (-2) now - usec_per_minute < Candles.timestamp c
     /\ Candles.timestamp c < dateadd_h (-2) now)
  /\ (forall now db,
        dateadd_h (-2) now mod usec_per_minute = 0 ->
        generate_candles now (generate_candles now db)
        = generate_candles now db).
Proof.
  split.
  - intros now db c H. split; [|apply (second_sweep_before_window now db c H)].
    destruct (select_candles_from_ticker_In _ _ _ H) as [r [Hr [_ Et]]].
    apply ticker_window_In in Hr. destruct Hr as [_ [Hlo _]].
    pose proof (date_trunc_minute_spec (Tickers.timestamp r)) as [_ B].
    lia.
  - apply generate_candles_idempotent_aligned.
Qed.

Lemma repeated_ticker_sweep_only_boundary_minute_witness :
  generate_candles Examples.aligned_now
    (generate_candles Examples.aligned_now Examples.two_symbols_db)
  = generate_candles Examples.aligned_now Examples.two_symbols_db
  /\ dateadd_h (-2) Examples.boundary_now - usec_per_minute < 0
     < dateadd_h (-2) Examples.boundary_now.
Proof.
  split.
  - apply (proj2 repeated_ticker_sweep_only_boundary_minute).
    vm_compute. reflexivity.
  - apply (proj1 repeated_ticker_sweep_only_boundary_minute
             Examples.boundary_now Examples.boundary_db
             (Examples.flat_candle "B" 20 0)).
    vm_compute. left. reflexivity.
Defined.

Lemma concat_repeat_comm : forall {A} (l : list A) (n : nat),
  List.concat (repeat l n) ++ l = l ++ List.concat (repeat l n).
Proof.
  intros A l n. induction n as [|n IH]; simpl.
  - rewrite app_nil_r. reflexivity.
  - rewrite <- app_assoc, IH. reflexivity.
Qed.

(** X22. The sweep over trades, run [n] times over an unchanged window,
    leaves the trades and ticker tables as they are and appends to the
    candle table [n] copies of the rows it selects (none while the trades
    table is empty): it never removes or rewrites a candle. *)
Theorem repeated_trades_sweeps : forall (n : nat) (now : Z) (db : database),
  let swept := Nat.iter n (generate_candles_from_trades now) db in
  coinbase_trades swept = coinbase_trades db
  /\ coinbase_ticker swept = coinbase_ticker db
  /\ coinbase_candles swept
     = coinbase_candles db
       ++ List.concat
            (repeat (if 0 <? sql_count (coinbase_trades db)
                     then select_candles_from_trades now (coinbase_trades db)
                     else []) n).
Proof.
  intros n now db. cbv zeta. induction n as [|n [IH1 [IH2 IH3]]].
  - simpl. rewrite app_nil_r. repeat split; reflexivity.
  - change (Nat.iter (S n) (generate_candles_from_trades now) db)
      with (generate_candles_from_trades now
              (Nat.iter n (generate_candles_from_trades now) db)).
    unfold generate_candles_from_trades at 1 3 5.
    rewrite IH1.
    destruct (0 <? sql_count (coinbase_trades db)) eqn:E.
    + simpl coinbase_trades. simpl coinbase_ticker. simpl coinbase_candles.
      rewrite IH3; try rewrite E.
      change (repeat ?l (S n)) with (l :: repeat l n).
      simpl List.concat. rewrite <- app_assoc, concat_repeat_comm.
      repeat split; auto.
    + rewrite IH3; try rewrite E. repeat split; auto.
Qed.

(* ===================================================================== *)
(** * Properties of the read side of the store *)
(* ===================================================================== *)

Lemma NoDup_map_on : forall {A B} (f : A -> B) (l : list A),
  NoDup l ->
  (forall x y, In x l -> In y l -> f x = f y -> x = y) ->
  NoDup (map f l).
Proof.
  intros A B f l Hnd. induction Hnd as [|a l Ha Hnd IH]; intros Hinj; simpl.
  - constructor.
  - constructor.
    + intros Hin. apply in_map_iff in Hin. destruct Hin as [x [E Hx]].
      assert (x = a) by (apply Hinj; [right; exact Hx | left; reflexivity | exact E]).
      subst x. contradiction.
    + apply IH. intros x y Hx Hy. apply Hinj; right; assumption.
Qed.

Lemma symbol_group : forall (rows : list Tickers.row) (s : string),
  group symbol_key rows (s, 0)
  = filter (fun r => String.eqb (Tickers.symbol r) s) rows.
Proof.
  intros rows s. unfold group. apply filter_ext. intros r.
  unfold key_eqb, symbol_key. simpl. apply andb_true_r.
Qed.

Lemma symbol_keys_zero : forall (rows : list Tickers.row) (k : key),
  In k (distinct (map symbol_key rows)) ->
  exists r, In r rows /\ k = (Tickers.symbol r, 0).
Proof.
  intros rows k H. apply (proj1 (distinct_In _ _)) in H.
  apply in_map_iff in H. destruct H as [r [E Hr]]. exists r. auto.
Qed.

(** X23. [get_latest_prices] returns the empty dict when the query fails;
    otherwise a dict with one price for each symbol that has a ticker row
    strictly younger than five minutes, the [last_price] of the last such
    row of that symbol in scan order, and no entry for any other symbol. *)
Theorem get_latest_prices_spec : forall (now : Z) (db : database),
  get_latest_prices false now db = []
  /\ NoDup (map fst (get_latest_prices true now db))
  /\ (forall r, In r (recent_tickers now (coinbase_ticker db)) <->
                In r (coinbase_ticker db)
                /\ now - 5 * usec_per_minute < Tickers.timestamp r)
  /\ (forall s p,
        In (s, p) (get_latest_prices true now db) <->
        exists init r,
          filter (fun r => String.eqb (Tickers.symbol r) s)
                 (recent_tickers now (coinbase_ticker db)) = init ++ [r]
          /\ p = Tickers.last_price r).
Proof.
  intros now db. set (rows := recent_tickers now (coinbase_ticker db)).
  split; [reflexivity|]. split; [|split].
  - unfold get_latest_prices, group_by. fold rows. rewrite map_map. simpl.
    apply NoDup_map_on; [apply distinct_NoDup|].
    intros x y Hx Hy E.
    destruct (symbol_keys_zero _ _ Hx) as [rx [_ ->]].
    destruct (symbol_keys_zero _ _ Hy) as [ry [_ ->]].
    simpl in E. rewrite E. reflexivity.
  - intros r. unfold rows, recent_tickers, dateadd_m.
    rewrite filter_In, Z.ltb_lt. intuition lia.
  - intros s p. unfold get_latest_prices, group_by. fold rows. split.
    + intros H. apply in_map_iff in H. destruct H as [k [E Hk]].
      destruct (symbol_keys_zero _ _ Hk) as [r0 [_ ->]].
      simpl in E. inversion E; subst s p. clear E.
      apply (proj1 (distinct_In _ _)) in Hk.
      pose proof (group_of_member_nonempty symbol_key _ _ Hk) as Hne.
      rewrite symbol_group in *.
      destruct (exists_last Hne) as [init [r E]].
      exists init, r. split; [exact E|]. rewrite E, map_app. simpl.
      apply sql_last_spec.
    + intros [init [r [E ->]]].
      assert (Hr : In r (filter (fun r => String.eqb (Tickers.symbol r) s) rows))
        by (rewrite E; apply in_or_app; right; left; reflexivity).
      apply filter_In in Hr. destruct Hr as [Hin Hs].
      apply String.eqb_eq in Hs.
      apply in_map_iff. exists (s, 0). split.
      * simpl. rewrite symbol_group, E, map_app. simpl.
        rewrite sql_last_spec. reflexivity.
      * apply distinct_In. apply in_map_iff. exists r.
        split; [unfold symbol_key; rewrite Hs; reflexivity | exact Hin].
Qed.

Lemma get_latest_prices_spec_witness :
  In ("B", 21%Q)
     (get_latest_prices true (2 * usec_per_minute)
        Examples.two_symbols_db).
Proof.
  apply (proj2 (proj2 (proj2 (get_latest_prices_spec (2 * usec_per_minute)
                                Examples.two_symbols_db)))).
  exists [Examples.ticker_at "B" 45 20], (Examples.ticker_at "B" 70 21).
  split; reflexivity.
Defined.

Lemma insert_desc_perm : forall c l, Permutation (insert_desc c l) (c :: l).
Proof.
  intros c l. induction l as [|h t IH]; simpl; [reflexivity|].
  destruct (Candles.timestamp h <? Candles.timestamp c); [reflexivity|].
  rewrite IH. apply perm_swap.
Qed.

Lemma insert_desc_sorted : forall c l,
  StronglySorted newer_first l -> StronglySorted newer_first (insert_desc c l).
Proof.
  intros c l H. induction H as [|h t Ht IH Hh]; simpl.
  - repeat constructor.
  - destruct (Candles.timestamp h <? Candles.timestamp c) eqn:E.
    + apply Z.ltb_lt in E. constructor; [constructor; assumption|].
      constructor; [unfold newer_first; lia|].
      eapply Forall_impl; [|exact Hh]. unfold newer_first. intros x Hx. lia.
    + apply Z.ltb_ge in E. constructor; [exact IH|].
      eapply Permutation_Forall;
        [apply Permutation_sym, insert_desc_perm|].
      constructor; [exact E | exact Hh].
Qed.

Lemma order_by_timestamp_desc_spec : forall l,
  Permutation (order_by_timestamp_desc l) l
  /\ StronglySorted newer_first (order_by_timestamp_desc l).
Proof.
  induction l as [|c l [IHp IHs]]; simpl.
  - split; constructor.
  - split; [|apply insert_desc_sorted; exact IHs].
    rewrite insert_desc_perm. constructor. exact IHp.
Qed.

Lemma sorted_app : forall (a b : list Candles.row),
  StronglySorted newer_first (a ++ b) ->
  StronglySorted newer_first a
  /\ forall x y, In x a -> In y b -> newer_first x y.
Proof.
  induction a as [|h a IH]; intros b H; simpl in *.
  - split; [constructor | intros x y []].
  - inversion H as [|? ? Hs Hf]; subst. destruct (IH b Hs) as [Sa Hab].
    apply Forall_app in Hf. destruct Hf as [Fa Fb]. split.
    + constructor; assumption.
    + intros x y [<-|Hx] Hy; [|auto].
      rewrite Forall_forall in Fb. auto.
Qed.

(** X24. [get_recent_candles] returns the empty list when the query fails;
    otherwise, for a limit that is not negative, the selected columns of
    candle rows of the symbol, as many as the limit allows, newest first,
    and no candle of the symbol that is left out is newer than one that is
    returned. *)
Theorem get_recent_candles_spec :
  forall (symbol : string) (limit : Z) (db : database),
    get_recent_candles false symbol limit db = []
    /\ (0 <= limit ->
        let of_symbol :=
          filter (fun c => String.eqb (Candles.symbol c) symbol)
                 (coinbase_candles db) in
        exists chosen rest,
          get_recent_candles true symbol limit db = map view_of chosen
          /\ Permutation (chosen ++ rest) of_symbol
          /\ List.length chosen
             = Nat.min (Z.to_nat limit) (List.length of_symbol)
          /\ StronglySorted newer_first chosen
          /\ forall a b, In a chosen -> In b rest -> newer_first a b).
Proof.
  intros symbol limit db. split; [reflexivity|]. intros Hl of_symbol.
  destruct (order_by_timestamp_desc_spec of_symbol) as [Hp Hs].
  set (sorted := order_by_timestamp_desc of_symbol) in *.
  exists (firstn (Z.to_nat limit) sorted), (skipn (Z.to_nat limit) sorted).
  rewrite firstn_skipn. rewrite <- (firstn_skipn (Z.to_nat limit) sorted) in Hs.
  destruct (sorted_app _ _ Hs) as [S1 S2].
  split; [|split; [exact Hp|split; [|split; [exact S1 | exact S2]]]].
  - unfold get_recent_candles, sql_limit. fold of_symbol. fold sorted.
    apply Z.leb_le in Hl. rewrite Hl. reflexivity.
  - rewrite length_firstn, (Permutation_length Hp). reflexivity.
Qed.

Lemma get_recent_candles_spec_witness :
  exists chosen,
    get_recent_candles true "B" 1
      (generate_candles Examples.aligned_now Examples.two_symbols_db)
    = map view_of chosen
    /\ List.length chosen = 1%nat.
Proof.
  destruct (proj2 (get_recent_candles_spec "B" 1
                     (generate_candles Examples.aligned_now
                        Examples.two_symbols_db)))
    as [chosen [rest [E [_ [L _]]]]].
  - lia.
  - exists chosen. split; [exact E | exact L].
Defined.

(* ===================================================================== *)
(** * Further properties of the two feed loops *)
(* ===================================================================== *)

(** X25. [start] arms the manager whatever its flag was: the first thing
    it does on the transport is to connect; after [stop] the loop returns at
    once and connects no more. *)
Theorem start_connects_and_stop_ends : forall (script : list session) (w : world),
  (exists tl,
     trace (snd (CoinbaseWebSocketClient.start
                   QuestDBClient.insert_ticker QuestDBClient.insert_trade
                   [Main.broadcast_to_clients] script w))
     = trace w ++ Connect :: tl)
  /\ (CoinbaseWebSocketClient.stop ;;
      App.ws_client_connect_and_subscribe script) w
     = (Ret tt, set_running false w).
Proof.
  intros script w. split.
  - unfold CoinbaseWebSocketClient.start, bind at 1, modify.
    apply (app_loop_connects script (set_running true w)). reflexivity.
  - unfold CoinbaseWebSocketClient.stop, bind, modify.
    apply app_loop_stopped. reflexivity.
Qed.

(** X26. In crypto_ingestion.py a ticker or match frame that does not
    decode raises out of the receive loop, whatever the frame lacks: the
    world is left as it is and the frames that follow on the connection are
    not processed. *)
Theorem monolith_receive_raises_on_malformed :
  forall (data msg_type : pyval) (e : exn) (rest : list inbound)
         (fin : ending) (w : world),
    getitem data "type" = Ret msg_type ->
    (eq_str msg_type "ticker" = true /\ Ticker_of data = Raise e)
    \/ (eq_str msg_type "match" = true /\ Trade_of data = Raise e) ->
    CoinbaseDataIngestion.receive (Text data) w = (Raise e, w)
    /\ async_for CoinbaseDataIngestion.receive
         (Frame (Text data) :: rest) fin w = (Raise e, w).
Proof.
  intros data msg_type e rest fin w Ht H.
  assert (R : CoinbaseDataIngestion.receive (Text data) w = (Raise e, w)).
  { unfold CoinbaseDataIngestion.receive, json_loads, bind, lift, ret.
    destruct H as [[Hk He]|[Hk He]].
    - rewrite Ht, Hk, He. reflexivity.
    - rewrite Ht, (eq_str_match_not_ticker _ Hk), Hk, He. reflexivity. }
  split; [exact R|]. simpl. unfold bind at 1. rewrite R. reflexivity.
Qed.

Lemma monolith_receive_raises_on_malformed_witness :
  async_for CoinbaseDataIngestion.receive
    (Frame (Text Examples.ticker_without_bid)
     :: [Frame (Text Examples.good_trade)])
    ClosedOK Examples.one_client
  = (Raise KeyError, Examples.one_client).
Proof.
  apply (proj2 (monolith_receive_raises_on_malformed
                  Examples.ticker_without_bid (VStr "ticker") KeyError
                  [Frame (Text Examples.good_trade)] ClosedOK
                  Examples.one_client eq_refl
                  (or_introl (conj eq_refl (proj2 (proj2 examples_decode)))))).
Defined.
